(** * Marblez: physics integrator, collision resolver and jump state machine

    A shallow embedding of the simulation core of the marble game
    (src/components, src/systems, src/utils/Constants.js) together with the
    properties of its specification.

    Numbers.  JavaScript numbers are modelled by the real numbers [R]: every
    arithmetic operation of the source is the exact operation on reals, and
    the comparisons [<], [<=], [>], [!==] are the decidable order of [R] turned
    into booleans.  Rounding, NaN and signed zeros are outside the model.

    State.  Components are mutable JavaScript objects; here every method that
    mutates its receiver returns the updated record, and the systems thread
    the records of one entity through their passes.  The world is the list
    of its entities in insertion order (the iteration order of the [Map] the
    world keeps them in); a system that mutates an entity writes the entity
    back at its position in that list. *)

From Stdlib Require Import Reals Lra List Bool Arith NArith Lia.
Import ListNotations.

Local Open Scope R_scope.

(** ** Comparisons of numbers as booleans *)

Definition Rltb (a b : R) : bool := if Rlt_dec a b then true else false.
Definition Rleb (a b : R) : bool := if Rle_dec a b then true else false.
Definition Rneqb (a b : R) : bool := if Req_dec_T a b then false else true.

(** ** The parts of [Math] and of three.js the core uses *)

Module JSMath.

Definition abs (a : R) : R := Rabs a.
Definition min (a b : R) : R := Rmin a b.
Definition max (a b : R) : R := Rmax a b.

(** [Math.sign]: 1, -1 or 0. *)
Definition sign (a : R) : R :=
  if Rltb 0 a then 1 else if Rltb a 0 then -1 else 0.

End JSMath.

Module Vector3.

Record t : Type := mk { x : R; y : R; z : R }.

Definition zero : t := mk 0 0 0.

Definition length (v : t) : R := sqrt (x v * x v + y v * y v + z v * z v).

Definition distanceTo (a b : t) : R :=
  sqrt ((x a - x b) * (x a - x b) + (y a - y b) * (y a - y b)
        + (z a - z b) * (z a - z b)).

Definition subVectors (a b : t) : t := mk (x a - x b) (y a - y b) (z a - z b).

Definition add (a b : t) : t := mk (x a + x b) (y a + y b) (z a + z b).

Definition multiplyScalar (v : t) (s : R) : t := mk (x v * s) (y v * s) (z v * s).

Definition divideScalar (v : t) (s : R) : t := mk (x v / s) (y v / s) (z v / s).

(** [normalize] is [divideScalar(length() || 1)]: a zero vector stays zero. *)
Definition normalize (v : t) : t :=
  divideScalar v (if Rneqb (length v) 0 then length v else 1).

Definition dot (a b : t) : R := x a * x b + y a * y b + z a * z b.

End Vector3.

Module Vector2.

Record t : Type := mk { x : R; y : R }.

Definition length (v : t) : R := sqrt (x v * x v + y v * y v).

Definition multiplyScalar (v : t) (s : R) : t := mk (x v * s) (y v * s).

Definition divideScalar (v : t) (s : R) : t := mk (x v / s) (y v / s).

Definition normalize (v : t) : t :=
  divideScalar v (if Rneqb (length v) 0 then length v else 1).

End Vector2.

Abbreviation Vec3 := Vector3.t.
Abbreviation vec3 := Vector3.mk.

(** ** Constants (src/utils/Constants.js) *)

Module PHYSICS.
Definition GRAVITY : R := 15 / 1000.
Definition MARBLE_SPEED : R := 5 / 1000.
Definition JUMP_POWER : R := 4 / 10.
Definition AIR_CONTROL_FACTOR : R := 3 / 10.
Definition GROUND_FRICTION : R := 97 / 100.
Definition AIR_FRICTION : R := 99 / 100.
Definition BOUNCE_COEFFICIENT : R := 3 / 10.
End PHYSICS.

Module OBJECTS.
Definition MARBLE_RADIUS : R := 8 / 10.
Definition PLATFORM_SIZE : R := 100.
End OBJECTS.

(** ** Components *)

(** src/components/Transform *)
Record Transform : Type := mkTransform {
  position : Vec3;
  rotation : Vec3;
  scale : Vec3;
  previousPosition : Vec3
}.

Definition savePreviousPosition (t : Transform) : Transform :=
  mkTransform (position t) (rotation t) (scale t) (position t).

Definition setPosition (t : Transform) (p : Vec3) : Transform :=
  mkTransform p (rotation t) (scale t) (previousPosition t).

(** src/components/Physics.js *)
Record Physics : Type := mkPhysics {
  velocity : Vec3;
  mass : R;
  gravity : R;
  friction : R;
  airFriction : R;
  bounceCoefficient : R;
  isOnGround : bool;
  isStatic : bool
}.

Definition newPhysics (m g : R) : Physics :=
  mkPhysics Vector3.zero m g PHYSICS.GROUND_FRICTION PHYSICS.AIR_FRICTION
            PHYSICS.BOUNCE_COEFFICIENT false false.

Definition setVelocity (p : Physics) (v : Vec3) : Physics :=
  mkPhysics v (mass p) (gravity p) (friction p) (airFriction p)
            (bounceCoefficient p) (isOnGround p) (isStatic p).

Definition setIsOnGround (p : Physics) (b : bool) : Physics :=
  mkPhysics (velocity p) (mass p) (gravity p) (friction p) (airFriction p)
            (bounceCoefficient p) b (isStatic p).

(** src/components/PlayerControl.js *)
Record PlayerControl : Type := mkPlayerControl {
  speed : R;
  airControlFactor : R;
  moveDirectionX : R;
  moveDirectionZ : R
}.

(** src/components/Surface *)
Record Surface : Type := mkSurface {
  surfaceFriction : R;
  bounciness : R;
  isJumpable : bool;
  isRamp : bool;
  rampAngle : R;
  slideFactor : R
}.

(** src/components/Jump.js *)
Record Jump : Type := mkJump {
  jumpPower : R;
  isJumping : bool;
  isFalling : bool;
  isOnSurface : bool;
  jumpRequested : bool;
  canJump : bool;
  jumpCooldown : R;
  jumpCooldownTime : R
}.

Definition newJump (power : R) : Jump :=
  mkJump power false false true false true 0 (2 / 10).

Definition setFlags (j : Jump) (jumping falling onSurface : bool) : Jump :=
  mkJump (jumpPower j) jumping falling onSurface (jumpRequested j) (canJump j)
         (jumpCooldown j) (jumpCooldownTime j).

Definition requestJump (j : Jump) : Jump :=
  if canJump j && isOnSurface j && negb (isJumping j) && Rleb (jumpCooldown j) 0
  then mkJump (jumpPower j) (isJumping j) (isFalling j) (isOnSurface j) true
              (canJump j) (jumpCooldown j) (jumpCooldownTime j)
  else j.

(** Returns the updated component and the method's boolean result. *)
Definition executeJumpIfRequested (j : Jump) : Jump * bool :=
  if jumpRequested j
  then (mkJump (jumpPower j) true (isFalling j) false false (canJump j)
               (jumpCooldownTime j) (jumpCooldownTime j), true)
  else (j, false).

Definition updateCooldown (j : Jump) (deltaTime : R) : Jump :=
  if Rltb 0 (jumpCooldown j)
  then mkJump (jumpPower j) (isJumping j) (isFalling j) (isOnSurface j)
              (jumpRequested j) (canJump j) (jumpCooldown j - deltaTime)
              (jumpCooldownTime j)
  else j.

(** The TypeScript port of the same component (src/components/Jump.ts)
    differs in two methods; the unit tests of the component are written
    against this behaviour. *)
Module JumpTS.

Definition executeJumpIfRequested (j : Jump) : Jump * bool :=
  if jumpRequested j && isOnSurface j && Rleb (jumpCooldown j) 0
  then (mkJump (jumpPower j) true (isFalling j) false false (canJump j)
               (jumpCooldownTime j) (jumpCooldownTime j), true)
  else (j, false).

Definition updateCooldown (j : Jump) (deltaTime : R) : Jump :=
  if Rltb 0 (jumpCooldown j)
  then mkJump (jumpPower j) (isJumping j) (isFalling j) (isOnSurface j)
              (jumpRequested j) (canJump j)
              (JSMath.max 0 (jumpCooldown j - deltaTime))
              (jumpCooldownTime j)
  else j.

End JumpTS.

(** ** Colliders and entities *)

Inductive ColliderType : Type := sphere | box | torus | otherType.

(** src/components/Collider.js: [type], the fields of [params] the collision
    tests read, and [isTrigger]. *)
Record Collider : Type := mkCollider {
  type : ColliderType;
  radius : R;
  width : R;
  height : R;
  depth : R;
  tube : R;
  isTrigger : bool
}.

(** An entity is its identifier and the components it may carry
    (src/engine/ecs/Entity.js); [marbleTag] tells whether it carries the
    marble tag component. *)
Record Entity : Type := mkEntity {
  id : nat;
  marbleTag : bool;
  transform : option Transform;
  physics : option Physics;
  collider : option Collider;
  jump : option Jump;
  surface : option Surface;
  playerControl : option PlayerControl
}.

Definition World : Type := list Entity.

(** The mutation of the components of an entity by a system. *)
Definition withState (e : Entity) (t : Transform) (p : Physics) (j : option Jump)
  : Entity :=
  mkEntity (id e) (marbleTag e) (Some t) (Some p) (collider e) j (surface e)
           (playerControl e).

(** Writes [e] at position [i] of the world; positions past the end do not
    occur in the systems, the world is then left as it is. *)
Fixpoint writeAt (w : World) (i : nat) (e : Entity) : World :=
  match w, i with
  | [], _ => []
  | _ :: rest, O => e :: rest
  | a :: rest, S k => a :: writeAt rest k e
  end.

(** ** PhysicsSystem (src/systems/PhysicsSystem.js) *)

Module PhysicsSystem.

Definition processPlayerMovement (physics : Physics) (pc : PlayerControl)
  : Physics :=
  let speed := if isOnGround physics then speed pc
               else speed pc * airControlFactor pc in
  let v := velocity physics in
  setVelocity physics
    (vec3 (Vector3.x v + moveDirectionX pc * speed)
          (Vector3.y v)
          (Vector3.z v + moveDirectionZ pc * speed)).

(** The launch step: [if (jump.executeJumpIfRequested()) { ... }]. *)
Definition launch (transform : Transform) (physics : Physics) (jump : Jump)
  : Transform * Physics * Jump :=
  let '(jump1, executed) := executeJumpIfRequested jump in
  if executed then
    let v := velocity physics in
    let p := position transform in
    (setPosition transform
       (vec3 (Vector3.x p) (Vector3.y p + 5 / 100) (Vector3.z p)),
     setVelocity physics (vec3 (Vector3.x v) (jumpPower jump1) (Vector3.z v)),
     jump1)
  else (transform, physics, jump1).

(** Gravity while off the surface, then the apex test. *)
Definition gravityAndApex (physics : Physics) (jump : Jump) : Physics * Jump :=
  let physics1 :=
    if negb (isOnSurface jump) then
      let v := velocity physics in
      setVelocity physics
        (vec3 (Vector3.x v) (Vector3.y v - gravity physics) (Vector3.z v))
    else physics in
  let jump1 :=
    if isJumping jump && Rltb (Vector3.y (velocity physics1)) 0
    then setFlags jump false true (isOnSurface jump)
    else jump in
  (physics1, jump1).

Definition processJumping (transform : Transform) (physics : Physics)
           (jump : Jump) (deltaTime : R) : Transform * Physics * Jump :=
  let jump0 := updateCooldown jump deltaTime in
  let '(transform1, physics1, jump1) := launch transform physics jump0 in
  let '(physics2, jump2) := gravityAndApex physics1 jump1 in
  (transform1, physics2, jump2).

Definition applyVelocity (transform : Transform) (physics : Physics) : Transform :=
  setPosition transform (Vector3.add (position transform) (velocity physics)).

Definition applyFriction (physics : Physics) : Physics :=
  let f := if isOnGround physics then friction physics else airFriction physics in
  let v := velocity physics in
  setVelocity physics (vec3 (Vector3.x v * f) (Vector3.y v) (Vector3.z v * f)).

(** The body of the loop of [update] for one entity that has a Transform
    and a Physics component; [pc] and [jump] are its optional PlayerControl
    and Jump components. *)
Definition updateEntity (deltaTime : R) (transform : Transform)
           (physics : Physics) (pc : option PlayerControl) (jump : option Jump)
  : Transform * Physics * option Jump :=
  if isStatic physics then (transform, physics, jump)
  else
    let transform0 := savePreviousPosition transform in
    let physics0 :=
      match pc with
      | Some c => processPlayerMovement physics c
      | None => physics
      end in
    let '(transform1, physics1, jump1) :=
      match jump with
      | Some j =>
          let '(t1, p1, j1) := processJumping transform0 physics0 j deltaTime in
          (t1, p1, Some j1)
      | None =>
          (transform0,
           (if negb (isOnGround physics0) then
              let v := velocity physics0 in
              setVelocity physics0
                (vec3 (Vector3.x v) (Vector3.y v - gravity physics0) (Vector3.z v))
            else physics0),
           None)
      end in
    let transform2 := applyVelocity transform1 physics1 in
    (transform2, applyFriction physics1, jump1).

(** [update]: the loop over the entities that have a Transform and a
    Physics component. *)
Definition update (deltaTime : R) (w : World) : World :=
  map (fun e =>
         match transform e, physics e with
         | Some t, Some p =>
             let '(t', p', j') :=
               updateEntity deltaTime t p (playerControl e) (jump e) in
             withState e t' p' j'
         | _, _ => e
         end) w.

End PhysicsSystem.

(** ** JumpSystem (src/systems/JumpSystem.ts) *)

Module JumpSystem.

(** The body of the loop of [update] for one entity. *)
Definition updateEntity (physics : Physics) (jump : Jump) : Physics * Jump :=
  let '(physics1, jump1) :=
    if (isJumping jump || isFalling jump) && isOnSurface jump
    then (setVelocity physics
            (vec3 (Vector3.x (velocity physics)) 0 (Vector3.z (velocity physics))),
          setFlags jump false false (isOnSurface jump))
    else (physics, jump) in
  let jump2 :=
    if isJumping jump1 && Rltb (Vector3.y (velocity physics1)) 0
    then setFlags jump1 false true (isOnSurface jump1)
    else jump1 in
  let jump3 :=
    if negb (isOnSurface jump2) && negb (isJumping jump2) && negb (isFalling jump2)
    then setFlags jump2 (isJumping jump2) true (isOnSurface jump2)
    else jump2 in
  (physics1, jump3).

(** [update]: the loop over the entities that have a Transform, a Physics
    and a Jump component. *)
Definition update (w : World) : World :=
  map (fun e =>
         match transform e, physics e, jump e with
         | Some t, Some p, Some j =>
             let '(p', j') := updateEntity p j in
             withState e t p' (Some j')
         | _, _, _ => e
         end) w.

End JumpSystem.

(** ** CollisionSystem (src/systems/CollisionSystem.js) *)

Record CollisionResult : Type := mkResult {
  collided : bool;
  normal : Vec3;
  penetration : R
}.

Definition noCollision : CollisionResult := mkResult false Vector3.zero 0.

Definition rotationIsSet (r : Vec3) : bool :=
  Rneqb (Vector3.x r) 0 || Rneqb (Vector3.y r) 0 || Rneqb (Vector3.z r) 0.

Section CollisionSystem.

(** three.js rotates points by Euler angles through a 4x4 matrix.
    [applyEuler r v] stands for
    [v.applyMatrix4(new Matrix4().makeRotationFromEuler(new Euler(r.x, r.y, r.z)))]
    and [applyEulerInverse r v] for the same with the inverted matrix. *)
Variable applyEuler : Vec3 -> Vec3 -> Vec3.
Variable applyEulerInverse : Vec3 -> Vec3 -> Vec3.

(** The normal chosen when the sphere centre lies inside the box. *)
Definition closestFaceNormal (localSpherePos : Vec3)
           (halfWidth halfHeight halfDepth : R) : Vec3 :=
  let dx := halfWidth - JSMath.abs (Vector3.x localSpherePos) in
  let dy := halfHeight - JSMath.abs (Vector3.y localSpherePos) in
  let dz := halfDepth - JSMath.abs (Vector3.z localSpherePos) in
  if Rltb dx dy && Rltb dx dz then
    vec3 (JSMath.sign (Vector3.x localSpherePos)) 0 0
  else if Rltb dy dx && Rltb dy dz then
    vec3 0 (JSMath.sign (Vector3.y localSpherePos)) 0
  else
    vec3 0 0 (JSMath.sign (Vector3.z localSpherePos)).

(** The test in the frame of the box: centre [localSpherePos], box
    half extents. *)
Definition sphereBoxLocal (localSpherePos : Vec3) (sphereRadius : R)
           (halfWidth halfHeight halfDepth : R) : CollisionResult :=
  let closestPoint :=
    vec3 (JSMath.max (- halfWidth) (JSMath.min halfWidth (Vector3.x localSpherePos)))
         (JSMath.max (- halfHeight) (JSMath.min halfHeight (Vector3.y localSpherePos)))
         (JSMath.max (- halfDepth) (JSMath.min halfDepth (Vector3.z localSpherePos))) in
  let distance := Vector3.distanceTo localSpherePos closestPoint in
  if Rltb distance sphereRadius then
    mkResult true
      (if Rltb 0 distance
       then Vector3.normalize (Vector3.subVectors localSpherePos closestPoint)
       else closestFaceNormal localSpherePos halfWidth halfHeight halfDepth)
      (sphereRadius - distance)
  else noCollision.

Definition checkSphereBoxCollision (spherePos : Vec3) (sphereRadius : R)
           (boxPos boxRot : Vec3) (boxWidth boxHeight boxDepth : R)
  : CollisionResult :=
  let localSpherePos0 := Vector3.subVectors spherePos boxPos in
  let localSpherePos :=
    if rotationIsSet boxRot then applyEulerInverse boxRot localSpherePos0
    else localSpherePos0 in
  let result :=
    sphereBoxLocal localSpherePos sphereRadius
                   (boxWidth / 2) (boxHeight / 2) (boxDepth / 2) in
  if collided result then
    mkResult true
      (if rotationIsSet boxRot then applyEuler boxRot (normal result)
       else normal result)
      (penetration result)
  else result.

Definition checkSphereSphereCollision (pos1 : Vec3) (radius1 : R)
           (pos2 : Vec3) (radius2 : R) : CollisionResult :=
  let radiusSum := radius1 + radius2 in
  let distance := Vector3.distanceTo pos1 pos2 in
  if Rltb distance radiusSum then
    mkResult true
      (if Rltb 0 distance
       then Vector3.normalize (Vector3.subVectors pos1 pos2)
       else vec3 0 1 0)
      (radiusSum - distance)
  else noCollision.

(** The test in the frame of the torus (ring in the XZ plane). *)
Definition sphereTorusLocal (localSpherePos : Vec3) (sphereRadius : R)
           (torusRadius torusTube : R) : CollisionResult :=
  let sphereXZ := Vector2.mk (Vector3.x localSpherePos) (Vector3.z localSpherePos) in
  let distanceFromCenter := Vector2.length sphereXZ in
  let innerRadius := torusRadius - torusTube - sphereRadius in
  if Rltb distanceFromCenter innerRadius
     && Rltb (JSMath.abs (Vector3.y localSpherePos)) (torusTube + sphereRadius)
  then noCollision
  else
    let closestPointOnCircle :=
      if Rltb 0 distanceFromCenter
      then Vector2.multiplyScalar (Vector2.normalize sphereXZ) torusRadius
      else Vector2.mk 0 0 in
    let closestPoint0 :=
      vec3 (Vector2.x closestPointOnCircle) (Vector3.y localSpherePos)
           (Vector2.y closestPointOnCircle) in
    let directionFromCircle := Vector3.subVectors localSpherePos closestPoint0 in
    let closestPoint :=
      if Rltb 0 (Vector3.length directionFromCircle)
      then Vector3.add closestPoint0
             (Vector3.multiplyScalar (Vector3.normalize directionFromCircle)
                                     torusTube)
      else closestPoint0 in
    let distance := Vector3.distanceTo localSpherePos closestPoint in
    if Rltb distance sphereRadius then
      mkResult true
        (if Rltb 0 distance
         then Vector3.normalize (Vector3.subVectors localSpherePos closestPoint)
         else vec3 0 1 0)
        (sphereRadius - distance)
    else noCollision.

Definition checkSphereTorusCollision (spherePos : Vec3) (sphereRadius : R)
           (torusPos torusRot : Vec3) (torusRadius torusTube : R)
  : CollisionResult :=
  let localSpherePos :=
    applyEulerInverse torusRot (Vector3.subVectors spherePos torusPos) in
  let result := sphereTorusLocal localSpherePos sphereRadius torusRadius torusTube in
  if collided result then
    mkResult true (applyEuler torusRot (normal result)) (penetration result)
  else result.

Definition checkCollision (transformA : Transform) (colliderA : Collider)
           (transformB : Transform) (colliderB : Collider) : CollisionResult :=
  match type colliderA, type colliderB with
  | sphere, box =>
      checkSphereBoxCollision (position transformA) (radius colliderA)
        (position transformB) (rotation transformB)
        (width colliderB) (height colliderB) (depth colliderB)
  | box, sphere =>
      checkSphereBoxCollision (position transformB) (radius colliderB)
        (position transformA) (rotation transformA)
        (width colliderA) (height colliderA) (depth colliderA)
  | sphere, sphere =>
      checkSphereSphereCollision (position transformA) (radius colliderA)
        (position transformB) (radius colliderB)
  | sphere, torus =>
      checkSphereTorusCollision (position transformA) (radius colliderA)
        (position transformB) (rotation transformB)
        (radius colliderB) (tube colliderB)
  | torus, sphere =>
      checkSphereTorusCollision (position transformB) (radius colliderB)
        (position transformA) (rotation transformA)
        (radius colliderA) (tube colliderA)
  | _, _ => noCollision
  end.

(** The state of the marble the pass mutates: its Transform, its Physics
    and, when it has one, its Jump component. *)
Definition MarbleState : Type := (Transform * Physics * option Jump)%type.

Definition respawnMarble (transform : Transform) (physics : Physics)
           (jump : option Jump) : MarbleState :=
  (setPosition transform (vec3 0 OBJECTS.MARBLE_RADIUS 0),
   setIsOnGround (setVelocity physics (vec3 0 0 0)) true,
   option_map (fun j => setFlags j false false true) jump).

Definition checkBoundaryCollisions (transform : Transform) (physics : Physics)
           (jump : option Jump) : MarbleState :=
  let platformSize := OBJECTS.PLATFORM_SIZE in
  let p := position transform in
  let v := velocity physics in
  if Rleb (JSMath.abs (Vector3.x p)) platformSize
     && Rleb (JSMath.abs (Vector3.z p)) platformSize then
    if Rleb (Vector3.y p) (OBJECTS.MARBLE_RADIUS + 1 / 10) then
      if Rleb (Vector3.y v) 0 then
        (setPosition transform (vec3 (Vector3.x p) OBJECTS.MARBLE_RADIUS (Vector3.z p)),
         setVelocity (setIsOnGround physics true)
           (vec3 (Vector3.x v)
                 (if Rltb (Vector3.y v) (- (5 / 100))
                  then - Vector3.y v * bounceCoefficient physics
                  else 0)
                 (Vector3.z v)),
         option_map (fun j => setFlags j false false true) jump)
      else (transform, physics, jump)
    else (transform, physics, jump)
  else if Rltb (Vector3.y p) (- 20) then respawnMarble transform physics jump
  else (transform, physics, jump).

Definition resolveCollision (marbleTransform : Transform)
           (marblePhysics : Physics) (marbleJump : option Jump)
           (otherCollider : Collider) (otherSurface : option Surface)
           (otherPhysics : option Physics) (collision : CollisionResult)
  : MarbleState :=
  if isTrigger otherCollider then (marbleTransform, marblePhysics, marbleJump)
  else
    let n := normal collision in
    let v := velocity marblePhysics in
    let ov := match otherPhysics with
              | Some op => velocity op
              | None => Vector3.zero
              end in
    let relativeVelocity := Vector3.subVectors v ov in
    let dotProduct := Vector3.dot relativeVelocity n in
    if Rltb dotProduct 0 then
      let bounceFactor :=
        JSMath.min (bounceCoefficient marblePhysics)
                   (match otherSurface with
                    | Some s => bounciness s
                    | None => bounceCoefficient marblePhysics
                    end) in
      let impulse := - (1 + bounceFactor) * dotProduct in
      let v1 := vec3 (Vector3.x v + impulse * Vector3.x n)
                     (Vector3.y v + impulse * Vector3.y n)
                     (Vector3.z v + impulse * Vector3.z n) in
      let p := position marbleTransform in
      let transform1 :=
        setPosition marbleTransform
          (vec3 (Vector3.x p + Vector3.x n * penetration collision)
                (Vector3.y p + Vector3.y n * penetration collision)
                (Vector3.z p + Vector3.z n * penetration collision)) in
      if Rltb (1 / 10) (Vector3.y n) then
        let jump1 :=
          option_map
            (fun j => setFlags j
                        (if Rleb (Vector3.y v1) 0 then false else isJumping j)
                        false true)
            marbleJump in
        let frictionFactor :=
          match otherSurface with
          | Some s => surfaceFriction s
          | None => friction marblePhysics
          end in
        let slide :=
          match otherSurface with
          | Some s =>
              if isRamp s
              then sin (rampAngle s) * gravity marblePhysics * slideFactor s
              else 0
          | None => 0
          end in
        (transform1,
         setVelocity (setIsOnGround marblePhysics true)
           (vec3 (Vector3.x v1 * frictionFactor) (Vector3.y v1)
                 (Vector3.z v1 * frictionFactor + slide)),
         jump1)
      else (transform1, setVelocity marblePhysics v1, marbleJump)
    else (marbleTransform, marblePhysics, marbleJump).

(** One iteration of the inner loop of [update]: the marble against
    [entity]. *)
Definition collideWith (marbleId : nat) (marbleCollider : Collider)
           (st : MarbleState) (entity : Entity) : MarbleState :=
  let '(marbleTransform, marblePhysics, marbleJump) := st in
  if Nat.eqb (id entity) marbleId then st
  else
    match transform entity, collider entity with
    | Some entityTransform, Some entityCollider =>
        let collision :=
          checkCollision marbleTransform marbleCollider
                         entityTransform entityCollider in
        if collided collision then
          resolveCollision marbleTransform marblePhysics marbleJump
                           entityCollider (surface entity) (physics entity)
                           collision
        else st
    | _, _ => st
    end.

(** The start of the pass over one marble: the surface flags are reset. *)
Definition resetSurface (physics : Physics) (jump : option Jump)
  : Physics * option Jump :=
  (setIsOnGround physics false,
   option_map (fun j => setFlags j (isJumping j) (isFalling j) false) jump).

(** The body of the outer loop of [update] for one marble, against the
    entities of the world. *)
Definition marblePass (marbleId : nat) (marbleCollider : Collider)
           (entities : list Entity) (st : MarbleState) : MarbleState :=
  let '(marbleTransform, marblePhysics0, marbleJump0) := st in
  let '(marblePhysics, marbleJump) := resetSurface marblePhysics0 marbleJump0 in
  fold_left (collideWith marbleId marbleCollider) entities
    (checkBoundaryCollisions marbleTransform marblePhysics marbleJump).

Definition isMarble (e : Entity) : bool :=
  marbleTag e
  && match transform e, collider e, physics e with
     | Some _, Some _, Some _ => true
     | _, _, _ => false
     end.

(** [getEntities()]: the entities that have a Transform and a Collider. *)
Definition getEntities (w : World) : list Entity :=
  filter (fun e => match transform e, collider e with
                   | Some _, Some _ => true
                   | _, _ => false
                   end) w.

(** The entity at position [i] is processed as a marble and written back. *)
Definition processMarble (w : World) (i : nat) : World :=
  match nth_error w i with
  | Some m =>
      match transform m, collider m, physics m with
      | Some t, Some c, Some p =>
          let '(t', p', j') :=
            marblePass (id m) c (getEntities w) (t, p, jump m) in
          writeAt w i (withState m t' p' j')
      | _, _, _ => w
      end
  | None => w
  end.

(** The positions of the marbles, found before the loop starts. *)
Definition marbles (w : World) : list nat :=
  filter (fun i => match nth_error w i with
                   | Some e => isMarble e
                   | None => false
                   end)
         (seq 0 (List.length w)).

Definition update (w : World) : World :=
  fold_left processMarble (marbles w) w.

End CollisionSystem.

(** ** The passes of a tick over one controllable marble

    The game loop (src/main.js) runs the systems in the order InputSystem,
    JumpSystem, PhysicsSystem, CollisionSystem.  The definitions below follow
    one entity that carries a Transform, a Physics and a Jump component
    through these passes. *)

Section Simulation.

Variable applyEuler : Vec3 -> Vec3 -> Vec3.
Variable applyEulerInverse : Vec3 -> Vec3 -> Vec3.

Definition JumperState : Type := (Transform * Physics * Jump)%type.

Definition jumpOf (st : JumperState) : Jump := snd st.
Definition physicsOf (st : JumperState) : Physics := snd (fst st).
Definition transformOf (st : JumperState) : Transform := fst (fst st).

Inductive Pass : Type :=
| RequestJump
    (** InputSystem.update with the jump key down: [jump.requestJump()] *)
| JumpTransition
    (** JumpSystem.update *)
| Integrate (deltaTime : R) (control : option PlayerControl)
    (** PhysicsSystem.update *)
| Resolve (marbleId : nat) (marbleCollider : Collider) (entities : list Entity)
    (** CollisionSystem.update, the marble against [entities] *).

(** A pass never removes the Jump component; [keepJump] reads it back. *)
Definition keepJump (j : Jump) (r : Transform * Physics * option Jump)
  : JumperState :=
  match r with
  | (t, p, Some j') => (t, p, j')
  | (t, p, None) => (t, p, j)
  end.

Definition runPass (st : JumperState) (a : Pass) : JumperState :=
  let '(t, p, j) := st in
  match a with
  | RequestJump => (t, p, requestJump j)
  | JumpTransition =>
      let '(p', j') := JumpSystem.updateEntity p j in (t, p', j')
  | Integrate deltaTime control =>
      keepJump j (PhysicsSystem.updateEntity deltaTime t p control (Some j))
  | Resolve marbleId marbleCollider entities =>
      keepJump j (marblePass applyEuler applyEulerInverse marbleId
                             marbleCollider entities (t, p, Some j))
  end.

Definition runPasses (st : JumperState) (l : list Pass) : JumperState :=
  fold_left runPass l st.

(** What one tick receives from outside. *)
Record TickInput : Type := mkTickInput {
  jumpKey : bool;
  tickDelta : R;
  tickControl : option PlayerControl;
  tickMarbleId : nat;
  tickCollider : Collider;
  tickEntities : list Entity
}.

(** The passes of one tick, in the order of the game loop. *)
Definition tickPasses (i : TickInput) : list Pass :=
  (if jumpKey i then [RequestJump] else [])
  ++ [JumpTransition;
      Integrate (tickDelta i) (tickControl i);
      Resolve (tickMarbleId i) (tickCollider i) (tickEntities i)].

Definition runTicks (st : JumperState) (l : list TickInput) : JumperState :=
  fold_left (fun s i => runPasses s (tickPasses i)) l st.

(** The Grounded state of the jump state machine. *)
Definition Grounded (j : Jump) : Prop :=
  isOnSurface j = true /\ isJumping j = false /\ isFalling j = false.

End Simulation.

(** ** Data used in examples *)

(** The marble as the factory creates it, at rest on the platform. *)
Definition marbleTransform0 : Transform :=
  mkTransform (vec3 0 OBJECTS.MARBLE_RADIUS 0) Vector3.zero (vec3 1 1 1)
              (vec3 0 OBJECTS.MARBLE_RADIUS 0).
Definition marblePhysics0 : Physics := newPhysics 1 PHYSICS.GRAVITY.
Definition marbleJump0 : Jump := newJump PHYSICS.JUMP_POWER.

(** The same Physics component with other friction coefficients. *)
Definition setFriction (p : Physics) (ground air : R) : Physics :=
  mkPhysics (velocity p) (mass p) (gravity p) ground air
            (bounceCoefficient p) (isOnGround p) (isStatic p).

(** The horizontal acceleration the integrator adds for the movement intent
    of the player in one call: none for a static object or an object
    without PlayerControl. *)
Definition intentX (p : Physics) (pc : option PlayerControl) : R :=
  if isStatic p then 0
  else match pc with
       | Some c => moveDirectionX c
                   * (if isOnGround p then speed c else speed c * airControlFactor c)
       | None => 0
       end.

Definition intentZ (p : Physics) (pc : option PlayerControl) : R :=
  if isStatic p then 0
  else match pc with
       | Some c => moveDirectionZ c
                   * (if isOnGround p then speed c else speed c * airControlFactor c)
       | None => 0
       end.

(** An entity that cannot push the marble [marbleId]: the marble itself, an
    entity without a Physics component, or one whose velocity is zero. *)
Definition atRest (marbleId : nat) (e : Entity) : Prop :=
  id e = marbleId
  \/ match physics e with
     | Some q => velocity q = Vector3.zero
     | None => True
     end.

(** The respawn state of the claim about falling out of the world. *)
Definition Respawned (st : Transform * Physics * option Jump) : Prop :=
  let '(t, p, oj) := st in
  position t = vec3 0 OBJECTS.MARBLE_RADIUS 0
  /\ velocity p = vec3 0 0 0
  /\ isOnGround p = true
  /\ match oj with
     | Some j => isOnSurface j = true /\ isJumping j = false /\ isFalling j = false
     | None => True
     end.

(** A marble that has fallen off the platform edge, still falling. *)
Definition fallenTransform : Transform :=
  mkTransform (vec3 150 (- 100) 0) Vector3.zero (vec3 1 1 1) (vec3 150 (- 95) 0).
Definition fallenPhysics : Physics :=
  setVelocity marblePhysics0 (vec3 1 (- 5) 0).
Definition fallenJump : Jump :=
  mkJump PHYSICS.JUMP_POWER false true false false true 0 (2 / 10).

Definition marbleCollider0 : Collider :=
  mkCollider sphere OBJECTS.MARBLE_RADIUS 0 0 0 0 false.

(** The rotation of three.js at the zero Euler angles. *)
Definition noRotation : Vec3 -> Vec3 -> Vec3 := fun _ v => v.

(** The marble entity of the factory and the main platform under it, a
    static box with the default surface. *)
Definition marbleEntity (t : Transform) (p : Physics) (j : Jump) : Entity :=
  mkEntity 1 true (Some t) (Some p) (Some marbleCollider0) (Some j) None None.

Definition staticPhysics : Physics :=
  mkPhysics Vector3.zero 0 0 PHYSICS.GROUND_FRICTION PHYSICS.AIR_FRICTION
            PHYSICS.BOUNCE_COEFFICIENT false true.

Definition platformEntity : Entity :=
  mkEntity 2 false
    (Some (mkTransform (vec3 0 0 0) Vector3.zero (vec3 1 1 1) (vec3 0 0 0)))
    (Some staticPhysics)
    (Some (mkCollider box 0 (OBJECTS.PLATFORM_SIZE * 2) (1 / 10)
                      (OBJECTS.PLATFORM_SIZE * 2) 0 false))
    None
    (Some (mkSurface PHYSICS.GROUND_FRICTION PHYSICS.BOUNCE_COEFFICIENT true false 0 1))
    None.

(** A marble whose Physics component is marked static, fallen off the
    platform. *)
Definition staticMarbleEntity : Entity :=
  mkEntity 1 true (Some fallenTransform)
           (Some (mkPhysics (vec3 1 (- 5) 0) 1 PHYSICS.GRAVITY PHYSICS.GROUND_FRICTION
                            PHYSICS.AIR_FRICTION PHYSICS.BOUNCE_COEFFICIENT false true))
           (Some marbleCollider0) None None None.

(** A sphere of the size of the marble whose centre is one unit from the
    spawn point, at the height of the marble, moving toward the spawn point
    at one unit per tick: an entity with a Transform, a sphere Collider and a
    Physics component, without a Surface. *)
Definition pusherEntity : Entity :=
  mkEntity 2 false
    (Some (mkTransform (vec3 1 OBJECTS.MARBLE_RADIUS 0) Vector3.zero (vec3 1 1 1)
                       (vec3 1 OBJECTS.MARBLE_RADIUS 0)))
    (Some (setVelocity marblePhysics0 (vec3 (- 1) 0 0)))
    (Some (mkCollider sphere OBJECTS.MARBLE_RADIUS 0 0 0 0 false))
    None None None.

(** ** Invariants of the jump state machine *)

(** The two airborne flags are not both set. *)
Definition Exclusive (j : Jump) : Prop := isJumping j && isFalling j = false.

(** What holds of the marble between two ticks.  A static marble is never
    launched, for the integrator skips it; a pending request of any other
    marble was latched on the surface. *)
Definition TickInv (st : Transform * Physics * Jump) : Prop :=
  let '(_, p, j) := st in
  Exclusive j
  /\ (isOnSurface j = true -> isFalling j = false)
  /\ (if isStatic p then isJumping j = false
      else jumpRequested j = true -> isOnSurface j = true /\ isJumping j = false).

(** What holds after the jump-transition pass of a tick. *)
Definition AfterTransitionInv (st : Transform * Physics * Jump) : Prop :=
  let '(_, p, j) := st in
  Exclusive j
  /\ (if isStatic p then isJumping j = false
      else jumpRequested j = true -> isFalling j = false).

(** What holds after the integrator pass of a tick. *)
Definition AfterIntegrateInv (st : Transform * Physics * Jump) : Prop :=
  let '(_, p, j) := st in
  Exclusive j
  /\ (if isStatic p then isJumping j = false else jumpRequested j = false).

(** What holds of the marble all along the resolver pass, once the surface
    flags are reset; [s] is the static flag of the marble. *)
Definition ResolveInv (s : bool) (st : Transform * Physics * option Jump) : Prop :=
  let '(_, p, oj) := st in
  isStatic p = s
  /\ match oj with
     | Some j =>
         Exclusive j
         /\ (isOnSurface j = true -> isFalling j = false)
         /\ (if s then isJumping j = false else jumpRequested j = false)
     | None => False
     end.

(** The marble of the factory spawned in the air above the platform. *)
Definition airTransform : Transform :=
  mkTransform (vec3 0 10 0) Vector3.zero (vec3 1 1 1) (vec3 0 10 0).

(** ** Repeated integrator calls *)

(** [n] successive calls of the per-object pass of PhysicsSystem.update on
    the same object, with the same time step and player control. *)
Fixpoint integrateTimes (n : nat) (deltaTime : R) (pc : option PlayerControl)
         (st : Transform * Physics * option Jump) : Transform * Physics * option Jump :=
  match n with
  | O => st
  | S k =>
      let '(t, p, oj) := st in
      integrateTimes k deltaTime pc (PhysicsSystem.updateEntity deltaTime t p pc oj)
  end.

(** ** PlayerControl.setMoveDirection (src/components/PlayerControl.js) *)

(** The entries of the key table of the input manager the method reads. *)
Record Keys : Type := mkKeys {
  key_w : bool;
  key_s : bool;
  key_a : bool;
  key_d : bool;
  key_ArrowUp : bool;
  key_ArrowDown : bool;
  key_ArrowLeft : bool;
  key_ArrowRight : bool
}.

Definition setMoveDirection (pc : PlayerControl) (keys : Keys) (cameraAngle : R)
  : PlayerControl :=
  let usingArrowsForCamera :=
    (key_ArrowLeft keys || key_ArrowRight keys)
    && negb (key_w keys || key_s keys || key_ArrowUp keys || key_ArrowDown keys) in
  let z0 := if key_w keys || key_ArrowUp keys then - 1
            else if key_s keys || key_ArrowDown keys then 1 else 0 in
  let x0 := if key_a keys || (key_ArrowLeft keys && negb usingArrowsForCamera) then - 1
            else if key_d keys || (key_ArrowRight keys && negb usingArrowsForCamera)
                 then 1 else 0 in
  let length := sqrt (x0 * x0 + z0 * z0) in
  let x1 := if Rltb 0 length then x0 / length else x0 in
  let z1 := if Rltb 0 length then z0 / length else z0 in
  if Rltb 0 length && Rneqb cameraAngle 0 then
    mkPlayerControl (speed pc) (airControlFactor pc)
                    (x1 * cos cameraAngle + z1 * sin cameraAngle)
                    (z1 * cos cameraAngle - x1 * sin cameraAngle)
  else mkPlayerControl (speed pc) (airControlFactor pc) x1 z1.

(** ** World: entity creation and removal (src/engine/ecs/World.ts) *)

Module Ecs.

(** The [entities] map, as its entries in insertion order, and the id
    counter [nextEntityId], a JavaScript number holding an integer. *)
Record World : Type := mk {
  entities : list (nat * Entity);
  nextEntityId : N
}.

(** [new World()] *)
Definition empty : World := mk [] 1%N.

(** [new Entity(id)]: no component yet. *)
Definition newEntity (i : nat) : Entity :=
  mkEntity i false None None None None None None.

(** 2^53, the integer at which adding 1 to a JavaScript number no longer
    changes it. *)
Definition maxCounter : N := 9007199254740992%N.

(** The value [nextEntityId++] leaves in the counter: below 2^53 the
    successor, which is exact; at 2^53 the sum 2^53 + 1 rounds back to 2^53
    and the counter stays where it is.  The counter starts at 1 and is
    written by this increment only, so it never holds a value above 2^53. *)
Definition increment (n : N) : N :=
  if (n <? maxCounter)%N then (n + 1)%N else n.

(** [Map.prototype.set]: an existing key keeps its place and takes the new
    value, a new key is appended. *)
Fixpoint mapSet (k : nat) (e : Entity) (l : list (nat * Entity))
  : list (nat * Entity) :=
  match l with
  | [] => [(k, e)]
  | (k', e') :: rest =>
      if Nat.eqb k' k then (k, e) :: rest else (k', e') :: mapSet k e rest
  end.

(** [Map.prototype.delete] *)
Definition mapDelete (k : nat) (l : list (nat * Entity)) : list (nat * Entity) :=
  filter (fun kv => negb (Nat.eqb (fst kv) k)) l.

Definition createEntity (w : World) : Entity * World :=
  let entity := newEntity (N.to_nat (nextEntityId w)) in
  (entity, mk (mapSet (id entity) entity (entities w)) (increment (nextEntityId w))).

Definition removeEntity (w : World) (entity : Entity) : World :=
  mk (mapDelete (id entity) (entities w)) (nextEntityId w).

(** A call made on the world by the game. *)
Inductive Call : Type :=
| Create
| Remove (entity : Entity).

Definition call (w : World) (c : Call) : World :=
  match c with
  | Create => snd (createEntity w)
  | Remove entity => removeEntity w entity
  end.

(** The number of [createEntity] calls in a sequence of calls. *)
Definition creations (cs : list Call) : nat :=
  List.length (filter (fun c => match c with Create => true | Remove _ => false end) cs).

Definition keys (w : World) : list nat := map fst (entities w).

(** The keys of the map are pairwise distinct and below the counter, every
    entity is stored under its own id, and the counter is at most 2^53. *)
Definition WellFormed (w : World) : Prop :=
  NoDup (keys w)
  /\ (forall k, In k (keys w) -> (N.of_nat k < nextEntityId w)%N)
  /\ (forall k e, In (k, e) (entities w) -> id e = k)
  /\ (nextEntityId w <= maxCounter)%N.

End Ecs.

(** ** Relations used to state what the resolver pass keeps *)

(** The ground flag of the Physics component and the surface flag of the
    Jump component, when there is one, have the same value. *)
Definition FlagsAgree (st : Transform * Physics * option Jump) : Prop :=
  let '(_, p, oj) := st in
  match oj with
  | Some j => isOnGround p = isOnSurface j
  | None => True
  end.

(** [st'] differs from [st] at most in the position, the velocity, the
    ground flag and the three flags of the jump state machine. *)
Definition SameConfiguration (st st' : Transform * Physics * option Jump) : Prop :=
  let '(t, p, oj) := st in
  let '(t', p', oj') := st' in
  previousPosition t' = previousPosition t
  /\ rotation t' = rotation t /\ scale t' = scale t
  /\ mass p' = mass p /\ gravity p' = gravity p /\ friction p' = friction p
  /\ airFriction p' = airFriction p /\ bounceCoefficient p' = bounceCoefficient p
  /\ isStatic p' = isStatic p
  /\ match oj, oj' with
     | Some j, Some j' =>
         jumpPower j' = jumpPower j /\ jumpRequested j' = jumpRequested j
         /\ canJump j' = canJump j /\ jumpCooldown j' = jumpCooldown j
         /\ jumpCooldownTime j' = jumpCooldownTime j
     | None, None => True
     | _, _ => False
     end.

Definition present {A : Type} (o : option A) : bool :=
  match o with
  | Some _ => true
  | None => false
  end.

(** What the systems never change of an entity: its id, its marble tag, its
    Collider, Surface and PlayerControl components, and which of the
    Transform, Physics and Jump components it carries. *)
Definition shape (e : Entity)
  : nat * bool * option Collider * option Surface * option PlayerControl
    * (bool * bool * bool) :=
  (id e, marbleTag e, collider e, surface e, playerControl e,
   (present (transform e), present (physics e), present (jump e))).

(** An entity the pairwise phase never resolves against the marble
    [marbleId]: the marble itself, an entity without Transform or Collider,
    or a trigger. *)
Definition neverResolved (marbleId : nat) (e : Entity) : Prop :=
  id e = marbleId
  \/ transform e = None
  \/ match collider e with
     | Some c => isTrigger c = true
     | None => True
     end.

(** * Properties *)

(** ** Numeric tests *)

Lemma Rltb_true (a b : R) : Rltb a b = true <-> a < b.
Proof. unfold Rltb; destruct (Rlt_dec a b); split; intros; congruence || lra. Qed.

Lemma Rltb_false (a b : R) : Rltb a b = false <-> b <= a.
Proof. unfold Rltb; destruct (Rlt_dec a b); split; intros; congruence || lra. Qed.

Lemma Rleb_true (a b : R) : Rleb a b = true <-> a <= b.
Proof. unfold Rleb; destruct (Rle_dec a b); split; intros; congruence || lra. Qed.

Lemma Rleb_false (a b : R) : Rleb a b = false <-> b < a.
Proof. unfold Rleb; destruct (Rle_dec a b); split; intros; congruence || lra. Qed.

Lemma Rneqb_true (a b : R) : Rneqb a b = true <-> a <> b.
Proof. unfold Rneqb; destruct (Req_dec_T a b); split; intros; congruence. Qed.

Lemma Rneqb_false (a b : R) : Rneqb a b = false <-> a = b.
Proof. unfold Rneqb; destruct (Req_dec_T a b); split; intros; congruence. Qed.

(** [rtest] decides the numeric tests that occur in a goal: each test is
    replaced by its truth value when linear arithmetic settles it. *)
Ltac rtest_one :=
  match goal with
  | |- context [Rltb ?a ?b] =>
      first [ replace (Rltb a b) with true by (symmetry; apply Rltb_true; lra)
            | replace (Rltb a b) with false by (symmetry; apply Rltb_false; lra) ]
  | |- context [Rleb ?a ?b] =>
      first [ replace (Rleb a b) with true by (symmetry; apply Rleb_true; lra)
            | replace (Rleb a b) with false by (symmetry; apply Rleb_false; lra) ]
  | |- context [Rneqb ?a ?b] =>
      first [ replace (Rneqb a b) with true by (symmetry; apply Rneqb_true; lra)
            | replace (Rneqb a b) with false by (symmetry; apply Rneqb_false; lra) ]
  end.
Ltac rtest :=
  repeat (rtest_one; cbn [andb orb negb]);
  rewrite ?andb_false_r, ?andb_true_r, ?orb_false_r, ?orb_true_r.


(** ** The Jump component *)

Lemma updateCooldown_value (j : Jump) (dt : R) :
  jumpCooldown (updateCooldown j dt)
  = if Rltb 0 (jumpCooldown j) then jumpCooldown j - dt else jumpCooldown j.
Proof. unfold updateCooldown. destruct (Rltb 0 (jumpCooldown j)); reflexivity. Qed.

Lemma updateCooldown_flags (j : Jump) (dt : R) :
  isOnSurface (updateCooldown j dt) = isOnSurface j
  /\ isJumping (updateCooldown j dt) = isJumping j
  /\ isFalling (updateCooldown j dt) = isFalling j
  /\ jumpRequested (updateCooldown j dt) = jumpRequested j
  /\ jumpPower (updateCooldown j dt) = jumpPower j
  /\ jumpCooldownTime (updateCooldown j dt) = jumpCooldownTime j.
Proof. unfold updateCooldown. destruct (Rltb 0 (jumpCooldown j)); cbn; auto 10. Qed.

(** The cooldown update agrees with [max(0, cooldown - dt)] as long as the
    step does not overshoot zero. *)
Lemma updateCooldown_no_overshoot (j : Jump) (dt : R) :
  0 <= jumpCooldown j -> dt <= jumpCooldown j -> 0 <= dt ->
  jumpCooldown (updateCooldown j dt) = Rmax 0 (jumpCooldown j - dt).
Proof.
  intros H0 Hdt Hpos. rewrite updateCooldown_value.
  destruct (Rltb 0 (jumpCooldown j)) eqn:E.
  - rewrite Rmax_right; lra.
  - apply Rltb_false in E. rewrite Rmax_left; lra.
Qed.

(** C6 (the code departs from the claim): with 0.02 s of cooldown left, an
    update by dt = 0.05 s leaves jumpCooldown at -0.03, a negative value,
    where max(0, 0.02 - 0.05) is 0; the TypeScript port of the component
    yields 0 on the same input. *)
Theorem updateCooldown_overshoots_zero :
  let j := mkJump PHYSICS.JUMP_POWER false false true false true (2 / 100) (2 / 10) in
  jumpCooldown (updateCooldown j (5 / 100)) = - (3 / 100)
  /\ jumpCooldown (updateCooldown j (5 / 100)) < 0
  /\ Rmax 0 (jumpCooldown j - 5 / 100) = 0
  /\ jumpCooldown (JumpTS.updateCooldown j (5 / 100)) = 0.
Proof.
  cbn zeta.
  assert (E : jumpCooldown
                (updateCooldown
                   (mkJump PHYSICS.JUMP_POWER false false true false true
                           (2 / 100) (2 / 10)) (5 / 100)) = - (3 / 100)).
  { rewrite updateCooldown_value. cbn. rtest. lra. }
  rewrite E. repeat split; try lra.
  - cbn. rewrite Rmax_left; lra.
  - unfold JumpTS.updateCooldown. cbn. rtest. cbn.
    unfold JSMath.max. rewrite Rmax_left; lra.
Qed.

(** ** The integrator *)

Lemma requestJump_latch (j : Jump) :
  jumpRequested (requestJump j)
  = jumpRequested j
    || (canJump j && isOnSurface j && negb (isJumping j) && Rleb (jumpCooldown j) 0).
Proof.
  unfold requestJump.
  destruct (canJump j && isOnSurface j && negb (isJumping j) && Rleb (jumpCooldown j) 0);
    cbn; [ apply eq_sym, orb_true_r | apply eq_sym, orb_false_r ].
Qed.

Lemma requestJump_flags (j : Jump) :
  isOnSurface (requestJump j) = isOnSurface j
  /\ isJumping (requestJump j) = isJumping j
  /\ isFalling (requestJump j) = isFalling j.
Proof.
  unfold requestJump.
  destruct (canJump j && isOnSurface j && negb (isJumping j) && Rleb (jumpCooldown j) 0);
    cbn; auto.
Qed.

(** What the launch step does to a component with a pending request. *)
Lemma launch_requested (t : Transform) (p : Physics) (j : Jump) :
  jumpRequested j = true ->
  PhysicsSystem.launch t p j
  = (setPosition t (vec3 (Vector3.x (position t)) (Vector3.y (position t) + 5 / 100)
                         (Vector3.z (position t))),
     setVelocity p (vec3 (Vector3.x (velocity p)) (jumpPower j) (Vector3.z (velocity p))),
     mkJump (jumpPower j) true (isFalling j) false false (canJump j)
            (jumpCooldownTime j) (jumpCooldownTime j)).
Proof.
  intros H. unfold PhysicsSystem.launch, executeJumpIfRequested. rewrite H. reflexivity.
Qed.

(** The end of [processJumping] for a component with a pending request:
    gravity is subtracted from the launch velocity in the same call, and the
    apex test runs on the result. *)
Lemma processJumping_requested (t : Transform) (p : Physics) (j : Jump) (dt : R) :
  jumpRequested j = true ->
  PhysicsSystem.processJumping t p j dt
  = (setPosition t (vec3 (Vector3.x (position t)) (Vector3.y (position t) + 5 / 100)
                         (Vector3.z (position t))),
     setVelocity p (vec3 (Vector3.x (velocity p)) (jumpPower j - gravity p)
                         (Vector3.z (velocity p))),
     if Rltb (jumpPower j - gravity p) 0
     then mkJump (jumpPower j) false true false false (canJump j)
                 (jumpCooldownTime j) (jumpCooldownTime j)
     else mkJump (jumpPower j) true (isFalling j) false false (canJump j)
                 (jumpCooldownTime j) (jumpCooldownTime j)).
Proof.
  intros H. unfold PhysicsSystem.processJumping.
  rewrite launch_requested
    by (destruct (updateCooldown_flags j dt) as (_ & _ & _ & Hr & _); congruence).
  unfold PhysicsSystem.gravityAndApex, updateCooldown.
  destruct (Rltb 0 (jumpCooldown j)); cbn;
    destruct (Rltb (jumpPower j - gravity p) 0); reflexivity.
Qed.

Lemma processPlayerMovement_fields (p : Physics) (c : PlayerControl) :
  Vector3.y (velocity (PhysicsSystem.processPlayerMovement p c)) = Vector3.y (velocity p)
  /\ gravity (PhysicsSystem.processPlayerMovement p c) = gravity p
  /\ isOnGround (PhysicsSystem.processPlayerMovement p c) = isOnGround p
  /\ isStatic (PhysicsSystem.processPlayerMovement p c) = isStatic p
  /\ friction (PhysicsSystem.processPlayerMovement p c) = friction p
  /\ airFriction (PhysicsSystem.processPlayerMovement p c) = airFriction p.
Proof. unfold PhysicsSystem.processPlayerMovement. cbn. auto 10. Qed.

(** The per-object pass of the integrator on a non-static object whose Jump
    component has a pending request. *)
Lemma updateEntity_requested (dt : R) (t : Transform) (p : Physics)
      (pc : option PlayerControl) (j : Jump) :
  isStatic p = false ->
  jumpRequested j = true ->
  exists t' p',
    PhysicsSystem.updateEntity dt t p pc (Some j)
    = (t', p',
       Some (if Rltb (jumpPower j - gravity p) 0
             then mkJump (jumpPower j) false true false false (canJump j)
                         (jumpCooldownTime j) (jumpCooldownTime j)
             else mkJump (jumpPower j) true (isFalling j) false false (canJump j)
                         (jumpCooldownTime j) (jumpCooldownTime j)))
    /\ Vector3.y (velocity p') = jumpPower j - gravity p.
Proof.
  intros Hs Hr. unfold PhysicsSystem.updateEntity. rewrite Hs.
  destruct pc as [c|].
  - destruct (processPlayerMovement_fields p c) as (_ & Hg & _).
    rewrite processJumping_requested by assumption. rewrite Hg.
    eexists; eexists; split; [ reflexivity | reflexivity ].
  - rewrite processJumping_requested by assumption.
    eexists; eexists; split; [ reflexivity | reflexivity ].
Qed.

(** C1 (as amended): for a non-static object with isOnSurface=true,
    isJumping=false, jumpCooldown<=0 and a pending jump request, one call of
    the integrator's per-object pass clears the request, sets
    isOnSurface=false and leaves velocity.y equal to jumpPower - gravity,
    gravity being applied in the same call; isJumping=true holds at the end
    of the call when jumpPower - gravity >= 0, otherwise the apex test of the
    same call has already set isJumping=false and isFalling=true. *)
Theorem jump_launch (dt : R) (t : Transform) (p : Physics)
        (pc : option PlayerControl) (j : Jump) :
  isStatic p = false ->
  isOnSurface j = true -> isJumping j = false -> jumpCooldown j <= 0 ->
  jumpRequested j = true ->
  exists t' p' j',
    PhysicsSystem.updateEntity dt t p pc (Some j) = (t', p', Some j')
    /\ isOnSurface j' = false
    /\ jumpRequested j' = false
    /\ Vector3.y (velocity p') = jumpPower j - gravity p
    /\ (0 <= jumpPower j - gravity p -> isJumping j' = true)
    /\ (jumpPower j - gravity p < 0 -> isJumping j' = false /\ isFalling j' = true).
Proof.
  intros Hs _ _ _ Hr.
  destruct (updateEntity_requested dt t p pc j Hs Hr) as (t' & p' & E & Hv).
  exists t', p'. eexists. split; [ exact E | ].
  destruct (Rltb (jumpPower j - gravity p) 0) eqn:T; cbn.
  - apply Rltb_true in T. repeat split; auto; intros; lra.
  - apply Rltb_false in T. repeat split; auto; intros; lra.
Qed.

Lemma jump_launch_witness :
  exists t' p' j',
    PhysicsSystem.updateEntity (16 / 1000) marbleTransform0 marblePhysics0 None
                               (Some (requestJump marbleJump0))
    = (t', p', Some j')
    /\ isOnSurface j' = false
    /\ jumpRequested j' = false
    /\ Vector3.y (velocity p')
       = jumpPower (requestJump marbleJump0) - gravity marblePhysics0
    /\ (0 <= jumpPower (requestJump marbleJump0) - gravity marblePhysics0
        -> isJumping j' = true)
    /\ (jumpPower (requestJump marbleJump0) - gravity marblePhysics0 < 0
        -> isJumping j' = false /\ isFalling j' = true).
Proof.
  assert (E : requestJump marbleJump0
              = mkJump PHYSICS.JUMP_POWER false false true true true 0 (2 / 10)).
  { unfold requestJump, marbleJump0, newJump. cbn. rtest. reflexivity. }
  rewrite E.
  apply (jump_launch (16 / 1000) marbleTransform0 marblePhysics0 None
                     (mkJump PHYSICS.JUMP_POWER false false true true true 0 (2 / 10)));
    cbn; try reflexivity; lra.
Defined.

(** C1 (counterexample to the claim as stated): the marble of the factory,
    grounded, with no cooldown and a latched request.  At the end of the
    integrator call velocity.y is jumpPower - gravity = 0.385, not
    jumpPower = 0.4. *)
Lemma jump_launch_velocity_counterexample :
  let j := requestJump marbleJump0 in
  let r := PhysicsSystem.updateEntity (16 / 1000) marbleTransform0 marblePhysics0
                                      None (Some j) in
  isOnSurface j = true /\ isJumping j = false /\ jumpCooldown j <= 0
  /\ jumpRequested j = true
  /\ Vector3.y (velocity (snd (fst r))) = 385 / 1000
  /\ Vector3.y (velocity (snd (fst r))) <> jumpPower j.
Proof.
  cbn zeta.
  assert (E : requestJump marbleJump0
              = mkJump PHYSICS.JUMP_POWER false false true true true 0 (2 / 10)).
  { unfold requestJump, marbleJump0, newJump. cbn. rtest. reflexivity. }
  rewrite E.
  destruct (updateEntity_requested (16 / 1000) marbleTransform0 marblePhysics0 None
              (mkJump PHYSICS.JUMP_POWER false false true true true 0 (2 / 10))
              eq_refl eq_refl) as (t' & p' & Er & Hv).
  rewrite Er. cbn [fst snd]. rewrite Hv. cbn.
  unfold PHYSICS.JUMP_POWER, PHYSICS.GRAVITY.
  repeat split; try lra.
Qed.

(** C10: the guard (canJump, isOnSurface, not isJumping, jumpCooldown <= 0)
    is read by [requestJump] only, which latches jumpRequested; with
    jumpRequested latched, the next integrator call on the (non-static)
    object executes the launch whatever isOnSurface and jumpCooldown have
    become: the launch step sets isJumping=true, isOnSurface=false and
    velocity.y to jumpPower, and the call ends with the request cleared,
    isOnSurface=false and that launch velocity less the gravity of the same
    call. *)
Theorem launch_ignores_guard (dt : R) (t : Transform) (p : Physics)
        (pc : option PlayerControl) (j : Jump) :
  jumpRequested (requestJump j)
  = jumpRequested j
    || (canJump j && isOnSurface j && negb (isJumping j) && Rleb (jumpCooldown j) 0)
  /\ (jumpRequested j = true ->
      (forall t0 p0,
          let '(_, p1, j1) := PhysicsSystem.launch t0 p0 (updateCooldown j dt) in
          isJumping j1 = true /\ isOnSurface j1 = false
          /\ Vector3.y (velocity p1) = jumpPower j
          /\ jumpRequested j1 = false)
      /\ (isStatic p = false ->
          exists t' p' j',
            PhysicsSystem.updateEntity dt t p pc (Some j) = (t', p', Some j')
            /\ isOnSurface j' = false
            /\ jumpRequested j' = false
            /\ jumpCooldown j' = jumpCooldownTime j
            /\ Vector3.y (velocity p') = jumpPower j - gravity p
            /\ (isJumping j' = true \/ isFalling j' = true))).
Proof.
  split; [ apply requestJump_latch | ].
  intros Hr. split.
  - intros t0 p0.
    destruct (updateCooldown_flags j dt) as (_ & _ & _ & Hr' & Hp & _).
    rewrite launch_requested by congruence. cbn. rewrite Hp. auto.
  - intros Hs.
    destruct (updateEntity_requested dt t p pc j Hs Hr) as (t' & p' & E & Hv).
    exists t', p'. eexists. split; [ exact E | ].
    destruct (Rltb (jumpPower j - gravity p) 0); cbn; auto 10.
Qed.

(** An airborne component (isOnSurface=false) in cooldown (0.15 s left) with
    a latched request still launches. *)
Lemma launch_ignores_guard_witness :
  let j := mkJump PHYSICS.JUMP_POWER false true false true true (15 / 100) (2 / 10) in
  isOnSurface j = false /\ 0 < jumpCooldown (updateCooldown j (16 / 1000))
  /\ exists t' p' j',
      PhysicsSystem.updateEntity (16 / 1000) marbleTransform0 marblePhysics0 None (Some j)
      = (t', p', Some j')
      /\ isOnSurface j' = false
      /\ jumpRequested j' = false
      /\ jumpCooldown j' = jumpCooldownTime j
      /\ Vector3.y (velocity p') = jumpPower j - gravity marblePhysics0
      /\ (isJumping j' = true \/ isFalling j' = true).
Proof.
  cbn zeta. split; [ reflexivity | ]. split.
  - rewrite updateCooldown_value. cbn. rtest. lra.
  - exact (proj2 (proj2 (launch_ignores_guard (16 / 1000) marbleTransform0 marblePhysics0
                            None
                            (mkJump PHYSICS.JUMP_POWER false true false true true
                                    (15 / 100) (2 / 10)))
                        eq_refl) eq_refl).
Defined.

(** ** Friction *)

Lemma Rabs_le_length (v : Vec3) :
  Rabs (Vector3.x v) <= Vector3.length v /\ Rabs (Vector3.z v) <= Vector3.length v.
Proof.
  unfold Vector3.length. destruct v as [a b c]; cbn.
  split.
  - rewrite <- sqrt_Rsqr_abs. apply sqrt_le_1_alt. unfold Rsqr. nra.
  - rewrite <- sqrt_Rsqr_abs. apply sqrt_le_1_alt. unfold Rsqr. nra.
Qed.

Lemma Rabs_scale_le (a f : R) : 0 < f -> f <= 1 -> Rabs (a * f) <= Rabs a.
Proof.
  intros H0 H1. rewrite Rabs_mult, (Rabs_right f) by lra.
  pose proof (Rabs_pos a). nra.
Qed.

(** [processJumping] touches only the y component of the velocity. *)
Lemma processJumping_physics (t : Transform) (p : Physics) (j : Jump) (dt : R) :
  let p1 := snd (fst (PhysicsSystem.processJumping t p j dt)) in
  Vector3.x (velocity p1) = Vector3.x (velocity p)
  /\ Vector3.z (velocity p1) = Vector3.z (velocity p)
  /\ isOnGround p1 = isOnGround p
  /\ friction p1 = friction p
  /\ airFriction p1 = airFriction p.
Proof.
  unfold PhysicsSystem.processJumping, PhysicsSystem.launch,
    PhysicsSystem.gravityAndApex, executeJumpIfRequested, updateCooldown.
  destruct (Rltb 0 (jumpCooldown j)); cbn;
    destruct (jumpRequested j); cbn;
      try destruct (isOnSurface j); cbn; auto.
Qed.

Lemma updateEntity_static (dt : R) (t : Transform) (p : Physics)
      (pc : option PlayerControl) (oj : option Jump) :
  isStatic p = true ->
  PhysicsSystem.updateEntity dt t p pc oj = (t, p, oj).
Proof. intros H. unfold PhysicsSystem.updateEntity. rewrite H. reflexivity. Qed.

(** The horizontal velocity after the per-object pass: the velocity with the
    movement intent added, times the friction coefficient in force. *)
Lemma updateEntity_horizontal (dt : R) (t : Transform) (p : Physics)
      (pc : option PlayerControl) (oj : option Jump) :
  isStatic p = false ->
  let p' := snd (fst (PhysicsSystem.updateEntity dt t p pc oj)) in
  let f := if isOnGround p then friction p else airFriction p in
  Vector3.x (velocity p') = (Vector3.x (velocity p) + intentX p pc) * f
  /\ Vector3.z (velocity p') = (Vector3.z (velocity p) + intentZ p pc) * f.
Proof.
  intros Hs. unfold PhysicsSystem.updateEntity, intentX, intentZ. rewrite Hs.
  destruct pc as [c|]; destruct oj as [j|].
  - pose proof (processJumping_physics (savePreviousPosition t)
                  (PhysicsSystem.processPlayerMovement p c) j dt) as H.
    destruct (PhysicsSystem.processJumping (savePreviousPosition t)
                (PhysicsSystem.processPlayerMovement p c) j dt) as [[t1 p1] j1].
    cbn in H. destruct H as (Hx & Hz & Hg & Hf & Ha).
    cbn. rewrite Hx, Hz, Hg, Hf, Ha. destruct (isOnGround p); cbn; split; ring.
  - destruct (isOnGround p) eqn:G; cbn; rewrite ?G; cbn; rewrite ?G; split; ring.
  - pose proof (processJumping_physics (savePreviousPosition t) p j dt) as H.
    destruct (PhysicsSystem.processJumping (savePreviousPosition t) p j dt)
      as [[t1 p1] j1].
    cbn in H. destruct H as (Hx & Hz & Hg & Hf & Ha).
    cbn. rewrite Hx, Hz, Hg, Hf, Ha. destruct (isOnGround p); cbn; split; ring.
  - destruct (isOnGround p) eqn:G; cbn; rewrite ?G; cbn; rewrite ?G; split; ring.
Qed.

(** The vertical velocity after the per-object pass does not depend on the
    friction coefficients. *)
Lemma updateEntity_vertical_friction_free (dt : R) (t : Transform) (p : Physics)
      (pc : option PlayerControl) (oj : option Jump) (ground air : R) :
  Vector3.y (velocity (snd (fst (PhysicsSystem.updateEntity dt t
                                   (setFriction p ground air) pc oj))))
  = Vector3.y (velocity (snd (fst (PhysicsSystem.updateEntity dt t p pc oj)))).
Proof.
  unfold PhysicsSystem.updateEntity, PhysicsSystem.processJumping,
    PhysicsSystem.launch, PhysicsSystem.gravityAndApex, executeJumpIfRequested,
    updateCooldown, PhysicsSystem.processPlayerMovement.
  cbn. destruct (isStatic p); [ reflexivity | ].
  destruct pc as [c|]; destruct oj as [j|]; cbn;
    repeat match goal with
           | |- context [if ?b then _ else _] => destruct b; cbn
           end; reflexivity.
Qed.

(** C8 (as amended): for every object with isOnGround=true at the start of
    an integrator tick and groundFriction in (0,1], |velocity.x| and
    |velocity.z| after the tick are at most the magnitudes of these
    components once the movement intent of the tick has been added to them;
    when the tick adds no movement intent (static object, no PlayerControl,
    or a zero direction or speed) they are at most the velocity magnitude
    before the tick.  The y component is never multiplied by friction: it
    is the same whatever the friction coefficients are. *)
Theorem friction_bound (dt : R) (t : Transform) (p : Physics)
        (pc : option PlayerControl) (oj : option Jump) :
  isOnGround p = true -> 0 < friction p -> friction p <= 1 ->
  let p' := snd (fst (PhysicsSystem.updateEntity dt t p pc oj)) in
  Rabs (Vector3.x (velocity p')) <= Rabs (Vector3.x (velocity p) + intentX p pc)
  /\ Rabs (Vector3.z (velocity p')) <= Rabs (Vector3.z (velocity p) + intentZ p pc)
  /\ (intentX p pc = 0 -> Rabs (Vector3.x (velocity p')) <= Vector3.length (velocity p))
  /\ (intentZ p pc = 0 -> Rabs (Vector3.z (velocity p')) <= Vector3.length (velocity p))
  /\ (forall ground air,
         Vector3.y (velocity (snd (fst (PhysicsSystem.updateEntity dt t
                                          (setFriction p ground air) pc oj))))
         = Vector3.y (velocity p')).
Proof.
  intros Hg H0 H1 p'.
  assert (Hb : Rabs (Vector3.x (velocity p')) <= Rabs (Vector3.x (velocity p) + intentX p pc)
               /\ Rabs (Vector3.z (velocity p')) <= Rabs (Vector3.z (velocity p) + intentZ p pc)).
  { subst p'. destruct (isStatic p) eqn:Hs.
    - rewrite updateEntity_static by assumption. cbn [fst snd].
      unfold intentX, intentZ. rewrite Hs, !Rplus_0_r. split; apply Rle_refl.
    - destruct (updateEntity_horizontal dt t p pc oj Hs) as [Hx Hz].
      rewrite Hg in Hx, Hz. rewrite Hx, Hz.
      split; apply Rabs_scale_le; assumption. }
  destruct Hb as [Hx Hz].
  destruct (Rabs_le_length (velocity p)) as [Lx Lz].
  repeat split; try assumption.
  - intros E. rewrite E, Rplus_0_r in Hx. lra.
  - intros E. rewrite E, Rplus_0_r in Hz. lra.
  - intros ground air. apply updateEntity_vertical_friction_free.
Qed.

Lemma friction_bound_witness :
  let p := setIsOnGround (setVelocity marblePhysics0 (vec3 10 0 0)) true in
  let p' := snd (fst (PhysicsSystem.updateEntity 1 marbleTransform0 p None None)) in
  Rabs (Vector3.x (velocity p')) <= Vector3.length (velocity p)
  /\ Vector3.x (velocity p') = 97 / 10.
Proof.
  cbn zeta. split.
  - refine (proj1 (proj2 (proj2
             (friction_bound 1 marbleTransform0
                (setIsOnGround (setVelocity marblePhysics0 (vec3 10 0 0)) true)
                None None _ _ _))) _).
    + reflexivity.
    + cbn. unfold PHYSICS.GROUND_FRICTION. lra.
    + cbn. unfold PHYSICS.GROUND_FRICTION. lra.
    + reflexivity.
  - cbn. unfold PHYSICS.GROUND_FRICTION. lra.
Defined.

(** C8 (counterexample to the claim as stated): a grounded marble at rest
    whose player pushes along x.  The integrator adds the movement intent
    before the friction, so |velocity.x| after the tick is 0.005 * 0.97,
    above the velocity magnitude 0 before the tick. *)
Lemma friction_bound_counterexample :
  let p := setIsOnGround marblePhysics0 true in
  let pc := mkPlayerControl PHYSICS.MARBLE_SPEED PHYSICS.AIR_CONTROL_FACTOR 1 0 in
  let p' := snd (fst (PhysicsSystem.updateEntity (16 / 1000) marbleTransform0 p
                                                 (Some pc) None)) in
  isOnGround p = true /\ 0 < friction p <= 1
  /\ Vector3.length (velocity p) = 0
  /\ Vector3.x (velocity p') = 485 / 100000
  /\ Vector3.length (velocity p) < Rabs (Vector3.x (velocity p')).
Proof.
  cbn zeta.
  assert (L : Vector3.length (velocity (setIsOnGround marblePhysics0 true)) = 0).
  { unfold Vector3.length. cbn.
    replace (0 * 0 + 0 * 0 + 0 * 0) with 0 by ring. apply sqrt_0. }
  assert (X : Vector3.x (velocity (snd (fst (PhysicsSystem.updateEntity (16 / 1000)
                marbleTransform0 (setIsOnGround marblePhysics0 true)
                (Some (mkPlayerControl PHYSICS.MARBLE_SPEED
                                       PHYSICS.AIR_CONTROL_FACTOR 1 0)) None))))
              = 485 / 100000).
  { cbn. unfold PHYSICS.MARBLE_SPEED, PHYSICS.GROUND_FRICTION. lra. }
  rewrite L, X. cbn. unfold PHYSICS.GROUND_FRICTION.
  repeat split; try lra.
  rewrite Rabs_right; lra.
Qed.

(** ** Boundary check and respawn *)

Section Respawn.

Variable applyEuler : Vec3 -> Vec3 -> Vec3.
Variable applyEulerInverse : Vec3 -> Vec3 -> Vec3.

Lemma respawnMarble_Respawned (t : Transform) (p : Physics) (oj : option Jump) :
  Respawned (respawnMarble t p oj).
Proof. unfold Respawned, respawnMarble. destruct oj; cbn; repeat split. Qed.

Lemma respawnMarble_idempotent (t : Transform) (p : Physics) (oj : option Jump) :
  let '(t1, p1, oj1) := respawnMarble t p oj in
  respawnMarble t1 p1 oj1 = (t1, p1, oj1).
Proof. unfold respawnMarble. destruct oj; reflexivity. Qed.

(** Outside the platform extent and below the threshold the boundary
    check is the respawn. *)
Lemma checkBoundaryCollisions_respawn (t : Transform) (p : Physics)
      (oj : option Jump) :
  OBJECTS.PLATFORM_SIZE < Rabs (Vector3.x (position t))
  \/ OBJECTS.PLATFORM_SIZE < Rabs (Vector3.z (position t)) ->
  Vector3.y (position t) < - 20 ->
  checkBoundaryCollisions t p oj = respawnMarble t p oj.
Proof.
  intros Hout Hy. unfold checkBoundaryCollisions, JSMath.abs.
  apply Rltb_true in Hy. rewrite Hy.
  destruct Hout as [H | H]; apply Rleb_false in H; rewrite H;
    [ reflexivity | rewrite andb_false_r; reflexivity ].
Qed.

(** A contact with an entity at rest does not move a marble at rest. *)
Lemma collideWith_at_rest (marbleId : nat) (mc : Collider) (t : Transform)
      (p : Physics) (oj : option Jump) (e : Entity) :
  velocity p = vec3 0 0 0 ->
  atRest marbleId e ->
  collideWith applyEuler applyEulerInverse marbleId mc (t, p, oj) e = (t, p, oj).
Proof.
  intros Hv Hrest. unfold collideWith.
  destruct (Nat.eqb (id e) marbleId) eqn:E; [ reflexivity | ].
  destruct Hrest as [Hid | Hq];
    [ apply Nat.eqb_neq in E; contradiction | ].
  destruct (transform e) as [et|]; [ | reflexivity ].
  destruct (collider e) as [ec|]; [ | reflexivity ].
  destruct (collided _); [ | reflexivity ].
  unfold resolveCollision.
  destruct (isTrigger ec); [ reflexivity | ].
  assert (D : Vector3.dot
                (Vector3.subVectors (velocity p)
                   match physics e with
                   | Some op => velocity op
                   | None => Vector3.zero
                   end)
                (normal (checkCollision applyEuler applyEulerInverse t mc et ec))
              = 0).
  { rewrite Hv. destruct (physics e) as [q|]; [ rewrite Hq | ];
      unfold Vector3.dot, Vector3.subVectors; cbn; ring. }
  cbv zeta. rewrite D.
  replace (Rltb 0 0) with false by (symmetry; apply Rltb_false; lra).
  reflexivity.
Qed.

Lemma fold_collideWith_at_rest (marbleId : nat) (mc : Collider)
      (entities : list Entity) (t : Transform) (p : Physics) (oj : option Jump) :
  velocity p = vec3 0 0 0 ->
  Forall (atRest marbleId) entities ->
  fold_left (collideWith applyEuler applyEulerInverse marbleId mc) entities (t, p, oj)
  = (t, p, oj).
Proof.
  intros Hv Hall. induction Hall as [| e rest He _ IH]; cbn [fold_left].
  - reflexivity.
  - rewrite collideWith_at_rest by assumption. exact IH.
Qed.

(** C7 (as amended): a marble outside the platform half-extent in x or z
    with position.y < -20 is respawned by the resolver pass: the boundary check
    of the pass, run after the reset of the surface flags, is the respawn
    operation, which puts the marble at (0, MARBLE_RADIUS, 0) with zero
    velocity, isOnGround=true and, when it has a Jump component,
    isOnSurface=true, isJumping=false, isFalling=false; the pairwise phase
    of the same pass leaves that state as it is when the other entities
    are at rest; and respawning the respawned marble changes nothing. *)
Theorem respawn_out_of_world (marbleId : nat) (mc : Collider)
        (entities : list Entity) (t : Transform) (p : Physics)
        (oj : option Jump) :
  OBJECTS.PLATFORM_SIZE < Rabs (Vector3.x (position t))
  \/ OBJECTS.PLATFORM_SIZE < Rabs (Vector3.z (position t)) ->
  Vector3.y (position t) < - 20 ->
  let '(p0, oj0) := resetSurface p oj in
  let '(t1, p1, oj1) := checkBoundaryCollisions t p0 oj0 in
  (t1, p1, oj1) = respawnMarble t p0 oj0
  /\ Respawned (t1, p1, oj1)
  /\ (Forall (atRest marbleId) entities ->
      marblePass applyEuler applyEulerInverse marbleId mc entities (t, p, oj)
      = (t1, p1, oj1))
  /\ respawnMarble t1 p1 oj1 = (t1, p1, oj1).
Proof.
  intros Hout Hy. cbn [resetSurface].
  pose proof (checkBoundaryCollisions_respawn t (setIsOnGround p false)
                (option_map (fun j => setFlags j (isJumping j) (isFalling j) false) oj)
                Hout Hy) as E.
  destruct (checkBoundaryCollisions _ _ _) as [[t1 p1] oj1] eqn:B.
  split; [ exact E | ].
  split; [ rewrite E; apply respawnMarble_Respawned | ].
  split.
  - intros Hall. unfold marblePass. cbn [resetSurface]. rewrite B.
    apply fold_collideWith_at_rest; [ | assumption ].
    unfold respawnMarble in E. injection E as _ Ep _. rewrite Ep. reflexivity.
  - pose proof (respawnMarble_idempotent t (setIsOnGround p false)
                  (option_map (fun j => setFlags j (isJumping j) (isFalling j) false) oj)) as I.
    rewrite <- E in I. exact I.
Qed.

End Respawn.

Lemma respawn_out_of_world_witness :
  Respawned (marblePass noRotation noRotation 1 marbleCollider0 [platformEntity]
                        (fallenTransform, fallenPhysics, Some fallenJump)).
Proof.
  assert (Hout : OBJECTS.PLATFORM_SIZE < Rabs (Vector3.x (position fallenTransform))
                 \/ OBJECTS.PLATFORM_SIZE < Rabs (Vector3.z (position fallenTransform))).
  { left. cbn. unfold OBJECTS.PLATFORM_SIZE. rewrite Rabs_right; lra. }
  assert (Hy : Vector3.y (position fallenTransform) < - 20) by (cbn; lra).
  pose proof (respawn_out_of_world noRotation noRotation 1 marbleCollider0
                [platformEntity] fallenTransform fallenPhysics (Some fallenJump)
                Hout Hy) as H.
  cbn [resetSurface] in H.
  destruct (checkBoundaryCollisions _ _ _) as [[t1 p1] oj1].
  destruct H as (_ & HR & HP & _).
  rewrite HP; [ exact HR | ].
  constructor; [ right; reflexivity | constructor ].
Defined.

(** ** The resolver writes to marbles only *)

Lemma writeAt_other (w : World) (i k : nat) (e : Entity) :
  i <> k -> nth_error (writeAt w i e) k = nth_error w k.
Proof.
  revert i k. induction w as [| a rest IH]; intros i k Hne.
  - destruct i; reflexivity.
  - destruct i as [| i']; destruct k as [| k']; cbn; try reflexivity.
    + contradiction.
    + apply IH. intros E. apply Hne. congruence.
Qed.

Lemma writeAt_same (w : World) (i : nat) (e : Entity) :
  (i < List.length w)%nat -> nth_error (writeAt w i e) i = Some e.
Proof.
  revert i. induction w as [| a rest IH]; intros i Hi; cbn in Hi.
  - lia.
  - destruct i as [| i']; cbn; [ reflexivity | apply IH; lia ].
Qed.

Lemma writeAt_length (w : World) (i : nat) (e : Entity) :
  List.length (writeAt w i e) = List.length w.
Proof.
  revert i. induction w as [| a rest IH]; intros i; destruct i; cbn; auto.
Qed.

Lemma withState_same (e : Entity) (t : Transform) (p : Physics) :
  transform e = Some t -> physics e = Some p -> withState e t p (jump e) = e.
Proof. destruct e; cbn; intros -> ->; reflexivity. Qed.

Section ResolverFrame.

Variable applyEuler : Vec3 -> Vec3 -> Vec3.
Variable applyEulerInverse : Vec3 -> Vec3 -> Vec3.

Lemma processMarble_other (w : World) (i k : nat) :
  i <> k ->
  nth_error (processMarble applyEuler applyEulerInverse w i) k = nth_error w k.
Proof.
  intros Hne. unfold processMarble.
  destruct (nth_error w i) as [m|]; [ | reflexivity ].
  destruct (transform m); [ | reflexivity ].
  destruct (collider m); [ | reflexivity ].
  destruct (physics m); [ | reflexivity ].
  destruct (marblePass _ _ _ _ _ _) as [[t' p'] j'].
  apply writeAt_other; assumption.
Qed.

Lemma fold_processMarble_other (l : list nat) (w : World) (k : nat) :
  ~ In k l ->
  nth_error (fold_left (processMarble applyEuler applyEulerInverse) l w) k
  = nth_error w k.
Proof.
  revert w. induction l as [| i rest IH]; intros w Hk; cbn [fold_left].
  - reflexivity.
  - rewrite IH by (intros H; apply Hk; right; exact H).
    apply processMarble_other. intros E. apply Hk. left. exact E.
Qed.

Lemma marbles_spec (w : World) (k : nat) :
  In k (marbles w) <-> exists e, nth_error w k = Some e /\ isMarble e = true.
Proof.
  unfold marbles. rewrite filter_In, in_seq. split.
  - intros [_ H]. destruct (nth_error w k) as [e|]; [ eauto | discriminate ].
  - intros (e & He & Hm). split.
    + assert (nth_error w k <> None) as Hn by congruence.
      apply nth_error_Some in Hn. lia.
    + rewrite He. exact Hm.
Qed.

(** An entity that is not a marble is the same record before and after
    the pass. *)
Lemma update_not_marble (w : World) (k : nat) (e : Entity) :
  nth_error w k = Some e -> isMarble e = false ->
  nth_error (update applyEuler applyEulerInverse w) k = Some e.
Proof.
  intros He Hm. unfold update. rewrite fold_processMarble_other; [ exact He | ].
  intros H. apply marbles_spec in H. destruct H as (e' & He' & Hm').
  congruence.
Qed.

(** C9: the resolver pass leaves every entity that is not a marble as it
    was: the entity at the same place of the world after the pass is the
    same record, so its Transform (position, rotation, previousPosition),
    its Physics (velocity, flags) and its Surface are unchanged, whatever
    collisions the marbles had with it. *)
Theorem resolver_mutates_marbles_only (w : World) (k : nat) (e : Entity) :
  nth_error w k = Some e -> isMarble e = false ->
  exists e',
    nth_error (update applyEuler applyEulerInverse w) k = Some e'
    /\ transform e' = transform e
    /\ physics e' = physics e
    /\ surface e' = surface e
    /\ e' = e.
Proof.
  intros He Hm. exists e.
  rewrite (update_not_marble w k e He Hm). auto.
Qed.

End ResolverFrame.

Lemma resolver_mutates_marbles_only_witness :
  exists e',
    nth_error (update noRotation noRotation
                 [marbleEntity fallenTransform fallenPhysics fallenJump; platformEntity])
              1
    = Some e'
    /\ transform e' = transform platformEntity
    /\ physics e' = physics platformEntity
    /\ surface e' = surface platformEntity
    /\ e' = platformEntity.
Proof.
  apply (resolver_mutates_marbles_only noRotation noRotation
           [marbleEntity fallenTransform fallenPhysics fallenJump; platformEntity]
           1 platformEntity); reflexivity.
Defined.

(** ** Static objects *)

Lemma PhysicsSystem_update_static (dt : R) (w : World) (k : nat) (e : Entity)
      (p : Physics) :
  nth_error w k = Some e -> physics e = Some p -> isStatic p = true ->
  nth_error (PhysicsSystem.update dt w) k = Some e.
Proof.
  intros He Hp Hs. unfold PhysicsSystem.update.
  rewrite nth_error_map, He. cbn. f_equal.
  destruct (transform e) as [t|] eqn:Ht; [ | reflexivity ].
  rewrite Hp, updateEntity_static by assumption.
  apply withState_same; assumption.
Qed.

(** C4 (as amended): the integrator pass changes neither the position nor
    the velocity of an object whose Physics has isStatic=true, whether or
    not the object carries the marble role, and the collision-resolver pass
    changes neither for a static object that it does not process as a
    marble: in both cases the whole entity is the same record after the
    pass. *)
Theorem static_objects_frame (applyEuler applyEulerInverse : Vec3 -> Vec3 -> Vec3)
        (dt : R) (w : World) (k : nat) (e : Entity) (p : Physics) :
  nth_error w k = Some e -> physics e = Some p -> isStatic p = true ->
  nth_error (PhysicsSystem.update dt w) k = Some e
  /\ (isMarble e = false ->
      nth_error (update applyEuler applyEulerInverse w) k = Some e).
Proof.
  intros He Hp Hs. split.
  - exact (PhysicsSystem_update_static dt w k e p He Hp Hs).
  - intros Hm. exact (update_not_marble applyEuler applyEulerInverse w k e He Hm).
Qed.

Lemma static_objects_frame_witness :
  nth_error (PhysicsSystem.update (16 / 1000)
               [marbleEntity fallenTransform fallenPhysics fallenJump; platformEntity]) 1
  = Some platformEntity
  /\ nth_error (update noRotation noRotation
                  [marbleEntity fallenTransform fallenPhysics fallenJump; platformEntity]) 1
     = Some platformEntity.
Proof.
  destruct (static_objects_frame noRotation noRotation (16 / 1000)
              [marbleEntity fallenTransform fallenPhysics fallenJump; platformEntity]
              1 platformEntity staticPhysics eq_refl eq_refl eq_refl) as [H1 H2].
  split; [ exact H1 | exact (H2 eq_refl) ].
Defined.

(** C4 (counterexample to the claim as stated): a marble whose Physics is
    marked static, velocity (1, -5, 0), at (150, -100, 0) off the platform.
    The resolver pass respawns it like any marble: its position becomes
    (0, MARBLE_RADIUS, 0) and its velocity zero. *)
Lemma static_marble_counterexample :
  exists e' t' p',
    nth_error (update noRotation noRotation [staticMarbleEntity]) 0 = Some e'
    /\ isMarble staticMarbleEntity = true
    /\ option_map isStatic (physics staticMarbleEntity) = Some true
    /\ transform e' = Some t' /\ physics e' = Some p'
    /\ position t' = vec3 0 OBJECTS.MARBLE_RADIUS 0
    /\ velocity p' = vec3 0 0 0
    /\ option_map position (transform staticMarbleEntity) = Some (vec3 150 (- 100) 0)
    /\ option_map velocity (physics staticMarbleEntity) = Some (vec3 1 (- 5) 0).
Proof.
  assert (M : marbles [staticMarbleEntity] = [0%nat]) by reflexivity.
  unfold update. rewrite M. cbn [fold_left].
  unfold processMarble. cbn [nth_error staticMarbleEntity transform collider physics jump id].
  unfold marblePass. cbn [resetSurface option_map].
  rewrite checkBoundaryCollisions_respawn.
  - cbn. do 3 eexists. repeat split; reflexivity.
  - left. cbn. unfold OBJECTS.PLATFORM_SIZE. rewrite Rabs_right; lra.
  - cbn. lra.
Qed.

(** ** Narrow phase: sphere against box *)

Lemma sqrt_of_zero (a : R) : a = 0 -> sqrt a = 0.
Proof. intros ->. apply sqrt_0. Qed.

Lemma distanceTo_self (v : Vec3) : Vector3.distanceTo v v = 0.
Proof. unfold Vector3.distanceTo. apply sqrt_of_zero. ring. Qed.

Lemma clamp_inside (h a : R) : Rabs a <= h -> JSMath.max (- h) (JSMath.min h a) = a.
Proof.
  intros H. unfold JSMath.max, JSMath.min.
  assert (- h <= a <= h) as [L U].
  { unfold Rabs in H. destruct (Rcase_abs a); lra. }
  rewrite (Rmin_right h a) by lra. rewrite Rmax_right by lra. reflexivity.
Qed.

(** A sphere of positive radius whose centre is inside the box (faces
    included) collides, with the full radius as penetration and the normal
    of [closestFaceNormal]. *)
Lemma sphereBoxLocal_inside (l : Vec3) (r hw hh hd : R) :
  Rabs (Vector3.x l) <= hw -> Rabs (Vector3.y l) <= hh -> Rabs (Vector3.z l) <= hd ->
  0 < r ->
  sphereBoxLocal l r hw hh hd = mkResult true (closestFaceNormal l hw hh hd) (r - 0).
Proof.
  intros Hx Hy Hz Hr. unfold sphereBoxLocal.
  rewrite !clamp_inside by assumption.
  destruct l as [a b c]. cbn [Vector3.x Vector3.y Vector3.z].
  rewrite distanceTo_self.
  replace (Rltb 0 r) with true by (symmetry; apply Rltb_true; lra).
  replace (Rltb 0 0) with false by (symmetry; apply Rltb_false; lra).
  reflexivity.
Qed.

(** The axis [closestFaceNormal] chooses, by the order of the three
    distances to the faces.  The last case is the tie the strict
    comparisons let through: x and y tie below z and the z axis is taken. *)
Lemma closestFaceNormal_cases (l : Vec3) (hw hh hd : R) :
  let dx := hw - Rabs (Vector3.x l) in
  let dy := hh - Rabs (Vector3.y l) in
  let dz := hd - Rabs (Vector3.z l) in
  let n := closestFaceNormal l hw hh hd in
  (dx < dy -> dx < dz -> n = vec3 (JSMath.sign (Vector3.x l)) 0 0)
  /\ (dy < dx -> dy < dz -> n = vec3 0 (JSMath.sign (Vector3.y l)) 0)
  /\ (dz <= dx -> dz <= dy -> n = vec3 0 0 (JSMath.sign (Vector3.z l)))
  /\ (dx = dy -> dx < dz -> n = vec3 0 0 (JSMath.sign (Vector3.z l))).
Proof.
  cbn zeta. unfold closestFaceNormal, JSMath.abs.
  repeat split; intros; rtest; reflexivity.
Qed.

(** C5 (the code departs from the claim): a box of size 2 x 2 x 4 at the
    origin, not rotated, and a sphere of radius 0.8 centred at (0.5, 0.5, 1)
    inside it.  The distances to the faces are dx = dy = 0.5 and dz = 1; the
    returned normal is the z axis (0, 0, 1), whose distance is not the
    minimum. *)
Theorem sphere_box_tie_picks_z :
  let res := checkSphereBoxCollision noRotation noRotation
               (vec3 (1 / 2) (1 / 2) 1) (8 / 10) (vec3 0 0 0) (vec3 0 0 0) 2 2 4 in
  collided res = true
  /\ Vector3.distanceTo (vec3 (1 / 2) (1 / 2) 1) (vec3 (1 / 2) (1 / 2) 1) = 0
  /\ normal res = vec3 0 0 1
  /\ 2 / 2 - Rabs (1 / 2) = 1 / 2
  /\ 2 / 2 - Rabs (1 / 2) < 4 / 2 - Rabs 1.
Proof.
  cbn zeta. unfold checkSphereBoxCollision, rotationIsSet.
  assert (L : Vector3.subVectors (vec3 (1 / 2) (1 / 2) 1) (vec3 0 0 0)
              = vec3 (1 / 2) (1 / 2) 1).
  { unfold Vector3.subVectors. cbn. f_equal; lra. }
  rewrite L. cbn [Vector3.x Vector3.y Vector3.z].
  rtest.
  assert (A1 : Rabs (1 / 2) = 1 / 2) by (apply Rabs_right; lra).
  assert (A2 : Rabs 1 = 1) by (apply Rabs_right; lra).
  rewrite sphereBoxLocal_inside; cbn [Vector3.x Vector3.y Vector3.z];
    rewrite ?A1, ?A2; try lra.
  cbn [collided normal].
  split; [ reflexivity | ].
  split; [ apply distanceTo_self | ].
  split; [ | lra ].
  unfold closestFaceNormal, JSMath.abs, JSMath.sign.
  cbn [Vector3.x Vector3.y Vector3.z]. rewrite ?A1, ?A2.
  rtest. reflexivity.
Qed.

(** ** Narrow phase: sphere against torus *)

(** On the axis of the torus, at a distance along the axis of at least
    tube + sphereRadius, the hole test does not apply; the closest point of
    the centre circle falls back to the axis point at the height of the
    sphere, the distance is 0 and a collision is reported. *)
Lemma sphereTorusLocal_on_axis (yl r R0 tb : R) :
  tb + r <= Rabs yl -> 0 < r ->
  sphereTorusLocal (vec3 0 yl 0) r R0 tb = mkResult true (vec3 0 1 0) (r - 0).
Proof.
  intros Hy Hr. unfold sphereTorusLocal, JSMath.abs.
  cbn [Vector3.x Vector3.y Vector3.z].
  assert (D : Vector2.length (Vector2.mk 0 0) = 0).
  { unfold Vector2.length. apply sqrt_of_zero. cbn. ring. }
  rewrite D.
  replace (Rltb (Rabs yl) (tb + r)) with false by (symmetry; apply Rltb_false; lra).
  rewrite andb_false_r.
  replace (Rltb 0 0) with false by (symmetry; apply Rltb_false; lra).
  cbn [Vector2.x Vector2.y].
  assert (L : Vector3.length (Vector3.subVectors (vec3 0 yl 0) (vec3 0 yl 0)) = 0).
  { unfold Vector3.length, Vector3.subVectors. apply sqrt_of_zero. cbn. ring. }
  rewrite L.
  replace (Rltb 0 0) with false by (symmetry; apply Rltb_false; lra).
  rewrite distanceTo_self.
  replace (Rltb 0 r) with true by (symmetry; apply Rltb_true; lra).
  replace (Rltb 0 0) with false by (symmetry; apply Rltb_false; lra).
  reflexivity.
Qed.

(** C2 (the code departs from the claim): the ring of the course (major
    radius 5, tube 1), not rotated, at the origin, and the marble (radius
    0.8) on its axis at height 10.  The distance of the centre from the
    axis is 0, below 5 - 1 - 0.8, yet the test reports a collision, with
    normal (0, 1, 0) and the whole radius as penetration. *)
Theorem torus_axis_far_collides :
  let res := checkSphereTorusCollision noRotation noRotation
               (vec3 0 10 0) (8 / 10) (vec3 0 0 0) (vec3 0 0 0) 5 1 in
  Vector2.length (Vector2.mk 0 0) = 0
  /\ Vector2.length (Vector2.mk 0 0) < 5 - 1 - 8 / 10
  /\ collided res = true
  /\ normal res = vec3 0 1 0
  /\ penetration res = 8 / 10.
Proof.
  cbn zeta.
  assert (D : Vector2.length (Vector2.mk 0 0) = 0).
  { unfold Vector2.length. apply sqrt_of_zero. cbn. ring. }
  rewrite D. split; [ reflexivity | ]. split; [ lra | ].
  unfold checkSphereTorusCollision, noRotation.
  assert (L : Vector3.subVectors (vec3 0 10 0) (vec3 0 0 0) = vec3 0 10 0).
  { unfold Vector3.subVectors. cbn. f_equal; lra. }
  rewrite L, sphereTorusLocal_on_axis.
  - cbn. repeat split; try reflexivity. lra.
  - rewrite Rabs_right; lra.
  - lra.
Qed.

Lemma sqrt_of_square (a b : R) : 0 <= b -> a = b * b -> sqrt a = b.
Proof. intros Hb ->. apply sqrt_square. exact Hb. Qed.

(** Off the axis the exemption holds at every height: a sphere whose centre
    is at a positive distance below majorRadius - tube - sphereRadius from
    the axis does not collide, whatever its local y. *)
Lemma sphereTorusLocal_through_hole (l : Vec3) (r R0 tb : R) :
  let d := Vector2.length (Vector2.mk (Vector3.x l) (Vector3.z l)) in
  0 < d -> d < R0 - tb - r -> 0 <= tb -> 0 <= r ->
  collided (sphereTorusLocal l r R0 tb) = false.
Proof.
  destruct l as [a b c]. intros d. cbn [Vector3.x Vector3.z] in d.
  intros Hd Hin Htb Hr.
  assert (Hdd : d * d = a * a + c * c).
  { subst d. unfold Vector2.length. cbn. apply sqrt_sqrt. nra. }
  unfold sphereTorusLocal. cbn [Vector3.x Vector3.y Vector3.z].
  fold d.
  destruct (Rltb d (R0 - tb - r) && Rltb (JSMath.abs b) (tb + r));
    [ reflexivity | ].
  replace (Rltb 0 d) with true by (symmetry; apply Rltb_true; lra).
  unfold Vector2.normalize. fold d.
  replace (Rneqb d 0) with true by (symmetry; apply Rneqb_true; lra).
  cbn [Vector2.divideScalar Vector2.multiplyScalar Vector2.x Vector2.y].
  assert (L : Vector3.length
                (Vector3.subVectors (vec3 a b c) (vec3 (a / d * R0) b (c / d * R0)))
              = R0 - d).
  { unfold Vector3.length, Vector3.subVectors. cbn.
    apply sqrt_of_square; [ lra | ].
    replace ((a - a / d * R0) * (a - a / d * R0) + (b - b) * (b - b)
             + (c - c / d * R0) * (c - c / d * R0))
      with ((a * a + c * c) * (((d - R0) / d) * ((d - R0) / d)))
      by (field; lra).
    rewrite <- Hdd. field. lra. }
  rewrite L.
  replace (Rltb 0 (R0 - d)) with true by (symmetry; apply Rltb_true; lra).
  unfold Vector3.normalize. rewrite L.
  replace (Rneqb (R0 - d) 0) with true by (symmetry; apply Rneqb_true; lra).
  assert (D : Vector3.distanceTo (vec3 a b c)
                (Vector3.add (vec3 (a / d * R0) b (c / d * R0))
                   (Vector3.multiplyScalar
                      (Vector3.divideScalar
                         (Vector3.subVectors (vec3 a b c)
                                             (vec3 (a / d * R0) b (c / d * R0)))
                         (R0 - d)) tb))
              = R0 - d - tb).
  { unfold Vector3.distanceTo, Vector3.add, Vector3.multiplyScalar,
      Vector3.divideScalar, Vector3.subVectors. cbn.
    apply sqrt_of_square; [ lra | ].
    match goal with
    | |- ?lhs = _ =>
        replace lhs
          with ((a * a + c * c) * (((R0 - d - tb) / d) * ((R0 - d - tb) / d)))
          by (field; lra)
    end.
    rewrite <- Hdd. field. lra. }
  rewrite D.
  replace (Rltb (R0 - d - tb) r) with false by (symmetry; apply Rltb_false; lra).
  reflexivity.
Qed.

(** ** The jump state machine *)

Section JumpStateMachine.

Variable applyEuler : Vec3 -> Vec3 -> Vec3.
Variable applyEulerInverse : Vec3 -> Vec3 -> Vec3.

Ltac split_ifs :=
  repeat match goal with
         | |- context [if ?b then _ else _] => destruct b eqn:?; cbn in *
         end.

Lemma Grounded_TickInv (t : Transform) (p : Physics) (j : Jump) :
  Grounded j -> TickInv (t, p, j).
Proof.
  intros (HS & HJ & HF). unfold TickInv, Exclusive. rewrite HJ, HF.
  destruct (isStatic p); auto.
Qed.

Lemma requestJump_inv (st : JumperState) :
  TickInv st ->
  TickInv (runPass applyEuler applyEulerInverse st RequestJump).
Proof.
  destruct st as [[t p] j]. destruct j as [jp J F S rq cj cd cdt].
  unfold TickInv, Exclusive, runPass, requestJump. cbn.
  destruct cj, S, J, F, rq, (isStatic p), (Rleb cd 0); cbn; intuition congruence.
Qed.

Lemma jumpTransition_inv (st : JumperState) :
  TickInv st ->
  AfterTransitionInv (runPass applyEuler applyEulerInverse st JumpTransition).
Proof.
  destruct st as [[t p] j]. destruct j as [jp J F S rq cj cd cdt].
  unfold TickInv, AfterTransitionInv, Exclusive, runPass,
    JumpSystem.updateEntity, setFlags. cbn.
  destruct J, F, S; cbn; split_ifs; intuition congruence.
Qed.

Lemma integrate_inv (st : JumperState) (dt : R) (c : option PlayerControl) :
  AfterTransitionInv st ->
  AfterIntegrateInv (runPass applyEuler applyEulerInverse st (Integrate dt c)).
Proof.
  destruct st as [[t p] j]. destruct j as [jp J F S rq cj cd cdt].
  unfold AfterTransitionInv, AfterIntegrateInv, Exclusive, runPass, keepJump,
    PhysicsSystem.updateEntity, PhysicsSystem.processJumping,
    PhysicsSystem.launch, PhysicsSystem.gravityAndApex, executeJumpIfRequested,
    updateCooldown, setFlags, PhysicsSystem.applyFriction,
    PhysicsSystem.applyVelocity.
  cbn. destruct (isStatic p) eqn:Hs; cbn.
  - rewrite Hs. auto.
  - destruct c as [c|]; cbn; destruct rq, J, F, S; cbn; split_ifs;
      rewrite ?Hs; intuition congruence.
Qed.

Lemma boundary_ResolveInv (t : Transform) (p : Physics) (j : Jump) :
  AfterIntegrateInv (t, p, j) ->
  ResolveInv (isStatic p)
    (let '(p0, oj0) := resetSurface p (Some j) in
     checkBoundaryCollisions t p0 oj0).
Proof.
  destruct j as [jp J F S rq cj cd cdt].
  unfold AfterIntegrateInv, ResolveInv, Exclusive, resetSurface,
    checkBoundaryCollisions, respawnMarble, setFlags.
  cbn. intros [He Hs].
  split_ifs; (split; [ reflexivity | ]);
    destruct (isStatic p); cbn in *; intuition congruence.
Qed.

Lemma resolveCollision_ResolveInv (s : bool) (t : Transform) (p : Physics)
      (oj : option Jump) (oc : Collider) (os : option Surface)
      (op : option Physics) (col : CollisionResult) :
  ResolveInv s (t, p, oj) ->
  ResolveInv s (resolveCollision t p oj oc os op col).
Proof.
  intros H. unfold resolveCollision.
  destruct (isTrigger oc); [ exact H | ].
  cbv zeta.
  destruct (Rltb _ 0); [ | exact H ].
  destruct (Rltb (1 / 10) _); [ | exact H ].
  destruct oj as [j|]; [ | destruct H as [_ []] ].
  destruct j as [jp J F S rq cj cd cdt].
  unfold ResolveInv, Exclusive, setFlags in *. cbn in *.
  destruct H as (Hs & He & Hf & Hq).
  split; [ exact Hs | ].
  destruct (Rleb _ 0); destruct s, J; cbn in *; intuition congruence.
Qed.

Lemma collideWith_ResolveInv (s : bool) (marbleId : nat) (mc : Collider)
      (st : MarbleState) (e : Entity) :
  ResolveInv s st ->
  ResolveInv s (collideWith applyEuler applyEulerInverse marbleId mc st e).
Proof.
  intros H. destruct st as [[t p] oj]. unfold collideWith.
  destruct (Nat.eqb (id e) marbleId); [ exact H | ].
  destruct (transform e) as [et|]; [ | exact H ].
  destruct (collider e) as [ec|]; [ | exact H ].
  destruct (collided _); [ | exact H ].
  apply resolveCollision_ResolveInv. exact H.
Qed.

Lemma fold_collideWith_ResolveInv (s : bool) (marbleId : nat) (mc : Collider)
      (entities : list Entity) (st : MarbleState) :
  ResolveInv s st ->
  ResolveInv s (fold_left (collideWith applyEuler applyEulerInverse marbleId mc)
                          entities st).
Proof.
  revert st. induction entities as [| e rest IH]; intros st H; cbn [fold_left].
  - exact H.
  - apply IH. apply collideWith_ResolveInv. exact H.
Qed.

Lemma resolve_inv (st : JumperState) (marbleId : nat) (mc : Collider)
      (entities : list Entity) :
  AfterIntegrateInv st ->
  TickInv (runPass applyEuler applyEulerInverse st
                   (Resolve marbleId mc entities)).
Proof.
  destruct st as [[t p] j]. intros H.
  pose proof (fold_collideWith_ResolveInv (isStatic p) marbleId mc entities _
                (boundary_ResolveInv t p j H)) as R.
  cbn [resetSurface] in R.
  unfold runPass, marblePass. cbn [resetSurface].
  destruct (fold_left _ entities _) as [[t' p'] [j'|]]; cbn in *.
  - destruct R as (Hs & He & Hf & Hq). rewrite Hs.
    split; [ exact He | ]. split; [ exact Hf | ].
    destruct (isStatic p); [ exact Hq | ]. intros Hr. congruence.
  - destruct R as [_ []].
Qed.

(** One whole tick keeps the invariant of the tick boundary. *)
Lemma tick_inv (st : JumperState) (i : TickInput) :
  TickInv st ->
  TickInv (runPasses applyEuler applyEulerInverse st (tickPasses i)).
Proof.
  intros H. unfold tickPasses, runPasses.
  destruct (jumpKey i); cbn [app fold_left].
  - apply resolve_inv, integrate_inv, jumpTransition_inv, requestJump_inv, H.
  - apply resolve_inv, integrate_inv, jumpTransition_inv, H.
Qed.

Lemma runTicks_inv (ticks : list TickInput) (st : JumperState) :
  TickInv st ->
  TickInv (runTicks applyEuler applyEulerInverse st ticks).
Proof.
  revert st. induction ticks as [| i rest IH]; intros st H; cbn.
  - exact H.
  - apply IH, tick_inv, H.
Qed.

Lemma TickInv_Exclusive (st : JumperState) :
  TickInv st -> Exclusive (jumpOf st).
Proof. destruct st as [[t p] j]. intros [H _]. exact H. Qed.

Lemma AfterTransitionInv_Exclusive (st : JumperState) :
  AfterTransitionInv st -> Exclusive (jumpOf st).
Proof. destruct st as [[t p] j]. intros [H _]. exact H. Qed.

Lemma AfterIntegrateInv_Exclusive (st : JumperState) :
  AfterIntegrateInv st -> Exclusive (jumpOf st).
Proof. destruct st as [[t p] j]. intros [H _]. exact H. Qed.

(** Inside a tick: the flags are exclusive after every pass. *)
Lemma tick_prefix_exclusive (st : JumperState) (i : TickInput) (k : nat) :
  TickInv st ->
  Exclusive (jumpOf (runPasses applyEuler applyEulerInverse st
                               (firstn k (tickPasses i)))).
Proof.
  intros H. unfold tickPasses, runPasses.
  pose proof (requestJump_inv st H) as H1.
  destruct (jumpKey i); cbn [app].
  - destruct k as [| [| [| [| k]]]]; cbn [firstn fold_left].
    + apply TickInv_Exclusive, H.
    + apply TickInv_Exclusive, H1.
    + apply AfterTransitionInv_Exclusive, jumpTransition_inv, H1.
    + apply AfterIntegrateInv_Exclusive, integrate_inv, jumpTransition_inv, H1.
    + rewrite firstn_nil. cbn [fold_left].
      apply TickInv_Exclusive, resolve_inv, integrate_inv, jumpTransition_inv, H1.
  - destruct k as [| [| [| k]]]; cbn [firstn fold_left].
    + apply TickInv_Exclusive, H.
    + apply AfterTransitionInv_Exclusive, jumpTransition_inv, H.
    + apply AfterIntegrateInv_Exclusive, integrate_inv, jumpTransition_inv, H.
    + rewrite firstn_nil. cbn [fold_left].
      apply TickInv_Exclusive, resolve_inv, integrate_inv, jumpTransition_inv, H.
Qed.

(** C3 (as amended): in every state reached from a Grounded state
    (isOnSurface=true, isJumping=false, isFalling=false) by whole ticks
    whose passes run in the order of the game loop (jump request of the
    input, jump transition, integrator, collision resolver) followed by
    any number of passes of a further tick in that order, with arbitrary
    inputs to every pass, isJumping and isFalling are not both true. *)
Theorem jump_flags_exclusive (st0 : JumperState) (ticks : list TickInput)
        (i : TickInput) (k : nat) :
  Grounded (jumpOf st0) ->
  let st := runPasses applyEuler applyEulerInverse
              (runTicks applyEuler applyEulerInverse st0 ticks)
              (firstn k (tickPasses i)) in
  isJumping (jumpOf st) && isFalling (jumpOf st) = false.
Proof.
  intros H. cbn zeta. apply tick_prefix_exclusive, runTicks_inv.
  destruct st0 as [[t p] j]. apply Grounded_TickInv. exact H.
Qed.

End JumpStateMachine.

Lemma jump_flags_exclusive_witness :
  let i := mkTickInput true (16 / 1000) None 1 marbleCollider0 [platformEntity] in
  let st := runPasses noRotation noRotation
              (runTicks noRotation noRotation
                        (marbleTransform0, marblePhysics0, marbleJump0) [i; i])
              (firstn 2 (tickPasses i)) in
  isJumping (jumpOf st) && isFalling (jumpOf st) = false.
Proof.
  apply (jump_flags_exclusive noRotation noRotation
           (marbleTransform0, marblePhysics0, marbleJump0)).
  repeat split; reflexivity.
Defined.

(** C3 (counterexample to the claim as stated): the marble of the factory,
    Grounded, spawned at height 10.  A jump request is latched; a resolver
    pass finds no contact and clears isOnSurface; the jump-transition pass
    sets isFalling; the integrator pass then executes the latched request
    and sets isJumping while isFalling stays set. *)
Lemma jump_flags_counterexample :
  let st := runPasses noRotation noRotation
              (airTransform, marblePhysics0, marbleJump0)
              [RequestJump; Resolve 1 marbleCollider0 []; JumpTransition;
               Integrate (16 / 1000) None] in
  Grounded marbleJump0
  /\ isJumping (jumpOf st) = true /\ isFalling (jumpOf st) = true.
Proof.
  cbn zeta. split; [ repeat split; reflexivity | ].
  unfold runPasses. cbn [fold_left].
  assert (E1 : runPass noRotation noRotation
                 (airTransform, marblePhysics0, marbleJump0) RequestJump
               = (airTransform, marblePhysics0,
                  mkJump PHYSICS.JUMP_POWER false false true true true 0 (2 / 10))).
  { unfold runPass, requestJump. cbn. rtest. reflexivity. }
  rewrite E1.
  assert (E2 : runPass noRotation noRotation
                 (airTransform, marblePhysics0,
                  mkJump PHYSICS.JUMP_POWER false false true true true 0 (2 / 10))
                 (Resolve 1 marbleCollider0 [])
               = (airTransform, marblePhysics0,
                  mkJump PHYSICS.JUMP_POWER false false false true true 0 (2 / 10))).
  { unfold runPass, marblePass, checkBoundaryCollisions, JSMath.abs.
    cbn. rewrite Rabs_R0. unfold OBJECTS.PLATFORM_SIZE, OBJECTS.MARBLE_RADIUS.
    rtest. reflexivity. }
  rewrite E2.
  assert (E3 : runPass noRotation noRotation
                 (airTransform, marblePhysics0,
                  mkJump PHYSICS.JUMP_POWER false false false true true 0 (2 / 10))
                 JumpTransition
               = (airTransform, marblePhysics0,
                  mkJump PHYSICS.JUMP_POWER false true false true true 0 (2 / 10))).
  { reflexivity. }
  rewrite E3.
  unfold runPass, keepJump.
  destruct (updateEntity_requested (16 / 1000) airTransform marblePhysics0 None
              (mkJump PHYSICS.JUMP_POWER false true false true true 0 (2 / 10))
              eq_refl eq_refl) as (t' & p' & E4 & _).
  rewrite E4. cbn. unfold PHYSICS.JUMP_POWER, PHYSICS.GRAVITY. rtest.
  split; reflexivity.
Qed.

(** * Further properties of the systems *)

(** ** The integrator *)

Ltac case_ifs :=
  repeat match goal with
         | |- context [if ?b then _ else _] => destruct b eqn:?; cbn
         end.

(** X3: the per-object pass of the integrator writes the velocity, the
    position, the previous position and the jump state only: the mass, the
    gravity, both friction coefficients, the bounce coefficient and the two
    flags isOnGround and isStatic of the Physics component, the rotation and
    scale of the Transform, and jumpPower, canJump and jumpCooldownTime of
    the Jump component are as before, and a Jump component is neither added
    nor removed. *)
Theorem integrator_keeps_configuration (dt : R) (t : Transform) (p : Physics)
        (pc : option PlayerControl) (oj : option Jump) :
  let '(t', p', oj') := PhysicsSystem.updateEntity dt t p pc oj in
  mass p' = mass p /\ gravity p' = gravity p /\ friction p' = friction p
  /\ airFriction p' = airFriction p /\ bounceCoefficient p' = bounceCoefficient p
  /\ isOnGround p' = isOnGround p /\ isStatic p' = isStatic p
  /\ rotation t' = rotation t /\ scale t' = scale t
  /\ match oj, oj' with
     | Some j, Some j' =>
         jumpPower j' = jumpPower j /\ canJump j' = canJump j
         /\ jumpCooldownTime j' = jumpCooldownTime j
     | None, None => True
     | _, _ => False
     end.
Proof.
  unfold PhysicsSystem.updateEntity, PhysicsSystem.processJumping,
    PhysicsSystem.launch, PhysicsSystem.gravityAndApex, executeJumpIfRequested,
    updateCooldown, PhysicsSystem.processPlayerMovement,
    PhysicsSystem.applyFriction, PhysicsSystem.applyVelocity, setFlags.
  destruct (isStatic p) eqn:Hs.
  - destruct oj; repeat split; auto.
  - destruct pc as [c|]; destruct oj as [j|]; cbn; case_ifs;
      repeat split; auto.
Qed.

(** X2: on a non-static object the pass records the position it starts
    from as previousPosition and then takes one explicit Euler step with the
    velocity as it is before friction: the horizontal displacement is the old
    velocity plus the movement intent, the vertical displacement is the new
    velocity.y, plus the 0.05 nudge when a jump is launched in the call. *)
Theorem integrator_euler_step (dt : R) (t : Transform) (p : Physics)
        (pc : option PlayerControl) (oj : option Jump) :
  isStatic p = false ->
  let '(t', p', _) := PhysicsSystem.updateEntity dt t p pc oj in
  previousPosition t' = position t
  /\ Vector3.x (position t') = Vector3.x (position t) + (Vector3.x (velocity p) + intentX p pc)
  /\ Vector3.z (position t') = Vector3.z (position t) + (Vector3.z (velocity p) + intentZ p pc)
  /\ Vector3.y (position t')
     = Vector3.y (position t) + Vector3.y (velocity p')
       + (if match oj with Some j => jumpRequested j | None => false end
          then 5 / 100 else 0).
Proof.
  intros Hs.
  unfold PhysicsSystem.updateEntity, PhysicsSystem.processJumping,
    PhysicsSystem.launch, PhysicsSystem.gravityAndApex, executeJumpIfRequested,
    updateCooldown, PhysicsSystem.processPlayerMovement,
    PhysicsSystem.applyFriction, PhysicsSystem.applyVelocity, setFlags,
    intentX, intentZ.
  rewrite Hs.
  destruct pc as [c|]; destruct oj as [[jp J F S rq cj cd cdt]|]; cbn;
    try (destruct rq; destruct (Rltb 0 cd); cbn); case_ifs;
    repeat split; try reflexivity; cbn; try ring.
Qed.

Lemma integrator_euler_step_witness :
  let '(t', p', _) :=
    PhysicsSystem.updateEntity (16 / 1000) marbleTransform0 marblePhysics0 None None in
  previousPosition t' = position marbleTransform0
  /\ Vector3.x (position t')
     = Vector3.x (position marbleTransform0)
       + (Vector3.x (velocity marblePhysics0) + intentX marblePhysics0 None)
  /\ Vector3.z (position t')
     = Vector3.z (position marbleTransform0)
       + (Vector3.z (velocity marblePhysics0) + intentZ marblePhysics0 None)
  /\ Vector3.y (position t')
     = Vector3.y (position marbleTransform0) + Vector3.y (velocity p') + 0.
Proof.
  exact (integrator_euler_step (16 / 1000) marbleTransform0 marblePhysics0 None None
                               eq_refl).
Defined.

(** One call on a falling object without Jump and PlayerControl. *)
Lemma updateEntity_falling (dt : R) (t : Transform) (p : Physics) :
  isStatic p = false -> isOnGround p = false ->
  PhysicsSystem.updateEntity dt t p None None
  = (mkTransform
       (Vector3.add (position t)
          (vec3 (Vector3.x (velocity p)) (Vector3.y (velocity p) - gravity p)
                (Vector3.z (velocity p))))
       (rotation t) (scale t) (position t),
     setVelocity p
       (vec3 (Vector3.x (velocity p) * airFriction p)
             (Vector3.y (velocity p) - gravity p)
             (Vector3.z (velocity p) * airFriction p)),
     None).
Proof.
  intros Hs Hg. unfold PhysicsSystem.updateEntity. rewrite Hs, Hg. cbn.
  unfold PhysicsSystem.applyFriction, PhysicsSystem.applyVelocity. cbn.
  rewrite Hg. reflexivity.
Qed.

(** X1: free fall.  For a non-static object without Jump and PlayerControl
    that is off the ground, [n] integrator calls lower velocity.y by exactly
    n * gravity, with no terminal velocity, multiply the horizontal velocity
    by airFriction^n, move position.y by n * velocity.y - gravity * n(n+1)/2
    and leave isOnGround false. *)
Theorem free_fall (n : nat) (dt : R) (t : Transform) (p : Physics) :
  isStatic p = false -> isOnGround p = false ->
  let '(t', p', oj') := integrateTimes n dt None (t, p, None) in
  Vector3.y (velocity p') = Vector3.y (velocity p) - INR n * gravity p
  /\ Vector3.x (velocity p') = Vector3.x (velocity p) * airFriction p ^ n
  /\ Vector3.z (velocity p') = Vector3.z (velocity p) * airFriction p ^ n
  /\ Vector3.y (position t')
     = Vector3.y (position t) + INR n * Vector3.y (velocity p)
       - gravity p * (INR n * (INR n + 1) / 2)
  /\ isOnGround p' = false /\ oj' = None.
Proof.
  revert t p. induction n as [| n IH]; intros t p Hs Hg.
  - cbn. repeat split; try assumption; try lra.
  - cbn [integrateTimes]. rewrite updateEntity_falling by assumption.
    match goal with
    | |- context [integrateTimes n dt None (?t1, ?p1, None)] =>
        specialize (IH t1 p1 Hs Hg);
        destruct (integrateTimes n dt None (t1, p1, None)) as [[t' p'] oj']
    end.
    cbn in IH. destruct IH as (Hy & Hx & Hz & Hp & Hg' & Ho).
    rewrite S_INR. cbn [pow].
    repeat split; try assumption.
    + rewrite Hy. ring.
    + rewrite Hx. ring.
    + rewrite Hz. ring.
    + rewrite Hp. field.
Qed.

Lemma free_fall_witness :
  let '(t', p', oj') :=
    integrateTimes 3 (16 / 1000) None (airTransform, marblePhysics0, None) in
  Vector3.y (velocity p') = - (3 * PHYSICS.GRAVITY)
  /\ Vector3.y (position t') = 10 - PHYSICS.GRAVITY * 6.
Proof.
  pose proof (free_fall 3 (16 / 1000) airTransform marblePhysics0 eq_refl eq_refl) as H.
  destruct (integrateTimes 3 (16 / 1000) None (airTransform, marblePhysics0, None))
    as [[t' p'] oj'].
  destruct H as (Hy & _ & _ & Hp & _).
  split.
  - rewrite Hy. cbn. lra.
  - rewrite Hp. cbn. lra.
Defined.

(** ** The Jump component and the jump-transition pass *)

(** X4: the cooldown update of the TypeScript port (Jump.ts) floors at
    zero: from a cooldown that is not negative, a step dt >= 0 leaves
    max(0, cooldown - dt), which is never negative. *)
Theorem JumpTS_updateCooldown_floor (j : Jump) (dt : R) :
  0 <= jumpCooldown j -> 0 <= dt ->
  jumpCooldown (JumpTS.updateCooldown j dt) = Rmax 0 (jumpCooldown j - dt)
  /\ 0 <= jumpCooldown (JumpTS.updateCooldown j dt).
Proof.
  intros Hc Hdt. unfold JumpTS.updateCooldown, JSMath.max.
  destruct (Rltb 0 (jumpCooldown j)) eqn:E; cbn.
  - split; [ reflexivity | apply Rmax_l ].
  - apply Rltb_false in E. rewrite Rmax_left by lra. lra.
Qed.

Lemma JumpTS_updateCooldown_floor_witness :
  jumpCooldown (JumpTS.updateCooldown
                  (mkJump PHYSICS.JUMP_POWER false false true false true
                          (2 / 100) (2 / 10)) (5 / 100))
  = Rmax 0 (2 / 100 - 5 / 100).
Proof.
  apply (JumpTS_updateCooldown_floor
           (mkJump PHYSICS.JUMP_POWER false false true false true (2 / 100) (2 / 10))
           (5 / 100)); cbn; lra.
Defined.

Lemma fold_updateCooldown_running (dts : list R) (j : Jump) :
  Forall (fun dt => 0 <= dt) dts ->
  fold_right Rplus 0 dts < jumpCooldown j ->
  jumpCooldown (fold_left updateCooldown dts j)
  = jumpCooldown j - fold_right Rplus 0 dts.
Proof.
  intros Hpos. revert j. induction Hpos as [| dt rest Hdt Hrest IH]; intros j Hsum.
  - cbn. ring.
  - cbn [fold_left fold_right] in *.
    assert (Hs : 0 <= fold_right Rplus 0 rest).
    { clear - Hrest. induction Hrest; cbn; lra. }
    rewrite IH.
    + rewrite updateCooldown_value.
      replace (Rltb 0 (jumpCooldown j)) with true by (symmetry; apply Rltb_true; lra).
      ring.
    + rewrite updateCooldown_value.
      replace (Rltb 0 (jumpCooldown j)) with true by (symmetry; apply Rltb_true; lra).
      lra.
Qed.

(** X5: the jump cooldown.  A launch sets the cooldown to jumpCooldownTime;
    as long as the time steps of the integrator calls that follow add up to
    less than jumpCooldownTime the cooldown stays positive, and
    [requestJump] latches nothing, whatever the surface flags have become
    in the meantime. *)
Theorem cooldown_blocks_requests (j : Jump) (dts : list R)
        (jumping falling onSurface : bool) :
  jumpRequested j = true ->
  Forall (fun dt => 0 <= dt) dts ->
  fold_right Rplus 0 dts < jumpCooldownTime j ->
  let j' := fold_left updateCooldown dts (fst (executeJumpIfRequested j)) in
  jumpCooldown j' = jumpCooldownTime j - fold_right Rplus 0 dts
  /\ requestJump (setFlags j' jumping falling onSurface)
     = setFlags j' jumping falling onSurface.
Proof.
  intros Hr Hpos Hsum. cbn zeta.
  unfold executeJumpIfRequested. rewrite Hr. cbn [fst].
  pose proof (fold_updateCooldown_running dts
                (mkJump (jumpPower j) true (isFalling j) false false (canJump j)
                        (jumpCooldownTime j) (jumpCooldownTime j)) Hpos Hsum) as E.
  cbn [jumpCooldown] in E. split; [ exact E | ].
  unfold requestJump, setFlags. cbn [canJump isOnSurface isJumping jumpCooldown].
  rewrite E.
  replace (Rleb (jumpCooldownTime j - fold_right Rplus 0 dts) 0) with false
    by (symmetry; apply Rleb_false; lra).
  rewrite andb_false_r. reflexivity.
Qed.

Lemma cooldown_blocks_requests_witness :
  let j' := fold_left updateCooldown [16 / 1000; 16 / 1000]
              (fst (executeJumpIfRequested (requestJump marbleJump0))) in
  requestJump (setFlags j' false false true) = setFlags j' false false true.
Proof.
  assert (E : requestJump marbleJump0
              = mkJump PHYSICS.JUMP_POWER false false true true true 0 (2 / 10)).
  { unfold requestJump, marbleJump0, newJump. cbn. rtest. reflexivity. }
  rewrite E.
  refine (proj2 (cooldown_blocks_requests
                   (mkJump PHYSICS.JUMP_POWER false false true true true 0 (2 / 10))
                   [16 / 1000; 16 / 1000] false false true eq_refl _ _)).
  - repeat constructor; lra.
  - cbn. lra.
Defined.

(** X6: the jump-transition pass never changes isOnSurface and makes the
    airborne flags agree with it: on a surface neither isJumping nor
    isFalling is set afterwards, off a surface at least one of them is.
    Only velocity.y is written, and only to 0 on landing.  Running the pass
    a second time changes nothing. *)
Theorem jump_transition_settles (p : Physics) (j : Jump) :
  let '(p', j') := JumpSystem.updateEntity p j in
  isOnSurface j' = isOnSurface j
  /\ (isOnSurface j' = true -> isJumping j' = false /\ isFalling j' = false)
  /\ (isOnSurface j' = false -> isJumping j' || isFalling j' = true)
  /\ (p' = p
      \/ ((isJumping j || isFalling j) && isOnSurface j = true
          /\ p' = setVelocity p (vec3 (Vector3.x (velocity p)) 0
                                      (Vector3.z (velocity p)))))
  /\ JumpSystem.updateEntity p' j' = (p', j').
Proof.
  destruct j as [jp J F S rq cj cd cdt].
  unfold JumpSystem.updateEntity, setFlags.
  destruct J, F, S; cbn;
    try (destruct (Rltb (Vector3.y (velocity p)) 0) eqn:E; cbn; rewrite ?E; cbn);
    rewrite ?(proj2 (Rltb_false 0 0)) by lra; cbn;
    repeat split; auto; try discriminate; intros; try discriminate.
Qed.

(** ** Narrow phase *)

Lemma length_sqr (v : Vec3) :
  Vector3.length v * Vector3.length v
  = Vector3.x v * Vector3.x v + Vector3.y v * Vector3.y v + Vector3.z v * Vector3.z v.
Proof. unfold Vector3.length. apply sqrt_sqrt. nra. Qed.

Lemma normalize_unit (v : Vec3) :
  0 < Vector3.length v ->
  Vector3.dot (Vector3.normalize v) (Vector3.normalize v) = 1.
Proof.
  intros H. unfold Vector3.normalize.
  replace (Rneqb (Vector3.length v) 0) with true
    by (symmetry; apply Rneqb_true; lra).
  unfold Vector3.dot, Vector3.divideScalar. cbn.
  pose proof (length_sqr v) as L.
  replace (Vector3.x v / Vector3.length v * (Vector3.x v / Vector3.length v)
           + Vector3.y v / Vector3.length v * (Vector3.y v / Vector3.length v)
           + Vector3.z v / Vector3.length v * (Vector3.z v / Vector3.length v))
    with ((Vector3.x v * Vector3.x v + Vector3.y v * Vector3.y v
           + Vector3.z v * Vector3.z v)
          / (Vector3.length v * Vector3.length v))
    by (field; lra).
  rewrite <- L. field. lra.
Qed.

Lemma length_subVectors (a b : Vec3) :
  Vector3.length (Vector3.subVectors a b) = Vector3.distanceTo a b.
Proof. reflexivity. Qed.

Lemma distanceTo_sym (a b : Vec3) : Vector3.distanceTo a b = Vector3.distanceTo b a.
Proof. unfold Vector3.distanceTo. f_equal. ring. Qed.

Lemma distanceTo_nonneg (a b : Vec3) : 0 <= Vector3.distanceTo a b.
Proof. unfold Vector3.distanceTo. apply sqrt_pos. Qed.

(** X8: two spheres collide exactly when the distance of their centres is
    below the sum of the radii; the penetration is then that sum less the
    distance, a positive number, and the normal has length one, also in the
    fallback for coinciding centres. *)
Theorem sphere_sphere_criterion (pos1 : Vec3) (radius1 : R) (pos2 : Vec3) (radius2 : R) :
  let res := checkSphereSphereCollision pos1 radius1 pos2 radius2 in
  (collided res = true <-> Vector3.distanceTo pos1 pos2 < radius1 + radius2)
  /\ (collided res = true ->
      penetration res = radius1 + radius2 - Vector3.distanceTo pos1 pos2
      /\ 0 < penetration res
      /\ Vector3.dot (normal res) (normal res) = 1)
  /\ (collided res = false -> res = noCollision).
Proof.
  cbn zeta. unfold checkSphereSphereCollision.
  destruct (Rltb (Vector3.distanceTo pos1 pos2) (radius1 + radius2)) eqn:E; cbn.
  - apply Rltb_true in E. split; [ tauto | ]. split; [ | discriminate ].
    intros _. split; [ reflexivity | ]. split; [ lra | ].
    destruct (Rltb 0 (Vector3.distanceTo pos1 pos2)) eqn:D.
    + apply Rltb_true in D. apply normalize_unit. rewrite length_subVectors. exact D.
    + unfold Vector3.dot. cbn. ring.
  - apply Rltb_false in E. split; [ | split; [ discriminate | reflexivity ] ].
    split; [ discriminate | intros H; lra ].
Qed.

(** X9: swapping the two spheres gives the same verdict and the same
    penetration; the normal is reversed, except in the fallback for
    coinciding centres, where it is (0, 1, 0) both ways. *)
Theorem sphere_sphere_swap (pos1 : Vec3) (radius1 : R) (pos2 : Vec3) (radius2 : R) :
  let a := checkSphereSphereCollision pos1 radius1 pos2 radius2 in
  let b := checkSphereSphereCollision pos2 radius2 pos1 radius1 in
  collided b = collided a
  /\ penetration b = penetration a
  /\ (0 < Vector3.distanceTo pos1 pos2 ->
      normal b = Vector3.multiplyScalar (normal a) (- 1))
  /\ (Vector3.distanceTo pos1 pos2 = 0 -> normal b = normal a).
Proof.
  cbn zeta. unfold checkSphereSphereCollision.
  rewrite (distanceTo_sym pos2 pos1), (Rplus_comm radius2 radius1).
  destruct (Rltb (Vector3.distanceTo pos1 pos2) (radius1 + radius2)); cbn.
  - split; [ reflexivity | ]. split; [ reflexivity | ]. split.
    + intros D.
      replace (Rltb 0 (Vector3.distanceTo pos1 pos2)) with true
        by (symmetry; apply Rltb_true; lra).
      unfold Vector3.normalize. rewrite !length_subVectors.
      rewrite (distanceTo_sym pos2 pos1).
      replace (Rneqb (Vector3.distanceTo pos1 pos2) 0) with true
        by (symmetry; apply Rneqb_true; lra).
      unfold Vector3.divideScalar, Vector3.multiplyScalar, Vector3.subVectors.
      cbn. f_equal; field; lra.
    + intros D. rewrite D.
      replace (Rltb 0 0) with false by (symmetry; apply Rltb_false; lra).
      reflexivity.
  - repeat split; intros; unfold Vector3.multiplyScalar, Vector3.zero; cbn;
      f_equal; ring.
Qed.

Lemma sphere_sphere_swap_witness :
  normal (checkSphereSphereCollision (vec3 (3 / 4) 0 0) (8 / 10) (vec3 0 0 0) (8 / 10))
  = Vector3.multiplyScalar
      (normal (checkSphereSphereCollision (vec3 0 0 0) (8 / 10) (vec3 (3 / 4) 0 0) (8 / 10)))
      (- 1).
Proof.
  refine (proj1 (proj2 (proj2
            (sphere_sphere_swap (vec3 0 0 0) (8 / 10) (vec3 (3 / 4) 0 0) (8 / 10)))) _).
  unfold Vector3.distanceTo. cbn. apply sqrt_lt_R0. lra.
Defined.

Lemma sphere_sphere_criterion_witness :
  collided (checkSphereSphereCollision (vec3 0 0 0) (8 / 10) (vec3 0 0 0) (8 / 10)) = true
  /\ Vector3.dot
       (normal (checkSphereSphereCollision (vec3 0 0 0) (8 / 10) (vec3 0 0 0) (8 / 10)))
       (normal (checkSphereSphereCollision (vec3 0 0 0) (8 / 10) (vec3 0 0 0) (8 / 10)))
     = 1.
Proof.
  destruct (sphere_sphere_criterion (vec3 0 0 0) (8 / 10) (vec3 0 0 0) (8 / 10))
    as (Hiff & Hres & _).
  assert (C : collided (checkSphereSphereCollision (vec3 0 0 0) (8 / 10)
                                                   (vec3 0 0 0) (8 / 10)) = true).
  { apply Hiff. rewrite distanceTo_self. lra. }
  split; [ exact C | exact (proj2 (proj2 (Hres C))) ].
Defined.

Lemma distanceTo_ge_axis (a b : Vec3) :
  Rabs (Vector3.x a - Vector3.x b) <= Vector3.distanceTo a b
  /\ Rabs (Vector3.y a - Vector3.y b) <= Vector3.distanceTo a b
  /\ Rabs (Vector3.z a - Vector3.z b) <= Vector3.distanceTo a b.
Proof.
  unfold Vector3.distanceTo.
  pose proof (Rle_0_sqr (Vector3.x a - Vector3.x b)) as Hx.
  pose proof (Rle_0_sqr (Vector3.y a - Vector3.y b)) as Hy.
  pose proof (Rle_0_sqr (Vector3.z a - Vector3.z b)) as Hz.
  unfold Rsqr in Hx, Hy, Hz.
  repeat split; rewrite <- sqrt_Rsqr_abs; apply sqrt_le_1_alt; unfold Rsqr; lra.
Qed.

Lemma clamp_above (h a : R) : 0 <= h -> h <= a -> JSMath.max (- h) (JSMath.min h a) = h.
Proof.
  intros Hh Ha. unfold JSMath.max, JSMath.min.
  rewrite (Rmin_left h a) by lra. rewrite Rmax_right by lra. reflexivity.
Qed.

Lemma clamp_below (h a : R) : 0 <= h -> a <= - h -> JSMath.max (- h) (JSMath.min h a) = - h.
Proof.
  intros Hh Ha. unfold JSMath.max, JSMath.min.
  rewrite (Rmin_right h a) by lra. rewrite Rmax_left by lra. reflexivity.
Qed.

Lemma clamp_gap (h a r : R) :
  0 <= h -> h + r <= Rabs a ->
  r <= Rabs (a - JSMath.max (- h) (JSMath.min h a)).
Proof.
  intros Hh Ha. unfold Rabs in Ha. destruct (Rcase_abs a) as [Hn | Hp].
  - destruct (Rle_dec a (- h)) as [L | L].
    + rewrite clamp_below by lra. unfold Rabs. destruct (Rcase_abs _); lra.
    + assert (r < 0) by lra.
      pose proof (Rabs_pos (a - JSMath.max (- h) (JSMath.min h a))). lra.
  - destruct (Rle_dec h a) as [L | L].
    + rewrite clamp_above by lra. unfold Rabs. destruct (Rcase_abs _); lra.
    + assert (r < 0) by lra.
      pose proof (Rabs_pos (a - JSMath.max (- h) (JSMath.min h a))). lra.
Qed.

Section NarrowPhase.

Variable applyEuler : Vec3 -> Vec3 -> Vec3.
Variable applyEulerInverse : Vec3 -> Vec3 -> Vec3.

(** X7: a pair of colliders neither of which is a sphere never collides,
    whatever the positions; and for two colliders of different types the
    result does not depend on the order of the operands, so the normal of a
    sphere against a box or a torus points toward the sphere whichever of
    the two is passed first. *)
Theorem checkCollision_dispatch (transformA : Transform) (colliderA : Collider)
        (transformB : Transform) (colliderB : Collider) :
  (type colliderA <> sphere -> type colliderB <> sphere ->
   checkCollision applyEuler applyEulerInverse transformA colliderA transformB colliderB
   = noCollision)
  /\ (type colliderA <> type colliderB ->
      checkCollision applyEuler applyEulerInverse transformA colliderA transformB colliderB
      = checkCollision applyEuler applyEulerInverse transformB colliderB
                       transformA colliderA).
Proof.
  unfold checkCollision.
  destruct (type colliderA), (type colliderB); split; intros;
    try reflexivity; congruence.
Qed.

(** X10: sphere-box containment.  When the centre of a sphere of positive
    radius, taken into the frame of the box, lies within the half extents of
    the box (faces included), a collision is reported and the penetration is
    the whole radius. *)
Theorem sphere_box_containment (spherePos : Vec3) (sphereRadius : R)
        (boxPos boxRot : Vec3) (boxWidth boxHeight boxDepth : R) :
  let local :=
    if rotationIsSet boxRot
    then applyEulerInverse boxRot (Vector3.subVectors spherePos boxPos)
    else Vector3.subVectors spherePos boxPos in
  Rabs (Vector3.x local) <= boxWidth / 2 ->
  Rabs (Vector3.y local) <= boxHeight / 2 ->
  Rabs (Vector3.z local) <= boxDepth / 2 ->
  0 < sphereRadius ->
  let res := checkSphereBoxCollision applyEuler applyEulerInverse spherePos
               sphereRadius boxPos boxRot boxWidth boxHeight boxDepth in
  collided res = true /\ penetration res = sphereRadius.
Proof.
  intros local Hx Hy Hz Hr. cbn zeta. unfold checkSphereBoxCollision.
  fold local. rewrite sphereBoxLocal_inside by assumption.
  cbn. split; [ reflexivity | ring ].
Qed.

(** X11: whenever the sphere-box test reports a collision, the penetration
    is positive and at most the radius, and the normal in the frame of the
    box has length one unless the centre is inside the box. *)
Theorem sphere_box_result_bounds (l : Vec3) (r hw hh hd : R) :
  let res := sphereBoxLocal l r hw hh hd in
  let closest :=
    vec3 (JSMath.max (- hw) (JSMath.min hw (Vector3.x l)))
         (JSMath.max (- hh) (JSMath.min hh (Vector3.y l)))
         (JSMath.max (- hd) (JSMath.min hd (Vector3.z l))) in
  collided res = true ->
  0 < penetration res <= r
  /\ (0 < Vector3.distanceTo l closest -> Vector3.dot (normal res) (normal res) = 1).
Proof.
  cbn zeta. unfold sphereBoxLocal.
  set (closest := vec3 _ _ _).
  pose proof (distanceTo_nonneg l closest) as Hd.
  destruct (Rltb (Vector3.distanceTo l closest) r) eqn:E; cbn; [ | discriminate ].
  apply Rltb_true in E. intros _. split; [ lra | ].
  intros D.
  replace (Rltb 0 (Vector3.distanceTo l closest)) with true
    by (symmetry; apply Rltb_true; lra).
  apply normalize_unit. rewrite length_subVectors. exact D.
Qed.

(** X12: separation along an axis of the box.  When the centre of the
    sphere, in the frame of the box, is at least half extent + radius away
    from the centre of the box along one of the three axes, no collision is
    reported. *)
Theorem sphere_box_separated (l : Vec3) (r hw hh hd : R) :
  0 <= hw -> 0 <= hh -> 0 <= hd ->
  hw + r <= Rabs (Vector3.x l) \/ hh + r <= Rabs (Vector3.y l)
  \/ hd + r <= Rabs (Vector3.z l) ->
  sphereBoxLocal l r hw hh hd = noCollision.
Proof.
  intros Hw Hh Hd Hsep. unfold sphereBoxLocal.
  set (closest := vec3 _ _ _).
  destruct (distanceTo_ge_axis l closest) as (Dx & Dy & Dz).
  subst closest. cbn [Vector3.x Vector3.y Vector3.z] in Dx, Dy, Dz.
  match goal with
  | |- (if Rltb ?d r then _ else _) = _ =>
      replace (Rltb d r) with false; [ reflexivity | ]
  end.
  symmetry. apply Rltb_false.
  destruct Hsep as [H | [H | H]].
  - pose proof (clamp_gap hw (Vector3.x l) r Hw H). lra.
  - pose proof (clamp_gap hh (Vector3.y l) r Hh H). lra.
  - pose proof (clamp_gap hd (Vector3.z l) r Hd H). lra.
Qed.

End NarrowPhase.

Lemma sqrt_of_square_abs (a b : R) : a = b * b -> sqrt a = Rabs b.
Proof. intros ->. apply (sqrt_Rsqr_abs b). Qed.

(** X13: the sphere-torus test ignores the height of the sphere.  For a
    centre at distance d from the axis of the torus, with d > 0 and d other
    than the major radius, the verdict is ||d - majorRadius| - tube| <
    sphereRadius, whatever the local y of the centre: the torus is tested as
    a tube wall of unbounded height around its centre circle. *)
Theorem sphere_torus_ignores_height (l : Vec3) (r R0 tb : R) :
  let d := Vector2.length (Vector2.mk (Vector3.x l) (Vector3.z l)) in
  0 < d -> d <> R0 ->
  collided (sphereTorusLocal l r R0 tb) = Rltb (Rabs (Rabs (d - R0) - tb)) r.
Proof.
  destruct l as [a b c]. intros d. cbn [Vector3.x Vector3.z] in d.
  intros Hd Hne.
  assert (Hdd : d * d = a * a + c * c).
  { subst d. unfold Vector2.length. cbn. apply sqrt_sqrt. nra. }
  set (L := Rabs (d - R0)).
  assert (HL : 0 < L) by (apply Rabs_pos_lt; lra).
  assert (HLL : L * L = (d - R0) * (d - R0)).
  { subst L. unfold Rabs. destruct (Rcase_abs (d - R0)); ring. }
  unfold sphereTorusLocal. cbn [Vector3.x Vector3.y Vector3.z].
  fold d.
  destruct (Rltb d (R0 - tb - r) && Rltb (JSMath.abs b) (tb + r)) eqn:Hole.
  - apply andb_prop in Hole. destruct Hole as [H1 H2].
    apply Rltb_true in H1. apply Rltb_true in H2.
    pose proof (Rabs_pos b) as Hb. unfold JSMath.abs in H2.
    cbn. symmetry. apply Rltb_false.
    assert (EL : L = R0 - d).
    { subst L. rewrite Rabs_left; lra. }
    rewrite EL. pose proof (Rle_abs (R0 - d - tb)). lra.
  - replace (Rltb 0 d) with true by (symmetry; apply Rltb_true; lra).
    unfold Vector2.normalize. fold d.
    replace (Rneqb d 0) with true by (symmetry; apply Rneqb_true; lra).
    cbn [Vector2.divideScalar Vector2.multiplyScalar Vector2.x Vector2.y].
    assert (EL : Vector3.length
                   (Vector3.subVectors (vec3 a b c) (vec3 (a / d * R0) b (c / d * R0)))
                 = L).
    { unfold Vector3.length, Vector3.subVectors. cbn.
      apply sqrt_of_square_abs.
      replace ((a - a / d * R0) * (a - a / d * R0) + (b - b) * (b - b)
               + (c - c / d * R0) * (c - c / d * R0))
        with ((a * a + c * c) * (((d - R0) / d) * ((d - R0) / d)))
        by (field; lra).
      rewrite <- Hdd. field. lra. }
    rewrite EL.
    replace (Rltb 0 L) with true by (symmetry; apply Rltb_true; lra).
    unfold Vector3.normalize. rewrite EL.
    replace (Rneqb L 0) with true by (symmetry; apply Rneqb_true; lra).
    assert (ED : Vector3.distanceTo (vec3 a b c)
                   (Vector3.add (vec3 (a / d * R0) b (c / d * R0))
                      (Vector3.multiplyScalar
                         (Vector3.divideScalar
                            (Vector3.subVectors (vec3 a b c)
                                                (vec3 (a / d * R0) b (c / d * R0)))
                            L) tb))
                 = Rabs (L - tb)).
    { unfold Vector3.distanceTo, Vector3.add, Vector3.multiplyScalar,
        Vector3.divideScalar, Vector3.subVectors. cbn.
      apply sqrt_of_square_abs.
      match goal with
      | |- ?lhs = _ =>
          replace lhs
            with ((a * a + c * c) * (((d - R0) / d) * ((d - R0) / d))
                  * ((1 - tb / L) * (1 - tb / L)))
            by (field; lra)
      end.
      rewrite <- Hdd.
      replace (d * d * ((d - R0) / d * ((d - R0) / d)))
        with ((d - R0) * (d - R0)) by (field; lra).
      rewrite <- HLL. field. lra. }
    rewrite ED.
    destruct (Rltb (Rabs (L - tb)) r); reflexivity.
Qed.

Lemma sphere_torus_ignores_height_witness :
  collided (sphereTorusLocal (vec3 3 100 4) (8 / 10) 7 1)
  = Rltb (Rabs (Rabs (Vector2.length (Vector2.mk 3 4) - 7) - 1)) (8 / 10).
Proof.
  assert (D : Vector2.length (Vector2.mk 3 4) = 5).
  { unfold Vector2.length. cbn. apply sqrt_of_square; lra. }
  apply (sphere_torus_ignores_height (vec3 3 100 4) (8 / 10) 7 1);
    cbn [Vector3.x Vector3.z]; rewrite D; lra.
Defined.

Lemma sphereTorusLocal_through_hole_witness :
  collided (sphereTorusLocal (vec3 1 10 0) (8 / 10) 5 1) = false.
Proof.
  assert (D : Vector2.length (Vector2.mk 1 0) = 1).
  { unfold Vector2.length. cbn. apply sqrt_of_square; lra. }
  apply (sphereTorusLocal_through_hole (vec3 1 10 0) (8 / 10) 5 1);
    cbn [Vector3.x Vector3.z]; rewrite ?D; lra.
Defined.

(** ** The resolver pass on the marble *)

Ltac rhyps :=
  repeat match goal with
         | H : Rltb _ _ = true |- _ => apply Rltb_true in H
         | H : Rltb _ _ = false |- _ => apply Rltb_false in H
         | H : Rleb _ _ = true |- _ => apply Rleb_true in H
         | H : Rleb _ _ = false |- _ => apply Rleb_false in H
         | H : _ && _ = true |- _ => apply andb_prop in H; destruct H
         end.

(** X16: landing on the main platform.  A marble within the platform
    extent, at most 0.1 above its resting height and not moving upward is
    put at height MARBLE_RADIUS with isOnGround set; its horizontal position
    and velocity are kept; velocity.y becomes -velocity.y * bounceCoefficient
    when it fell faster than 0.05 and 0 otherwise, which for a bounce
    coefficient in [0,1] is an upward speed not above the speed of impact. *)
Theorem ground_snap (t : Transform) (p : Physics) (oj : option Jump) :
  Rabs (Vector3.x (position t)) <= OBJECTS.PLATFORM_SIZE ->
  Rabs (Vector3.z (position t)) <= OBJECTS.PLATFORM_SIZE ->
  Vector3.y (position t) <= OBJECTS.MARBLE_RADIUS + 1 / 10 ->
  Vector3.y (velocity p) <= 0 ->
  let '(t', p', oj') := checkBoundaryCollisions t p oj in
  position t'
  = vec3 (Vector3.x (position t)) OBJECTS.MARBLE_RADIUS (Vector3.z (position t))
  /\ isOnGround p' = true
  /\ Vector3.x (velocity p') = Vector3.x (velocity p)
  /\ Vector3.z (velocity p') = Vector3.z (velocity p)
  /\ Vector3.y (velocity p')
     = (if Rltb (Vector3.y (velocity p)) (- (5 / 100))
        then - Vector3.y (velocity p) * bounceCoefficient p else 0)
  /\ (0 <= bounceCoefficient p <= 1 ->
      0 <= Vector3.y (velocity p') <= - Vector3.y (velocity p))
  /\ oj' = option_map (fun j => setFlags j false false true) oj.
Proof.
  intros Hx Hz Hy Hv. unfold checkBoundaryCollisions, JSMath.abs.
  apply Rleb_true in Hx, Hz, Hy, Hv. rewrite Hx, Hz, Hy, Hv. cbn.
  apply Rleb_true in Hv.
  repeat split; try reflexivity;
    destruct (Rltb (Vector3.y (velocity p)) (- (5 / 100))) eqn:E; rhyps; nra.
Qed.

Lemma ground_snap_witness :
  let '(t', p', oj') :=
    checkBoundaryCollisions marbleTransform0
      (setVelocity marblePhysics0 (vec3 0 (- 1) 0)) (Some fallenJump) in
  position t' = vec3 0 OBJECTS.MARBLE_RADIUS 0
  /\ Vector3.y (velocity p') = 1 * PHYSICS.BOUNCE_COEFFICIENT.
Proof.
  pose proof (ground_snap marbleTransform0 (setVelocity marblePhysics0 (vec3 0 (- 1) 0))
                (Some fallenJump)) as H.
  destruct (checkBoundaryCollisions _ _ _) as [[t' p'] oj'].
  cbn [position velocity setVelocity marbleTransform0 Vector3.x Vector3.y Vector3.z]
    in H.
  destruct H as (Hp & _ & _ & _ & Hy & _).
  - rewrite Rabs_R0. unfold OBJECTS.PLATFORM_SIZE. lra.
  - rewrite Rabs_R0. unfold OBJECTS.PLATFORM_SIZE. lra.
  - lra.
  - lra.
  - split; [ exact Hp | ]. rewrite Hy.
    replace (Rltb (- 1) (- (5 / 100))) with true by (symmetry; apply Rltb_true; lra).
    cbn. lra.
Defined.

(** X15: the boundary check is idempotent for a bounce coefficient that is
    not negative: run on its own result it changes nothing, be it after a
    landing, after a respawn or when it did nothing the first time. *)
Theorem boundary_check_idempotent (t : Transform) (p : Physics) (oj : option Jump) :
  0 <= bounceCoefficient p ->
  let '(t1, p1, oj1) := checkBoundaryCollisions t p oj in
  checkBoundaryCollisions t1 p1 oj1 = (t1, p1, oj1).
Proof.
  intros Hb. unfold checkBoundaryCollisions, respawnMarble, JSMath.abs.
  destruct (Rleb (Rabs (Vector3.x (position t))) OBJECTS.PLATFORM_SIZE) eqn:Ex;
    destruct (Rleb (Rabs (Vector3.z (position t))) OBJECTS.PLATFORM_SIZE) eqn:Ez;
    cbn [andb].
  - destruct (Rleb (Vector3.y (position t)) (OBJECTS.MARBLE_RADIUS + 1 / 10)) eqn:Ey;
      [ destruct (Rleb (Vector3.y (velocity p)) 0) eqn:Ev | ].
    + cbn. rewrite Ex, Ez. cbn [andb].
      replace (Rleb OBJECTS.MARBLE_RADIUS (OBJECTS.MARBLE_RADIUS + 1 / 10)) with true
        by (symmetry; apply Rleb_true; lra).
      destruct (Rltb (Vector3.y (velocity p)) (- (5 / 100))) eqn:E5.
      * destruct (Rleb (- Vector3.y (velocity p) * bounceCoefficient p) 0) eqn:E6;
          [ | reflexivity ].
        rhyps.
        assert (Z : - Vector3.y (velocity p) * bounceCoefficient p = 0) by nra.
        rewrite Z.
        replace (Rltb 0 (- (5 / 100))) with false by (symmetry; apply Rltb_false; lra).
        destruct oj; reflexivity.
      * replace (Rleb 0 0) with true by (symmetry; apply Rleb_true; lra).
        replace (Rltb 0 (- (5 / 100))) with false by (symmetry; apply Rltb_false; lra).
        destruct oj; reflexivity.
    + rewrite Ex, Ez, Ey, Ev. reflexivity.
    + rewrite Ex, Ez, Ey. reflexivity.
  - destruct (Rltb (Vector3.y (position t)) (- 20)) eqn:Ey.
    + cbn. rewrite Rabs_R0. unfold OBJECTS.PLATFORM_SIZE, OBJECTS.MARBLE_RADIUS.
      rtest. destruct oj; reflexivity.
    + rewrite Ex, Ez, Ey. reflexivity.
  - destruct (Rltb (Vector3.y (position t)) (- 20)) eqn:Ey.
    + cbn. rewrite Rabs_R0. unfold OBJECTS.PLATFORM_SIZE, OBJECTS.MARBLE_RADIUS.
      rtest. destruct oj; reflexivity.
    + rewrite Ex, Ez, Ey. reflexivity.
  - destruct (Rltb (Vector3.y (position t)) (- 20)) eqn:Ey.
    + cbn. rewrite Rabs_R0. unfold OBJECTS.PLATFORM_SIZE, OBJECTS.MARBLE_RADIUS.
      rtest. destruct oj; reflexivity.
    + rewrite Ex, Ez, Ey. reflexivity.
Qed.

Lemma boundary_check_idempotent_witness :
  let '(t1, p1, oj1) :=
    checkBoundaryCollisions fallenTransform fallenPhysics (Some fallenJump) in
  checkBoundaryCollisions t1 p1 oj1 = (t1, p1, oj1).
Proof.
  apply (boundary_check_idempotent fallenTransform fallenPhysics (Some fallenJump)).
  cbn. unfold PHYSICS.BOUNCE_COEFFICIENT. lra.
Defined.

Lemma SameConfiguration_refl (st : Transform * Physics * option Jump) :
  SameConfiguration st st.
Proof. destruct st as [[t p] [j|]]; cbn; repeat split. Qed.

Lemma SameConfiguration_trans (a b c : Transform * Physics * option Jump) :
  SameConfiguration a b -> SameConfiguration b c -> SameConfiguration a c.
Proof.
  destruct a as [[ta pa] [ja|]], b as [[tb pb] [jb|]], c as [[tc pc] [jc|]];
    cbn; intuition congruence.
Qed.

Section ResolverPass.

Variable applyEuler : Vec3 -> Vec3 -> Vec3.
Variable applyEulerInverse : Vec3 -> Vec3 -> Vec3.

Lemma checkBoundaryCollisions_FlagsAgree (t : Transform) (p : Physics)
      (oj : option Jump) :
  FlagsAgree (t, p, oj) -> FlagsAgree (checkBoundaryCollisions t p oj).
Proof.
  intros H. unfold checkBoundaryCollisions, respawnMarble.
  case_ifs; try exact H; destruct oj; cbn; auto.
Qed.

Lemma resolveCollision_FlagsAgree (t : Transform) (p : Physics) (oj : option Jump)
      (oc : Collider) (os : option Surface) (op : option Physics)
      (col : CollisionResult) :
  FlagsAgree (t, p, oj) -> FlagsAgree (resolveCollision t p oj oc os op col).
Proof.
  intros H. unfold resolveCollision.
  destruct (isTrigger oc); [ exact H | ]. cbv zeta.
  destruct (Rltb _ 0); [ | exact H ].
  destruct (Rltb (1 / 10) _).
  - destruct oj; cbn; auto.
  - destruct oj; cbn in *; auto.
Qed.

Lemma resolveCollision_SameConfiguration (t : Transform) (p : Physics)
      (oj : option Jump) (oc : Collider) (os : option Surface)
      (op : option Physics) (col : CollisionResult) :
  SameConfiguration (t, p, oj) (resolveCollision t p oj oc os op col).
Proof.
  unfold resolveCollision.
  destruct (isTrigger oc); [ apply SameConfiguration_refl | ]. cbv zeta.
  destruct (Rltb _ 0); [ | apply SameConfiguration_refl ].
  destruct (Rltb (1 / 10) _); destruct oj; cbn; repeat split.
Qed.

Lemma checkBoundaryCollisions_SameConfiguration (t : Transform) (p : Physics)
      (oj : option Jump) :
  SameConfiguration (t, p, oj) (checkBoundaryCollisions t p oj).
Proof.
  unfold checkBoundaryCollisions, respawnMarble.
  destruct oj as [j|]; cbn;
    repeat match goal with
           | |- context [if ?b then _ else _] => destruct b; cbn
           end; repeat split.
Qed.

Lemma collideWith_cases (marbleId : nat) (mc : Collider) (st : MarbleState)
      (e : Entity) :
  collideWith applyEuler applyEulerInverse marbleId mc st e = st
  \/ exists oc col,
      collider e = Some oc
      /\ collideWith applyEuler applyEulerInverse marbleId mc st e
         = resolveCollision (fst (fst st)) (snd (fst st)) (snd st) oc
                            (surface e) (physics e) col.
Proof.
  destruct st as [[t p] oj]. unfold collideWith.
  destruct (Nat.eqb (id e) marbleId); [ left; reflexivity | ].
  destruct (transform e) as [et|]; [ | left; reflexivity ].
  destruct (collider e) as [ec|]; [ | left; reflexivity ].
  destruct (collided _); [ | left; reflexivity ].
  right. eexists; eexists. split; reflexivity.
Qed.

Lemma fold_collideWith_FlagsAgree (marbleId : nat) (mc : Collider)
      (entities : list Entity) (st : MarbleState) :
  FlagsAgree st ->
  FlagsAgree (fold_left (collideWith applyEuler applyEulerInverse marbleId mc)
                        entities st).
Proof.
  revert st. induction entities as [| e rest IH]; intros st H; cbn [fold_left].
  - exact H.
  - apply IH.
    destruct (collideWith_cases marbleId mc st e) as [E | (oc & col & _ & E)];
      rewrite E; [ exact H | ].
    destruct st as [[t p] oj]. apply resolveCollision_FlagsAgree. exact H.
Qed.

Lemma fold_collideWith_SameConfiguration (marbleId : nat) (mc : Collider)
      (entities : list Entity) (st : MarbleState) :
  SameConfiguration st
    (fold_left (collideWith applyEuler applyEulerInverse marbleId mc) entities st).
Proof.
  revert st. induction entities as [| e rest IH]; intros st; cbn [fold_left].
  - apply SameConfiguration_refl.
  - eapply SameConfiguration_trans; [ | apply IH ].
    destruct (collideWith_cases marbleId mc st e) as [E | (oc & col & _ & E)];
      rewrite E; [ apply SameConfiguration_refl | ].
    destruct st as [[t p] oj]. apply resolveCollision_SameConfiguration.
Qed.

(** X17: after a resolver pass over a marble the two ground flags agree:
    isOnGround of its Physics component equals isOnSurface of its Jump
    component, whatever they were before the pass and whatever the pass
    collided with. *)
Theorem resolver_flags_agree (marbleId : nat) (mc : Collider)
        (entities : list Entity) (t : Transform) (p : Physics) (j : Jump) :
  exists t' p' j',
    marblePass applyEuler applyEulerInverse marbleId mc entities (t, p, Some j)
    = (t', p', Some j')
    /\ isOnGround p' = isOnSurface j'.
Proof.
  unfold marblePass. cbn [resetSurface option_map].
  pose proof (fold_collideWith_FlagsAgree marbleId mc entities
                (checkBoundaryCollisions t (setIsOnGround p false)
                   (Some (setFlags j (isJumping j) (isFalling j) false)))
                (checkBoundaryCollisions_FlagsAgree t (setIsOnGround p false)
                   (Some (setFlags j (isJumping j) (isFalling j) false))
                   eq_refl)) as F.
  pose proof (SameConfiguration_trans _ _ _
                (checkBoundaryCollisions_SameConfiguration t (setIsOnGround p false)
                   (Some (setFlags j (isJumping j) (isFalling j) false)))
                (fold_collideWith_SameConfiguration marbleId mc entities _)) as C.
  destruct (fold_left _ entities _) as [[t' p'] [j'|]].
  - exists t', p', j'. split; [ reflexivity | exact F ].
  - cbn in C. decompose [and] C. contradiction.
Qed.

(** X18: a resolver pass over a marble writes its position, its velocity,
    its ground flag and the flags isOnSurface, isJumping and isFalling, and
    nothing else: previousPosition, rotation and scale of the Transform, the
    mass, gravity, friction coefficients, bounce coefficient and static flag
    of the Physics component, and jumpPower, jumpRequested, canJump,
    jumpCooldown and jumpCooldownTime of the Jump component are as before,
    and a Jump component is neither added nor removed. *)
Theorem resolver_keeps_configuration (marbleId : nat) (mc : Collider)
        (entities : list Entity) (st : MarbleState) :
  SameConfiguration st
    (marblePass applyEuler applyEulerInverse marbleId mc entities st).
Proof.
  destruct st as [[t p] oj]. unfold marblePass. cbn [resetSurface].
  eapply SameConfiguration_trans;
    [ | apply fold_collideWith_SameConfiguration ].
  eapply SameConfiguration_trans;
    [ | apply checkBoundaryCollisions_SameConfiguration ].
  destruct oj; cbn; repeat split.
Qed.

Lemma collideWith_neverResolved (marbleId : nat) (mc : Collider) (st : MarbleState)
      (e : Entity) :
  neverResolved marbleId e ->
  collideWith applyEuler applyEulerInverse marbleId mc st e = st.
Proof.
  intros H. destruct st as [[t p] oj]. unfold collideWith.
  destruct (Nat.eqb (id e) marbleId) eqn:E; [ reflexivity | ].
  destruct H as [H | [H | H]].
  - apply Nat.eqb_neq in E. contradiction.
  - rewrite H. reflexivity.
  - destruct (transform e) as [et|]; [ | reflexivity ].
    destruct (collider e) as [ec|]; [ | reflexivity ].
    destruct (collided _); [ | reflexivity ].
    unfold resolveCollision. rewrite H. reflexivity.
Qed.

(** X21: trigger colliders are detected but never resolved.  When every
    other entity is a trigger (or has no Transform or Collider), the
    resolver pass over the marble is the reset of the surface flags followed
    by the boundary check, whatever the marble overlaps. *)
Theorem triggers_never_resolved (marbleId : nat) (mc : Collider)
        (entities : list Entity) (t : Transform) (p : Physics) (oj : option Jump) :
  Forall (neverResolved marbleId) entities ->
  marblePass applyEuler applyEulerInverse marbleId mc entities (t, p, oj)
  = (let '(p0, oj0) := resetSurface p oj in checkBoundaryCollisions t p0 oj0).
Proof.
  intros H. unfold marblePass. cbn [resetSurface].
  generalize (checkBoundaryCollisions t (setIsOnGround p false)
                (option_map (fun j => setFlags j (isJumping j) (isFalling j) false) oj)).
  induction H as [| e rest He _ IH]; intros st; cbn [fold_left].
  - reflexivity.
  - rewrite collideWith_neverResolved by assumption. apply IH.
Qed.

End ResolverPass.

(** ** Collision response *)

Lemma dot_after_impulse (v o n : Vec3) (i : R) :
  Vector3.dot
    (Vector3.subVectors
       (vec3 (Vector3.x v + i * Vector3.x n) (Vector3.y v + i * Vector3.y n)
             (Vector3.z v + i * Vector3.z n)) o) n
  = Vector3.dot (Vector3.subVectors v o) n + i * Vector3.dot n n.
Proof. unfold Vector3.dot, Vector3.subVectors. cbn. ring. Qed.

(** X19: restitution.  For a contact that is resolved (the other collider
    is no trigger and the marble approaches it along the normal), with a
    unit normal that is not floor-like (normal.y <= 0.1), the velocity of
    the marble relative to the other object along the normal is reversed
    and scaled by the bounce factor, the smaller of the marble's bounce
    coefficient and the bounciness of the other surface; the marble is moved
    out along the normal by the penetration; the ground flag and the jump
    state are not touched. *)
Theorem restitution (t : Transform) (p : Physics) (oj : option Jump)
        (oc : Collider) (os : option Surface) (op : option Physics)
        (col : CollisionResult) :
  let n := normal col in
  let ov := match op with Some q => velocity q | None => Vector3.zero end in
  let approach := Vector3.dot (Vector3.subVectors (velocity p) ov) n in
  let bounceFactor :=
    Rmin (bounceCoefficient p)
         (match os with Some s => bounciness s | None => bounceCoefficient p end) in
  isTrigger oc = false ->
  approach < 0 -> Vector3.dot n n = 1 -> Vector3.y n <= 1 / 10 ->
  let '(t', p', oj') := resolveCollision t p oj oc os op col in
  Vector3.dot (Vector3.subVectors (velocity p') ov) n = - bounceFactor * approach
  /\ position t'
     = Vector3.add (position t) (Vector3.multiplyScalar n (penetration col))
  /\ isOnGround p' = isOnGround p
  /\ oj' = oj.
Proof.
  intros n ov approach bounceFactor Ht Ha Hu Hy.
  unfold resolveCollision. rewrite Ht. cbv zeta.
  fold n. fold ov. fold approach.
  replace (Rltb approach 0) with true by (symmetry; apply Rltb_true; lra).
  replace (Rltb (1 / 10) (Vector3.y n)) with false
    by (symmetry; apply Rltb_false; lra).
  cbn [velocity setVelocity position setPosition isOnGround].
  split.
  - rewrite dot_after_impulse. fold approach. rewrite Hu.
    unfold JSMath.min. fold bounceFactor. ring.
  - repeat split.
Qed.

Lemma restitution_witness :
  let p := setVelocity marblePhysics0 (vec3 1 0 0) in
  let col := mkResult true (vec3 (- 1) 0 0) (85 / 100) in
  let '(t', p', oj') :=
    resolveCollision marbleTransform0 p None marbleCollider0 None None col in
  Vector3.dot (Vector3.subVectors (velocity p') Vector3.zero) (vec3 (- 1) 0 0)
  = - Rmin PHYSICS.BOUNCE_COEFFICIENT PHYSICS.BOUNCE_COEFFICIENT
    * Vector3.dot (Vector3.subVectors (vec3 1 0 0) Vector3.zero) (vec3 (- 1) 0 0).
Proof.
  cbn zeta.
  pose proof (restitution marbleTransform0 (setVelocity marblePhysics0 (vec3 1 0 0))
                None marbleCollider0 None None
                (mkResult true (vec3 (- 1) 0 0) (85 / 100))) as H.
  cbn zeta in H.
  destruct (resolveCollision _ _ _ _ _ _ _) as [[t' p'] oj'].
  apply H.
  - reflexivity.
  - unfold Vector3.dot. cbn. lra.
  - unfold Vector3.dot. cbn. lra.
  - cbn. lra.
Defined.

(** X20: contact with a flat top.  For a resolved contact whose normal is
    (0, 1, 0), the vertical velocity relative to the other object is
    reversed and scaled by the bounce factor, the horizontal velocity is
    multiplied by the friction of the other surface (the marble's own
    friction when the other has no Surface), the ramp slide being added to
    z, the marble is lifted by the penetration, and the ground flags are
    set: isOnGround, isOnSurface, isFalling cleared, isJumping cleared
    when the marble does not move upward after the bounce. *)
Theorem flat_floor_contact (t : Transform) (p : Physics) (j : Jump)
        (oc : Collider) (os : option Surface) (op : option Physics) (pen : R) :
  let ov := match op with Some q => velocity q | None => Vector3.zero end in
  let approach := Vector3.y (velocity p) - Vector3.y ov in
  let bounceFactor :=
    Rmin (bounceCoefficient p)
         (match os with Some s => bounciness s | None => bounceCoefficient p end) in
  let frictionFactor :=
    match os with Some s => surfaceFriction s | None => friction p end in
  let slide :=
    match os with
    | Some s => if isRamp s then sin (rampAngle s) * gravity p * slideFactor s else 0
    | None => 0
    end in
  isTrigger oc = false -> approach < 0 ->
  let '(t', p', oj') :=
    resolveCollision t p (Some j) oc os op (mkResult true (vec3 0 1 0) pen) in
  Vector3.y (velocity p') - Vector3.y ov = - bounceFactor * approach
  /\ Vector3.x (velocity p') = Vector3.x (velocity p) * frictionFactor
  /\ Vector3.z (velocity p') = Vector3.z (velocity p) * frictionFactor + slide
  /\ position t'
     = vec3 (Vector3.x (position t)) (Vector3.y (position t) + pen)
            (Vector3.z (position t))
  /\ isOnGround p' = true
  /\ exists j',
      oj' = Some j' /\ isOnSurface j' = true /\ isFalling j' = false
      /\ isJumping j'
         = (if Rleb (Vector3.y (velocity p')) 0 then false else isJumping j).
Proof.
  intros ov approach bounceFactor frictionFactor slide Ht Ha.
  unfold resolveCollision. rewrite Ht. cbv zeta.
  cbn [normal penetration]. fold ov.
  assert (D : Vector3.dot (Vector3.subVectors (velocity p) ov) (vec3 0 1 0) = approach).
  { unfold Vector3.dot, Vector3.subVectors, approach. cbn. ring. }
  rewrite D.
  replace (Rltb approach 0) with true by (symmetry; apply Rltb_true; lra).
  cbn [Vector3.x Vector3.y Vector3.z].
  replace (Rltb (1 / 10) 1) with true by (symmetry; apply Rltb_true; lra).
  cbn [velocity setVelocity setIsOnGround position setPosition isOnGround
       Vector3.x Vector3.y Vector3.z option_map].
  fold frictionFactor. fold slide. unfold JSMath.min. fold bounceFactor.
  split; [ unfold approach; ring | ].
  split; [ ring | ].
  split; [ ring | ].
  split; [ f_equal; ring | ].
  split; [ reflexivity | ].
  eexists. split; [ reflexivity | ]. cbn. auto.
Qed.

Lemma flat_floor_contact_witness :
  let '(t', p', oj') :=
    resolveCollision marbleTransform0 (setVelocity marblePhysics0 (vec3 0 (- 1) 0))
      (Some fallenJump) marbleCollider0 None None (mkResult true (vec3 0 1 0) (1 / 10)) in
  isOnGround p' = true
  /\ Vector3.y (velocity p') - 0
     = - Rmin PHYSICS.BOUNCE_COEFFICIENT PHYSICS.BOUNCE_COEFFICIENT * (- 1 - 0).
Proof.
  pose proof (flat_floor_contact marbleTransform0
                (setVelocity marblePhysics0 (vec3 0 (- 1) 0)) fallenJump
                marbleCollider0 None None (1 / 10)) as H.
  cbn zeta in H.
  destruct (resolveCollision _ _ _ _ _ _ _) as [[t' p'] oj'].
  destruct H as (Hy & _ & _ & _ & Hg & _).
  - reflexivity.
  - cbn. lra.
  - split; [ exact Hg | exact Hy ].
Defined.

(** ** The systems over the world *)

Lemma map_writeAt_same (A : Type) (f : Entity -> A) (w : World) (i : nat)
      (m e : Entity) :
  nth_error w i = Some m -> f e = f m -> map f (writeAt w i e) = map f w.
Proof.
  revert i. induction w as [| a rest IH]; intros i Hn Hf.
  - destruct i; discriminate.
  - destruct i as [| i']; cbn in *.
    + injection Hn as ->. rewrite Hf. reflexivity.
    + f_equal. apply IH; assumption.
Qed.

Lemma shape_withState (e : Entity) (t t' : Transform) (p p' : Physics)
      (oj' : option Jump) :
  transform e = Some t -> physics e = Some p -> present oj' = present (jump e) ->
  shape (withState e t' p' oj') = shape e.
Proof.
  intros Ht Hp Hj. unfold shape, withState. cbn. rewrite Ht, Hp, Hj. reflexivity.
Qed.

Lemma SameConfiguration_present (t t' : Transform) (p p' : Physics)
      (oj oj' : option Jump) :
  SameConfiguration (t, p, oj) (t', p', oj') -> present oj' = present oj.
Proof.
  cbn. intros H. decompose [and] H.
  destruct oj, oj'; try reflexivity; contradiction.
Qed.

Section WorldShape.

Variable applyEuler : Vec3 -> Vec3 -> Vec3.
Variable applyEulerInverse : Vec3 -> Vec3 -> Vec3.

Lemma processMarble_shape (w : World) (i : nat) :
  map shape (processMarble applyEuler applyEulerInverse w i) = map shape w.
Proof.
  unfold processMarble.
  destruct (nth_error w i) as [m|] eqn:Hn; [ | reflexivity ].
  destruct (transform m) as [t|] eqn:Ht; [ | reflexivity ].
  destruct (collider m) as [c|]; [ | reflexivity ].
  destruct (physics m) as [p|] eqn:Hp; [ | reflexivity ].
  pose proof (resolver_keeps_configuration applyEuler applyEulerInverse (id m) c
                (getEntities w) (t, p, jump m)) as C.
  destruct (marblePass _ _ _ _ _ _) as [[t' p'] j'].
  apply map_writeAt_same with (m := m); [ exact Hn | ].
  apply shape_withState with (t := t) (p := p); try assumption.
  exact (SameConfiguration_present _ _ _ _ _ _ C).
Qed.

Lemma fold_processMarble_shape (l : list nat) (w : World) :
  map shape (fold_left (processMarble applyEuler applyEulerInverse) l w)
  = map shape w.
Proof.
  revert w. induction l as [| i rest IH]; intros w; cbn [fold_left].
  - reflexivity.
  - rewrite IH. apply processMarble_shape.
Qed.

(** X22: none of the three systems adds or removes an entity or a
    component: after a pass of the jump system, of the integrator or of the
    resolver the world has the same entities in the same order, each with
    the same id, marble tag, Collider, Surface and PlayerControl, and with
    a Transform, a Physics and a Jump component exactly when it had one. *)
Theorem systems_keep_shape (dt : R) (w : World) :
  map shape (JumpSystem.update w) = map shape w
  /\ map shape (PhysicsSystem.update dt w) = map shape w
  /\ map shape (update applyEuler applyEulerInverse w) = map shape w.
Proof.
  split; [ | split ].
  - unfold JumpSystem.update. rewrite map_map. apply map_ext. intros e.
    destruct (transform e) as [t|] eqn:Ht; [ | reflexivity ].
    destruct (physics e) as [p|] eqn:Hp; [ | reflexivity ].
    destruct (jump e) as [j|] eqn:Hj; [ | reflexivity ].
    destruct (JumpSystem.updateEntity p j) as [p' j'].
    apply shape_withState with (t := t) (p := p); try assumption.
    rewrite Hj. reflexivity.
  - unfold PhysicsSystem.update. rewrite map_map. apply map_ext. intros e.
    destruct (transform e) as [t|] eqn:Ht; [ | reflexivity ].
    destruct (physics e) as [p|] eqn:Hp; [ | reflexivity ].
    pose proof (integrator_keeps_configuration dt t p (playerControl e) (jump e)) as C.
    destruct (PhysicsSystem.updateEntity dt t p (playerControl e) (jump e))
      as [[t' p'] j'].
    apply shape_withState with (t := t) (p := p); try assumption.
    decompose [and] C.
    destruct (jump e), j'; try reflexivity; contradiction.
  - unfold update. apply fold_processMarble_shape.
Qed.

End WorldShape.

(** ** Witnesses of the narrow-phase and resolver properties *)

Lemma checkCollision_dispatch_witness :
  checkCollision noRotation noRotation marbleTransform0
    (mkCollider box 0 2 2 4 0 false) marbleTransform0 (mkCollider torus 5 0 0 0 1 false)
  = noCollision
  /\ checkCollision noRotation noRotation marbleTransform0
       (mkCollider box 0 2 2 4 0 false) marbleTransform0 marbleCollider0
     = checkCollision noRotation noRotation marbleTransform0 marbleCollider0
         marbleTransform0 (mkCollider box 0 2 2 4 0 false).
Proof.
  split.
  - apply (proj1 (checkCollision_dispatch noRotation noRotation marbleTransform0
                    (mkCollider box 0 2 2 4 0 false) marbleTransform0
                    (mkCollider torus 5 0 0 0 1 false))); discriminate.
  - apply (proj2 (checkCollision_dispatch noRotation noRotation marbleTransform0
                    (mkCollider box 0 2 2 4 0 false) marbleTransform0
                    marbleCollider0)); discriminate.
Defined.

Lemma sphere_box_containment_witness :
  let res := checkSphereBoxCollision noRotation noRotation (vec3 0 0 0) (8 / 10)
               (vec3 0 0 0) (vec3 0 0 0) 2 2 4 in
  collided res = true /\ penetration res = 8 / 10.
Proof.
  apply (sphere_box_containment noRotation noRotation (vec3 0 0 0) (8 / 10)
           (vec3 0 0 0) (vec3 0 0 0) 2 2 4);
    unfold rotationIsSet; cbn [Vector3.x Vector3.y Vector3.z]; rtest;
    unfold Vector3.subVectors; cbn; rewrite ?Rminus_diag, ?Rabs_R0; lra.
Defined.

Lemma sphere_box_result_bounds_witness :
  0 < penetration (sphereBoxLocal (vec3 0 0 0) (8 / 10) 1 1 2) <= 8 / 10.
Proof.
  refine (proj1 (sphere_box_result_bounds (vec3 0 0 0) (8 / 10) 1 1 2 _)).
  rewrite sphereBoxLocal_inside; cbn; rewrite ?Rabs_R0; try reflexivity; lra.
Defined.

Lemma sphere_box_separated_witness :
  sphereBoxLocal (vec3 3 0 0) (8 / 10) 1 1 2 = noCollision.
Proof.
  apply (sphere_box_separated (vec3 3 0 0) (8 / 10) 1 1 2); try lra.
  left. cbn. rewrite Rabs_right; lra.
Defined.

Lemma triggers_never_resolved_witness :
  marblePass noRotation noRotation 1 marbleCollider0
    [mkEntity 2 false (Some marbleTransform0) None
              (Some (mkCollider sphere 1 0 0 0 0 true)) None None None]
    (marbleTransform0, marblePhysics0, Some marbleJump0)
  = (let '(p0, oj0) := resetSurface marblePhysics0 (Some marbleJump0) in
     checkBoundaryCollisions marbleTransform0 p0 oj0).
Proof.
  apply (triggers_never_resolved noRotation noRotation).
  constructor; [ | constructor ].
  right. right. reflexivity.
Defined.

(** ** Movement intent of the player *)

Lemma normalized_pair (x0 z0 : R) :
  let length := sqrt (x0 * x0 + z0 * z0) in
  (0 < length ->
   (x0 / length) * (x0 / length) + (z0 / length) * (z0 / length) = 1)
  /\ (length <= 0 -> x0 = 0 /\ z0 = 0).
Proof.
  cbn zeta.
  assert (Hs : 0 <= x0 * x0 + z0 * z0) by nra.
  pose proof (sqrt_sqrt _ Hs) as Hq.
  split.
  - intros Hl.
    replace (x0 / sqrt (x0 * x0 + z0 * z0) * (x0 / sqrt (x0 * x0 + z0 * z0))
             + z0 / sqrt (x0 * x0 + z0 * z0) * (z0 / sqrt (x0 * x0 + z0 * z0)))
      with ((x0 * x0 + z0 * z0)
            / (sqrt (x0 * x0 + z0 * z0) * sqrt (x0 * x0 + z0 * z0)))
      by (field; lra).
    pose proof (Rmult_lt_0_compat _ _ Hl Hl) as Hpos.
    rewrite Hq in *. field. lra.
  - intros Hl. pose proof (sqrt_pos (x0 * x0 + z0 * z0)) as Hp.
    assert (E : sqrt (x0 * x0 + z0 * z0) = 0) by lra.
    apply sqrt_eq_0 in E; [ | exact Hs ].
    split; nra.
Qed.

Lemma rotation_keeps_norm (x z a : R) :
  (x * cos a + z * sin a) * (x * cos a + z * sin a)
  + (z * cos a - x * sin a) * (z * cos a - x * sin a)
  = x * x + z * z.
Proof.
  pose proof (sin2_cos2 a) as H. unfold Rsqr in H.
  replace ((x * cos a + z * sin a) * (x * cos a + z * sin a)
           + (z * cos a - x * sin a) * (z * cos a - x * sin a))
    with ((x * x + z * z) * (sin a * sin a + cos a * cos a)) by ring.
  rewrite H. ring.
Qed.

(** X23: whatever keys are down and whatever the camera angle, the move
    direction [setMoveDirection] leaves is either the zero vector or a
    vector of length one (diagonals are normalised and the rotation by the
    camera angle keeps the length); speed and air control factor are not
    touched. *)
Theorem moveDirection_unit_or_zero (pc : PlayerControl) (keys : Keys)
        (cameraAngle : R) :
  let pc' := setMoveDirection pc keys cameraAngle in
  (moveDirectionX pc' * moveDirectionX pc' + moveDirectionZ pc' * moveDirectionZ pc' = 1
   \/ (moveDirectionX pc' = 0 /\ moveDirectionZ pc' = 0))
  /\ speed pc' = speed pc /\ airControlFactor pc' = airControlFactor pc.
Proof.
  cbn zeta. unfold setMoveDirection.
  set (usingArrows := (key_ArrowLeft keys || key_ArrowRight keys)
                      && negb (key_w keys || key_s keys || key_ArrowUp keys
                               || key_ArrowDown keys)).
  set (z0 := if key_w keys || key_ArrowUp keys then - 1
             else if key_s keys || key_ArrowDown keys then 1 else 0).
  set (x0 := if key_a keys || (key_ArrowLeft keys && negb usingArrows) then - 1
             else if key_d keys || (key_ArrowRight keys && negb usingArrows)
                  then 1 else 0).
  clearbody x0 z0.
  destruct (normalized_pair x0 z0) as [Hu Hz]. cbn zeta in Hu, Hz.
  destruct (Rltb 0 (sqrt (x0 * x0 + z0 * z0))) eqn:E.
  - apply Rltb_true in E. specialize (Hu E).
    destruct (Rneqb cameraAngle 0); cbn; (split; [ left | split; reflexivity ]).
    + rewrite rotation_keeps_norm. exact Hu.
    + exact Hu.
  - apply Rltb_false in E. destruct (Hz E) as [-> ->].
    cbn. split; [ right; split; reflexivity | split; reflexivity ].
Qed.

(** X24: the left and right arrow keys alone steer the camera, not the
    marble: with none of w, s, a, d, ArrowUp and ArrowDown down the move
    direction is zero, whether or not ArrowLeft or ArrowRight is down; with
    w down as well, ArrowLeft does move the marble sideways. *)
Theorem arrows_alone_do_not_move (pc : PlayerControl) (left right : bool)
        (cameraAngle : R) :
  let pc' := setMoveDirection pc (mkKeys false false false false false false left right)
                              cameraAngle in
  let pc2 := setMoveDirection pc (mkKeys true false false false false false true false) 0 in
  moveDirectionX pc' = 0 /\ moveDirectionZ pc' = 0
  /\ moveDirectionX pc2 < 0 /\ moveDirectionZ pc2 < 0.
Proof.
  cbn zeta. unfold setMoveDirection. cbn [key_w key_s key_a key_d key_ArrowUp
    key_ArrowDown key_ArrowLeft key_ArrowRight orb andb negb].
  assert (Z : sqrt (0 * 0 + 0 * 0) = 0) by (apply sqrt_of_zero; ring).
  assert (P : 0 < sqrt (- 1 * - 1 + - 1 * - 1)) by (apply sqrt_lt_R0; lra).
  split; [ | split ].
  - destruct left, right; cbn; rewrite Z;
      replace (Rltb 0 0) with false by (symmetry; apply Rltb_false; lra);
      reflexivity.
  - destruct left, right; cbn; rewrite Z;
      replace (Rltb 0 0) with false by (symmetry; apply Rltb_false; lra);
      reflexivity.
  - replace (Rltb 0 (sqrt (- 1 * - 1 + - 1 * - 1))) with true
      by (symmetry; apply Rltb_true; exact P).
    replace (Rneqb 0 0) with false by (symmetry; apply Rneqb_false; reflexivity).
    cbn.
    assert (N : - 1 / sqrt (- 1 * - 1 + - 1 * - 1) < 0).
    { unfold Rdiv. apply Rmult_neg_pos; [ lra | apply Rinv_0_lt_compat; exact P ]. }
    split; exact N.
Qed.

(** ** Entity identifiers *)

Module EcsFacts.

Import Ecs.

Lemma mapSet_fresh (k : nat) (e : Entity) (l : list (nat * Entity)) :
  ~ In k (map fst l) -> mapSet k e l = l ++ [(k, e)].
Proof.
  induction l as [| [k' e'] rest IH]; intros H; cbn.
  - reflexivity.
  - cbn in H. destruct (Nat.eqb k' k) eqn:E.
    + apply Nat.eqb_eq in E. exfalso. apply H. left. exact E.
    + rewrite IH; [ reflexivity | ]. intros Hin. apply H. right. exact Hin.
Qed.

Lemma mapSet_keys (k : nat) (e : Entity) (l : list (nat * Entity)) :
  In k (map fst (mapSet k e l)).
Proof.
  induction l as [| [k' e'] rest IH]; cbn.
  - left. reflexivity.
  - destruct (Nat.eqb k' k); cbn; [ left; reflexivity | right; exact IH ].
Qed.

Lemma keys_mapDelete (k : nat) (l : list (nat * Entity)) (x : nat) :
  In x (map fst (mapDelete k l)) <-> In x (map fst l) /\ x <> k.
Proof.
  unfold mapDelete. rewrite !in_map_iff. split.
  - intros ([k' e'] & Hx & Hin). apply filter_In in Hin. destruct Hin as [Hin Hf].
    cbn in *. subst k'. split.
    + exists (x, e'). split; [ reflexivity | exact Hin ].
    + apply negb_true_iff, Nat.eqb_neq in Hf. exact Hf.
  - intros [([k' e'] & Hx & Hin) Hne]. cbn in Hx. subst k'.
    exists (x, e'). split; [ reflexivity | ].
    apply filter_In. split; [ exact Hin | ].
    cbn. apply negb_true_iff, Nat.eqb_neq. exact Hne.
Qed.

Lemma NoDup_keys_mapDelete (k : nat) (l : list (nat * Entity)) :
  NoDup (map fst l) -> NoDup (map fst (mapDelete k l)).
Proof.
  unfold mapDelete. induction l as [| [k' e'] rest IH]; cbn; intros H.
  - constructor.
  - inversion H as [| ? ? Hn Hr]; subst.
    destruct (negb (Nat.eqb k' k)); cbn.
    + constructor; [ | apply IH; exact Hr ].
      intros Hin. apply Hn.
      apply (keys_mapDelete k rest k') in Hin. tauto.
    + apply IH. exact Hr.
Qed.

(** In a well-formed world the id [createEntity] hands out is stored
    nowhere, and the new entity is appended. *)
Lemma createEntity_fresh (w : World) :
  WellFormed w ->
  ~ In (id (fst (createEntity w))) (keys w)
  /\ entities (snd (createEntity w))
     = entities w ++ [(N.to_nat (nextEntityId w), fst (createEntity w))].
Proof.
  intros (Hnd & Hlt & Hid & Hmax).
  assert (Hfresh : ~ In (N.to_nat (nextEntityId w)) (keys w)).
  { intros Hin. apply Hlt in Hin. rewrite N2Nat.id in Hin. lia. }
  split; [ exact Hfresh | ].
  unfold createEntity. cbn [fst snd id newEntity entities].
  apply mapSet_fresh. exact Hfresh.
Qed.

Lemma createEntity_WellFormed (w : World) :
  WellFormed w -> (nextEntityId w < maxCounter)%N ->
  WellFormed (snd (createEntity w))
  /\ nextEntityId (snd (createEntity w)) = (nextEntityId w + 1)%N.
Proof.
  intros Hw Hbelow.
  destruct (createEntity_fresh w Hw) as [Hfresh Happ].
  destruct Hw as (Hnd & Hlt & Hid & Hmax).
  assert (Hinc : nextEntityId (snd (createEntity w)) = (nextEntityId w + 1)%N).
  { unfold createEntity, increment. cbn [snd nextEntityId].
    apply N.ltb_lt in Hbelow. rewrite Hbelow. reflexivity. }
  split; [ | exact Hinc ].
  unfold WellFormed, keys. rewrite Hinc, Happ, map_app. cbn [map fst].
  split; [ | split; [ | split ] ].
  - apply NoDup_app; [ exact Hnd | repeat constructor; intros [] | ].
    intros x Hx [<- | []]. exact (Hfresh Hx).
  - intros k Hin. apply in_app_or in Hin. destruct Hin as [Hin | [<- | []]].
    + apply Hlt in Hin. lia.
    + rewrite N2Nat.id. lia.
  - intros k e Hin. apply in_app_or in Hin. destruct Hin as [Hin | [E | []]].
    + apply Hid. exact Hin.
    + injection E as <- <-. reflexivity.
  - lia.
Qed.

Lemma removeEntity_WellFormed (w : World) (entity : Entity) :
  WellFormed w -> WellFormed (removeEntity w entity).
Proof.
  intros (Hnd & Hlt & Hid & Hmax). unfold WellFormed, removeEntity, keys.
  cbn [entities nextEntityId].
  split; [ | split; [ | split ] ].
  - apply NoDup_keys_mapDelete. exact Hnd.
  - intros k Hin. apply keys_mapDelete in Hin. apply Hlt. tauto.
  - intros k e Hin. unfold mapDelete in Hin. apply filter_In in Hin.
    apply Hid. tauto.
  - exact Hmax.
Qed.

Lemma calls_WellFormed (cs : list Call) (w : World) :
  WellFormed w ->
  (nextEntityId w + N.of_nat (creations cs) <= maxCounter)%N ->
  WellFormed (fold_left call cs w)
  /\ nextEntityId (fold_left call cs w)
     = (nextEntityId w + N.of_nat (creations cs))%N.
Proof.
  revert w. induction cs as [| c rest IH]; intros w H Hb.
  - cbn. split; [ exact H | lia ].
  - destruct c as [| entity].
    + assert (Hc : creations (Create :: rest) = S (creations rest)) by reflexivity.
      rewrite Hc in *. rewrite Nat2N.inj_succ in *.
      assert (Hbelow : (nextEntityId w < maxCounter)%N) by lia.
      destruct (createEntity_WellFormed w H Hbelow) as [H1 H2].
      cbn [fold_left call].
      destruct (IH _ H1) as [H3 H4]; [ rewrite H2; lia | ].
      split; [ exact H3 | ]. rewrite H4, H2. lia.
    + assert (Hc : creations (Remove entity :: rest) = creations rest) by reflexivity.
      rewrite Hc in *. cbn [fold_left call].
      apply (IH (removeEntity w entity));
        [ apply removeEntity_WellFormed; exact H | exact Hb ].
Qed.

(** Once the counter has reached 2^53 it stays there: the next two
    [createEntity] calls hand out the same id, and the second stores its
    entity under a key the world already holds. *)
Lemma counter_saturates (w : World) :
  nextEntityId w = maxCounter ->
  nextEntityId (snd (createEntity w)) = maxCounter
  /\ id (fst (createEntity (snd (createEntity w)))) = id (fst (createEntity w))
  /\ In (id (fst (createEntity (snd (createEntity w)))))
        (keys (snd (createEntity w))).
Proof.
  intros H.
  assert (E : nextEntityId (snd (createEntity w)) = maxCounter).
  { unfold createEntity. cbn [snd nextEntityId]. rewrite H. reflexivity. }
  split; [ exact E | ].
  assert (I : id (fst (createEntity (snd (createEntity w)))) = id (fst (createEntity w))).
  { unfold createEntity at 1. cbn [fst id newEntity]. rewrite E.
    unfold createEntity. cbn [fst id newEntity]. rewrite H. reflexivity. }
  split; [ exact I | ].
  rewrite I. unfold createEntity, keys. cbn [fst snd id newEntity entities].
  apply mapSet_keys.
Qed.

(** X25: identifiers are not reused while the id counter counts.  After
    any sequence of createEntity and removeEntity calls on a new world that
    creates fewer than 2^53 entities, the ids of the stored entities are
    pairwise distinct and each entity is stored under its own id; the next
    createEntity returns an entity whose id is one more than the number of
    entities created so far, an id no stored entity has, also when entities
    were removed in between, and appends it to the world.  The bound is
    needed: in a world whose counter has reached 2^53 the counter no longer
    moves and two successive createEntity calls return the same id. *)
Theorem entity_ids_never_reused (cs : list Call) (w' : World) :
  let w := fold_left call cs empty in
  ((N.of_nat (creations cs) < maxCounter)%N ->
   NoDup (keys w)
   /\ (forall k e, In (k, e) (entities w) -> id e = k)
   /\ id (fst (createEntity w)) = S (creations cs)
   /\ ~ In (id (fst (createEntity w))) (keys w)
   /\ entities (snd (createEntity w))
      = entities w ++ [(S (creations cs), fst (createEntity w))])
  /\ (nextEntityId w' = maxCounter ->
      id (fst (createEntity (snd (createEntity w')))) = id (fst (createEntity w'))
      /\ In (id (fst (createEntity (snd (createEntity w')))))
            (keys (snd (createEntity w')))).
Proof.
  cbn zeta. split.
  - intros Hbound.
    assert (H0 : WellFormed empty).
    { unfold WellFormed, keys, empty. cbn [entities nextEntityId map].
      split; [ constructor | ]. split; [ intros k [] | ].
      split; [ intros k e [] | ]. unfold maxCounter. lia. }
    destruct (calls_WellFormed cs empty H0) as [Hw Hn].
    { cbn [nextEntityId empty]. lia. }
    cbn [nextEntityId empty] in Hn.
    destruct (createEntity_fresh _ Hw) as [Hfresh Happ].
    assert (E : N.to_nat (nextEntityId (fold_left call cs empty)) = S (creations cs)).
    { rewrite Hn. rewrite N.add_comm, N.add_1_r, N2Nat.inj_succ, Nat2N.id.
      reflexivity. }
    destruct Hw as (Hnd & Hlt & Hid & Hmax).
    split; [ exact Hnd | ]. split; [ exact Hid | ].
    split; [ exact E | ].
    split; [ exact Hfresh | ].
    rewrite Happ, E. reflexivity.
  - intros H. exact (proj2 (counter_saturates w' H)).
Qed.

End EcsFacts.

(** ** Jump flight and rest *)

Lemma airborne_step (dt : R) (t : Transform) (p : Physics)
      (pc : option PlayerControl) (j : Jump) :
  isStatic p = false -> isOnSurface j = false -> jumpRequested j = false ->
  0 <= gravity p ->
  (0 <= Vector3.y (velocity p) /\ isJumping j = true /\ isFalling j = false)
  \/ (Vector3.y (velocity p) < 0 /\ isJumping j = false /\ isFalling j = true) ->
  exists t' p' j',
    PhysicsSystem.updateEntity dt t p pc (Some j) = (t', p', Some j')
    /\ isStatic p' = false /\ isOnSurface j' = false /\ jumpRequested j' = false
    /\ gravity p' = gravity p
    /\ Vector3.y (velocity p') = Vector3.y (velocity p) - gravity p
    /\ ((0 <= Vector3.y (velocity p') /\ isJumping j' = true /\ isFalling j' = false)
        \/ (Vector3.y (velocity p') < 0 /\ isJumping j' = false /\ isFalling j' = true)).
Proof.
  intros Hs HS Hr Hg Hflags.
  destruct j as [jp J F S rq cj cd cdt]. cbn in HS, Hr, Hflags. subst S rq.
  unfold PhysicsSystem.updateEntity, PhysicsSystem.processJumping,
    PhysicsSystem.launch, PhysicsSystem.gravityAndApex, executeJumpIfRequested,
    updateCooldown, PhysicsSystem.processPlayerMovement,
    PhysicsSystem.applyFriction, PhysicsSystem.applyVelocity, setFlags.
  rewrite Hs.
  destruct Hflags as [(Hv & -> & ->) | (Hv & -> & ->)];
    destruct pc as [c|]; cbn; destruct (Rltb 0 cd); cbn;
    try (destruct (Rltb (Vector3.y (velocity p) - gravity p) 0) eqn:E; rhyps);
    do 3 eexists; (split; [ reflexivity | ]); cbn; rewrite ?Hs;
    repeat split; try reflexivity; try lra;
    first [ left; repeat split; (reflexivity || lra)
          | right; repeat split; (reflexivity || lra) ].
Qed.

Lemma airborne_flight (n : nat) (dt : R) (pc : option PlayerControl)
      (t : Transform) (p : Physics) (j : Jump) :
  isStatic p = false -> isOnSurface j = false -> jumpRequested j = false ->
  0 <= gravity p ->
  (0 <= Vector3.y (velocity p) /\ isJumping j = true /\ isFalling j = false)
  \/ (Vector3.y (velocity p) < 0 /\ isJumping j = false /\ isFalling j = true) ->
  exists t' p' j',
    integrateTimes n dt pc (t, p, Some j) = (t', p', Some j')
    /\ isOnSurface j' = false
    /\ Vector3.y (velocity p') = Vector3.y (velocity p) - INR n * gravity p
    /\ ((0 <= Vector3.y (velocity p') /\ isJumping j' = true /\ isFalling j' = false)
        \/ (Vector3.y (velocity p') < 0 /\ isJumping j' = false /\ isFalling j' = true)).
Proof.
  revert t p j. induction n as [| n IH]; intros t p j Hs HS Hr Hg Hflags.
  - exists t, p, j. cbn. repeat split; try assumption. lra.
  - destruct (airborne_step dt t p pc j Hs HS Hr Hg Hflags)
      as (t1 & p1 & j1 & E & Hs1 & HS1 & Hr1 & Hg1 & Hv1 & Hf1).
    cbn [integrateTimes]. rewrite E.
    assert (Hg1' : 0 <= gravity p1) by (rewrite Hg1; exact Hg).
    destruct (IH t1 p1 j1 Hs1 HS1 Hr1 Hg1' Hf1) as (t' & p' & j' & E' & HS' & Hv' & Hf').
    exists t', p', j'. split; [ exact E' | ]. split; [ exact HS' | ].
    split; [ | exact Hf' ].
    rewrite Hv', Hv1, Hg1, S_INR. ring.
Qed.

(** X26: the flight of a jump.  From a latched request on a non-static
    object that is not falling, with gravity >= 0, after n + 1 integrator
    calls without contact velocity.y is jumpPower - (n + 1) * gravity and
    the object is off the surface; it is in the Jumping state exactly while
    that velocity is not negative and in the Falling state from the first
    call on in which it is negative. *)
Theorem jump_flight (n : nat) (dt : R) (pc : option PlayerControl)
        (t : Transform) (p : Physics) (j : Jump) :
  isStatic p = false -> jumpRequested j = true -> isFalling j = false ->
  0 <= gravity p ->
  exists t' p' j',
    integrateTimes (S n) dt pc (t, p, Some j) = (t', p', Some j')
    /\ Vector3.y (velocity p') = jumpPower j - INR (S n) * gravity p
    /\ isOnSurface j' = false
    /\ (isJumping j' = true <-> 0 <= Vector3.y (velocity p'))
    /\ (isFalling j' = true <-> Vector3.y (velocity p') < 0).
Proof.
  intros Hs Hr HF Hg.
  destruct (updateEntity_requested dt t p pc j Hs Hr) as (t1 & p1 & E & Hv1).
  pose proof (integrator_keeps_configuration dt t p pc (Some j)) as C.
  rewrite E in C. destruct C as (_ & Hg1 & _ & _ & _ & _ & Hs1 & _).
  cbn [integrateTimes]. rewrite E.
  match type of E with
  | _ = (_, _, Some ?j1) =>
      assert (F1 : isOnSurface j1 = false /\ jumpRequested j1 = false
                   /\ ((0 <= Vector3.y (velocity p1) /\ isJumping j1 = true
                        /\ isFalling j1 = false)
                       \/ (Vector3.y (velocity p1) < 0 /\ isJumping j1 = false
                           /\ isFalling j1 = true)));
      [ | destruct F1 as (HS1 & Hr1 & Hf1);
          destruct (airborne_flight n dt pc t1 p1 j1) as (t' & p' & j' & E' & HS' & Hv' & Hf') ]
  end.
  - rewrite Hv1.
    destruct (Rltb (jumpPower j - gravity p) 0) eqn:T; rhyps; cbn.
    + split; [ reflexivity | ]. split; [ reflexivity | ]. right. auto.
    + split; [ reflexivity | ]. split; [ reflexivity | ]. left. rewrite HF. auto.
  - congruence.
  - exact HS1.
  - exact Hr1.
  - rewrite Hg1. exact Hg.
  - exact Hf1.
  - exists t', p', j'. split; [ exact E' | ].
    split; [ rewrite Hv', Hv1, Hg1, S_INR; ring | ].
    split; [ exact HS' | ].
    destruct Hf' as [(Hv & HJ & HFl) | (Hv & HJ & HFl)]; rewrite HJ, HFl;
      split; split; intros; try lra; try discriminate; reflexivity.
Qed.

Lemma jump_flight_witness :
  exists t' p' j',
    integrateTimes 3 (16 / 1000) None
      (marbleTransform0, marblePhysics0,
       Some (mkJump PHYSICS.JUMP_POWER false false true true true 0 (2 / 10)))
    = (t', p', Some j')
    /\ Vector3.y (velocity p') = PHYSICS.JUMP_POWER - INR 3 * PHYSICS.GRAVITY
    /\ isOnSurface j' = false
    /\ (isJumping j' = true <-> 0 <= Vector3.y (velocity p'))
    /\ (isFalling j' = true <-> Vector3.y (velocity p') < 0).
Proof.
  apply (jump_flight 2 (16 / 1000) None marbleTransform0 marblePhysics0
           (mkJump PHYSICS.JUMP_POWER false false true true true 0 (2 / 10)));
    try reflexivity.
  cbn. unfold PHYSICS.GRAVITY. lra.
Defined.

Section Rest.

Variable applyEuler : Vec3 -> Vec3 -> Vec3.
Variable applyEulerInverse : Vec3 -> Vec3 -> Vec3.

Lemma integrate_at_rest (dt : R) (t : Transform) (p : Physics)
      (pc : option PlayerControl) (j : Jump) :
  previousPosition t = position t ->
  velocity p = vec3 0 0 0 -> isStatic p = false ->
  isOnSurface j = true -> isJumping j = false -> jumpRequested j = false ->
  jumpCooldown j <= 0 ->
  match pc with
  | Some c => moveDirectionX c = 0 /\ moveDirectionZ c = 0
  | None => True
  end ->
  PhysicsSystem.updateEntity dt t p pc (Some j) = (t, p, Some j).
Proof.
  intros Hprev Hv Hs HS HJ Hr Hcd Hpc.
  destruct t as [pos rot sc prev]. destruct pos as [px py pz].
  destruct p as [v m g f af b og st].
  destruct j as [jp J F S rq cj cd cdt].
  cbn in *. subst prev v st S J rq.
  unfold PhysicsSystem.updateEntity, PhysicsSystem.processJumping,
    PhysicsSystem.launch, PhysicsSystem.gravityAndApex, executeJumpIfRequested,
    updateCooldown, PhysicsSystem.processPlayerMovement,
    PhysicsSystem.applyFriction, PhysicsSystem.applyVelocity, setFlags,
    savePreviousPosition, setPosition, setVelocity, Vector3.add.
  cbn.
  replace (Rltb 0 cd) with false by (symmetry; apply Rltb_false; lra).
  destruct pc as [[sp acf mx mz]|]; cbn in *.
  - destruct Hpc as [-> ->]. cbn.
    repeat f_equal; destruct og; ring.
  - repeat f_equal; destruct og; ring.
Qed.

Lemma resolve_at_rest (marbleId : nat) (mc : Collider) (entities : list Entity)
      (x z : R) (t : Transform) (p : Physics) (j : Jump) :
  position t = vec3 x OBJECTS.MARBLE_RADIUS z ->
  Rabs x <= OBJECTS.PLATFORM_SIZE -> Rabs z <= OBJECTS.PLATFORM_SIZE ->
  velocity p = vec3 0 0 0 -> isOnGround p = true ->
  Grounded j ->
  Forall (atRest marbleId) entities ->
  marblePass applyEuler applyEulerInverse marbleId mc entities (t, p, Some j)
  = (t, p, Some j).
Proof.
  intros Hpos Hx Hz Hv Hog (HS & HJ & HF) Hrest.
  destruct t as [pos rot sc prev]. destruct p as [v m g f af b og st].
  destruct j as [jp J F S rq cj cd cdt].
  cbn in *. subst pos v og S J F.
  unfold marblePass. cbn [resetSurface option_map].
  unfold checkBoundaryCollisions, JSMath.abs. cbn.
  apply Rleb_true in Hx, Hz. rewrite Hx, Hz. cbn [andb].
  unfold OBJECTS.MARBLE_RADIUS. rtest. cbn.
  apply fold_collideWith_at_rest; [ reflexivity | exact Hrest ].
Qed.

(** X27: rest is a steady state.  A non-static marble lying on the main
    platform (at resting height within the platform extent, zero velocity,
    isOnGround set, Grounded, no pending request, no cooldown left) is
    exactly the same after a whole tick of the game loop in which the jump
    key is up and no move direction is given, as long as the entities it
    touches are at rest; hence also after any number of such ticks. *)
Theorem rest_is_steady (x z : R) (t : Transform) (p : Physics) (j : Jump)
        (ticks : list TickInput) :
  position t = vec3 x OBJECTS.MARBLE_RADIUS z ->
  previousPosition t = position t ->
  Rabs x <= OBJECTS.PLATFORM_SIZE -> Rabs z <= OBJECTS.PLATFORM_SIZE ->
  velocity p = vec3 0 0 0 -> isOnGround p = true -> isStatic p = false ->
  Grounded j -> jumpRequested j = false -> jumpCooldown j <= 0 ->
  Forall (fun i =>
            jumpKey i = false
            /\ match tickControl i with
               | Some c => moveDirectionX c = 0 /\ moveDirectionZ c = 0
               | None => True
               end
            /\ Forall (atRest (tickMarbleId i)) (tickEntities i)) ticks ->
  runTicks applyEuler applyEulerInverse (t, p, j) ticks = (t, p, j).
Proof.
  intros Hpos Hprev Hx Hz Hv Hog Hs Hgr Hr Hcd Hticks.
  induction Hticks as [| i rest (Hk & Hc & He) _ IH]; cbn [runTicks fold_left].
  - reflexivity.
  - assert (E : runPasses applyEuler applyEulerInverse (t, p, j) (tickPasses i)
                = (t, p, j)).
    { unfold tickPasses, runPasses. rewrite Hk. cbn [app fold_left].
      destruct Hgr as (HS & HJ & HF).
      assert (E1 : runPass applyEuler applyEulerInverse (t, p, j) JumpTransition
                   = (t, p, j)).
      { unfold runPass, JumpSystem.updateEntity. rewrite HS, HJ, HF. cbn.
        destruct j; cbn in *; subst; reflexivity. }
      rewrite E1.
      assert (E2 : runPass applyEuler applyEulerInverse (t, p, j)
                     (Integrate (tickDelta i) (tickControl i)) = (t, p, j)).
      { unfold runPass. rewrite integrate_at_rest by assumption. reflexivity. }
      rewrite E2.
      unfold runPass.
      rewrite (resolve_at_rest (tickMarbleId i) (tickCollider i) (tickEntities i)
                 x z t p j) by (repeat split; assumption).
      reflexivity. }
    unfold runTicks in IH. rewrite E. exact IH.
Qed.

End Rest.

Lemma rest_is_steady_witness :
  let i := mkTickInput false (16 / 1000) None 1 marbleCollider0 [platformEntity] in
  runTicks noRotation noRotation
    (marbleTransform0, setIsOnGround marblePhysics0 true, marbleJump0) [i; i; i]
  = (marbleTransform0, setIsOnGround marblePhysics0 true, marbleJump0).
Proof.
  cbn zeta.
  apply (rest_is_steady noRotation noRotation 0 0); try reflexivity.
  all: try (rewrite Rabs_R0; unfold OBJECTS.PLATFORM_SIZE; lra).
  all: try (repeat split; reflexivity).
  all: try (unfold marbleJump0, newJump; cbn; lra).
  repeat constructor; right; reflexivity.
Defined.

Lemma jump_transition_settles_witness :
  let '(p', j') :=
    JumpSystem.updateEntity (setVelocity marblePhysics0 (vec3 0 (- (1 / 10)) 0))
      (mkJump PHYSICS.JUMP_POWER true false true false true 0 (2 / 10)) in
  isJumping j' = false /\ isFalling j' = false.
Proof.
  pose proof (jump_transition_settles
                (setVelocity marblePhysics0 (vec3 0 (- (1 / 10)) 0))
                (mkJump PHYSICS.JUMP_POWER true false true false true 0 (2 / 10))) as H.
  destruct (JumpSystem.updateEntity _ _) as [p' j'].
  destruct H as (HS & Hon & _).
  apply Hon. rewrite HS. reflexivity.
Defined.

Lemma entity_ids_never_reused_witness :
  let cs := [Ecs.Create; Ecs.Create; Ecs.Remove (Ecs.newEntity 1)] in
  let w := fold_left Ecs.call cs Ecs.empty in
  let full := Ecs.mk [(2%nat, Ecs.newEntity 2)] Ecs.maxCounter in
  id (fst (Ecs.createEntity w)) = 3%nat /\ id (Ecs.newEntity 2) = 2%nat
  /\ id (fst (Ecs.createEntity (snd (Ecs.createEntity full))))
     = id (fst (Ecs.createEntity full)).
Proof.
  cbn zeta.
  destruct (EcsFacts.entity_ids_never_reused
              [Ecs.Create; Ecs.Create; Ecs.Remove (Ecs.newEntity 1)]
              (Ecs.mk [(2%nat, Ecs.newEntity 2)] Ecs.maxCounter))
    as [Hsmall Hfull].
  destruct Hsmall as (_ & Hid & Hnext & _); [ reflexivity | ].
  split; [ exact Hnext | ].
  split; [ apply Hid; cbn; left; reflexivity | ].
  exact (proj1 (Hfull eq_refl)).
Defined.

(** X14: the through-the-hole exemption off the axis.  A sphere whose
    centre, taken into the frame of the torus, is at a positive distance
    below majorRadius - tube - sphereRadius from the axis of the torus is
    reported as not colliding, at every height along the axis (for a tube
    and a sphere radius that are not negative). *)
Theorem torus_hole_exemption_off_axis
        (applyEuler applyEulerInverse : Vec3 -> Vec3 -> Vec3)
        (spherePos : Vec3) (sphereRadius : R) (torusPos torusRot : Vec3)
        (torusRadius torusTube : R) :
  let local := applyEulerInverse torusRot (Vector3.subVectors spherePos torusPos) in
  let d := Vector2.length (Vector2.mk (Vector3.x local) (Vector3.z local)) in
  0 < d -> d < torusRadius - torusTube - sphereRadius ->
  0 <= torusTube -> 0 <= sphereRadius ->
  checkSphereTorusCollision applyEuler applyEulerInverse spherePos sphereRadius
                            torusPos torusRot torusRadius torusTube
  = noCollision.
Proof.
  intros local d Hd Hin Ht Hr. unfold checkSphereTorusCollision. fold local.
  pose proof (sphereTorusLocal_through_hole local sphereRadius torusRadius torusTube
                Hd Hin Ht Hr) as H.
  rewrite H.
  revert H. unfold sphereTorusLocal.
  repeat match goal with
         | |- context [if ?b then _ else _] => destruct b; cbn
         end; intros; congruence.
Qed.

Lemma torus_hole_exemption_off_axis_witness :
  checkSphereTorusCollision noRotation noRotation (vec3 1 10 0) (8 / 10)
                            (vec3 0 0 0) (vec3 0 0 0) 5 1
  = noCollision.
Proof.
  assert (D : Vector2.length (Vector2.mk (1 - 0) (0 - 0)) = 1).
  { unfold Vector2.length. cbn. apply sqrt_of_square; lra. }
  apply (torus_hole_exemption_off_axis noRotation noRotation);
    unfold noRotation, Vector3.subVectors; cbn [Vector3.x Vector3.y Vector3.z];
    rewrite ?D; lra.
Defined.

(** ** The pairwise phase after a respawn *)

Lemma pusher_distance :
  Vector3.distanceTo (vec3 0 OBJECTS.MARBLE_RADIUS 0) (vec3 1 OBJECTS.MARBLE_RADIUS 0) = 1.
Proof.
  unfold Vector3.distanceTo. cbn [Vector3.x Vector3.y Vector3.z].
  apply sqrt_of_square; lra.
Qed.

Lemma pusher_direction :
  Vector3.length
    (Vector3.subVectors (vec3 0 OBJECTS.MARBLE_RADIUS 0) (vec3 1 OBJECTS.MARBLE_RADIUS 0))
  = 1.
Proof.
  unfold Vector3.length, Vector3.subVectors. cbn [Vector3.x Vector3.y Vector3.z].
  apply sqrt_of_square; lra.
Qed.

(** C7 (counterexample to the claim as stated): the marble at (150, -100, 0),
    outside the platform extent and below y = -20, in a world that holds a
    sphere one unit from the spawn point moving toward it.  The boundary
    check of the resolver pass respawns the marble; the pairwise phase of
    the same pass then finds the sphere 0.6 inside the respawned marble and
    resolves the contact, so that the pass ends with position.x = -0.6 and
    velocity.x = -1.3 instead of the respawn state. *)
Lemma respawn_pass_counterexample :
  let st := marblePass noRotation noRotation 1 marbleCollider0 [pusherEntity]
                       (fallenTransform, fallenPhysics, Some fallenJump) in
  OBJECTS.PLATFORM_SIZE < Rabs (Vector3.x (position fallenTransform))
  /\ Vector3.y (position fallenTransform) < - 20
  /\ Vector3.x (position (fst (fst st))) = - (6 / 10)
  /\ Vector3.x (velocity (snd (fst st))) = - (13 / 10)
  /\ ~ Respawned st.
Proof.
  assert (Hout : OBJECTS.PLATFORM_SIZE < Rabs (Vector3.x (position fallenTransform))).
  { cbn. unfold OBJECTS.PLATFORM_SIZE. rewrite Rabs_right; lra. }
  assert (Hy : Vector3.y (position fallenTransform) < - 20) by (cbn; lra).
  cbn zeta. split; [ exact Hout | ]. split; [ exact Hy | ].
  unfold marblePass. cbn [resetSurface].
  rewrite checkBoundaryCollisions_respawn by (try (left; exact Hout); exact Hy).
  unfold respawnMarble. cbn [fold_left]. unfold collideWith.
  cbn [id pusherEntity Nat.eqb transform collider surface physics].
  unfold checkCollision.
  cbn [type marbleCollider0 position setPosition radius fallenTransform].
  unfold checkSphereSphereCollision.
  rewrite pusher_distance.
  replace (Rltb 1 (OBJECTS.MARBLE_RADIUS + OBJECTS.MARBLE_RADIUS)) with true
    by (symmetry; apply Rltb_true; unfold OBJECTS.MARBLE_RADIUS; lra).
  replace (Rltb 0 1) with true by (symmetry; apply Rltb_true; lra).
  cbn [collided]. unfold resolveCollision. cbn [isTrigger normal penetration].
  unfold Vector3.normalize. rewrite pusher_direction.
  replace (Rneqb 1 0) with true by (symmetry; apply Rneqb_true; lra).
  unfold Vector3.divideScalar, Vector3.subVectors, Vector3.dot, Vector3.zero.
  cbn [velocity setVelocity setIsOnGround Vector3.x Vector3.y Vector3.z
       marblePhysics0 newPhysics bounceCoefficient position setPosition].
  replace (Rltb ((0 - -1) * ((0 - 1) / 1)
                 + (0 - 0) * ((OBJECTS.MARBLE_RADIUS - OBJECTS.MARBLE_RADIUS) / 1)
                 + (0 - 0) * ((0 - 0) / 1)) 0)
    with true by (symmetry; apply Rltb_true; lra).
  replace (Rltb (1 / 10) ((OBJECTS.MARBLE_RADIUS - OBJECTS.MARBLE_RADIUS) / 1))
    with false by (symmetry; apply Rltb_false; lra).
  cbn [fst snd position velocity setPosition setVelocity Vector3.x].
  unfold JSMath.min. rewrite Rmin_left by lra.
  cbn [fallenPhysics bounceCoefficient setVelocity marblePhysics0 newPhysics].
  unfold OBJECTS.MARBLE_RADIUS, PHYSICS.BOUNCE_COEFFICIENT.
  split; [ lra | ]. split; [ lra | ].
  unfold Respawned. intros (Hp & _).
  apply (f_equal Vector3.x) in Hp.
  cbn [Vector3.x position setPosition] in Hp. lra.
Qed.
